(** * SODA-Classify-Preprocess-Data: the preprocessing pipeline, embedded

    A shallow embedding of [bin/preprocess_cell_type_classification.py],
    of [binarize_and_save_fm] from
    [bin/preprocess_functional_marker_classification.py] and of the older
    [convert_pixels_to_micrometre] of [scripts/preprocess-training-data.py].

    Conventions of the embedding.
    - A Python [str] is a [string] holding the UTF-8 bytes of the text.
      Literal search and replacement, and the code point order used by
      [sorted], agree on both views because UTF-8 is self-synchronising
      and order preserving.
    - A pandas [float64] value is a binary64 number, a [spec_float] of the
      standard library with precision 53 and exponent bound 1024; its
      arithmetic is the correctly rounded one (to nearest, ties to even),
      with infinities and signed zeros.  An integer (a label index, a 0/1
      flag) is the float of its value, which is exact below 2^53.  A
      missing value ([NaN]) is the cell [NA]: a number cell does not hold
      the NaN of the floats.
    - A [DataFrame] is the ordered list of its columns; labels may repeat,
      as pandas allows.  The row index is the default [RangeIndex].
    - A Python exception is the [Err] result. *)

From Stdlib Require Import Ascii ZArith SpecFloat.
From stdpp Require Import base option list sorting strings gmap.

(** ** Exceptions and results *)

Inductive exn : Set :=
  | KeyError
  | ValueError
  | TypeError
  | AttributeError
  | IndexError
  | RuntimeError.

Inductive result (A : Type) : Type :=
  | Ok (a : A)
  | Err (e : exn).
Arguments Ok {A} a.
Arguments Err {A} e.

#[global] Instance exn_eq_dec : EqDecision exn.
Proof. solve_decision. Defined.

#[global] Instance result_eq_dec {A} `{EqDecision A} : EqDecision (result A).
Proof. solve_decision. Defined.

#[global] Instance result_ret : MRet result := λ A a, Ok a.
#[global] Instance result_bind : MBind result := λ A B f m,
  match m with
  | Ok a => f a
  | Err e => Err e
  end.

Definition is_ok {A} (r : result A) : bool :=
  match r with Ok _ => true | Err _ => false end.

(** [try: body except KeyError: handler]. *)
Definition except_KeyError {A} (body : result A) (handler : result A) : result A :=
  match body with
  | Err KeyError => handler
  | r => r
  end.

(** ** Python string primitives *)

Module Py.

(** [s.startswith(p)] *)
Fixpoint startswith (p s : string) : bool :=
  match p, s with
  | EmptyString, _ => true
  | String a p', String b s' => if Ascii.eqb a b then startswith p' s' else false
  | String _ _, EmptyString => false
  end.

(** [sub in s] *)
Fixpoint contains (sub s : string) : bool :=
  startswith sub s ||
  match s with
  | EmptyString => false
  | String _ s' => contains sub s'
  end.

(** [s.replace(old, new, count)] for a non-empty [old]: the occurrences
    are found left to right and do not overlap.  [skip] counts the
    characters of the current match still to be consumed; [count = None]
    replaces every occurrence. *)
Fixpoint replace_from (old new : string) (count : option nat) (skip : nat)
    (s : string) : string :=
  match s with
  | EmptyString => EmptyString
  | String c s' =>
      match skip with
      | S k => replace_from old new count k s'
      | O =>
          if bool_decide (count = Some 0%nat) then s
          else if startswith old s
          then new +:+ replace_from old new (pred <$> count) (String.length old - 1) s'
          else String c (replace_from old new count 0 s')
      end
  end.

Definition replace (old new s : string) : string :=
  replace_from old new None 0 s.

Definition replace_count (old new : string) (count : nat) (s : string) : string :=
  replace_from old new (Some count) 0 s.

(** [\d] on the bytes of a name: the ASCII digits.  Python's [\d] matches
    the decimal digits of other scripts too, which all lie at U+0660 or
    above; the model follows the code on names without such characters
    ([plain_digits] below). *)
Definition isdigit (c : Ascii.ascii) : bool :=
  let n := Ascii.nat_of_ascii c in (48 <=? n)%nat && (n <=? 57)%nat.

Definition is_dot (c : Ascii.ascii) : bool := Ascii.eqb c "."%char.

Definition head_isdigit (s : string) : bool :=
  match s with
  | EmptyString => false
  | String c _ => isdigit c
  end.

(** [re.sub(r"(?<!\d)\.(?!\d)", " ", s)]: a period is rewritten when the
    character before it is not a digit and the character after it is not
    a digit.  [prev] is the character before the current position. *)
Fixpoint sub_lone_dots (prev : option Ascii.ascii) (s : string) : string :=
  match s with
  | EmptyString => EmptyString
  | String c s' =>
      let lookbehind := negb (from_option isdigit false prev) in
      let lookahead := negb (head_isdigit s') in
      String (if is_dot c && lookbehind && lookahead then " "%char else c)
             (sub_lone_dots (Some c) s')
  end.

(** [os.path.join(a, b)] on POSIX. *)
Definition path_join (a b : string) : string :=
  if startswith "/" b then b
  else if bool_decide (a = "") then b
  else if startswith "/" (String.rev a) then a +:+ b
  else a +:+ "/" +:+ b.

End Py.

(** ** Binary64 numbers *)

Abbreviation float64 := spec_float.

#[global] Instance float64_eq_dec : EqDecision float64.
Proof. solve_decision. Defined.

#[global] Program Instance float64_countable : Countable float64 :=
  inj_countable'
    (λ x, match x with
          | S754_zero s => inl s
          | S754_infinity s => inr (inl s)
          | S754_nan => inr (inr (inl ()))
          | S754_finite s m e => inr (inr (inr (s, m, e)))
          end)
    (λ y, match y with
          | inl s => S754_zero s
          | inr (inl s) => S754_infinity s
          | inr (inr (inl _)) => S754_nan
          | inr (inr (inr (s, m, e))) => S754_finite s m e
          end) _.
Next Obligation. by intros [s|s| |s m e]. Qed.

Module B64.

Definition prec : Z := 53.
Definition emax : Z := 1024.

(** [x * y], [x + y], [x - y], [x / y] on Python floats *)
Definition mul : float64 → float64 → float64 := SFmul prec emax.
Definition add : float64 → float64 → float64 := SFadd prec emax.
Definition sub : float64 → float64 → float64 := SFsub prec emax.
Definition div : float64 → float64 → float64 := SFdiv prec emax.

(** [float(z)] for an integer *)
Definition of_Z (z : Z) : float64 := binary_normalize prec emax z 0 false.

(** The float that a decimal literal denotes, the literal given as the
    fraction [n/d] of two integers below 2^53 (0.3906 as 3906/10000): the
    quotient of two exact floats is the float nearest to the fraction, as
    the literal is. *)
Definition decimal (n : Z) (d : positive) : float64 := div (of_Z n) (of_Z (Zpos d)).

Definition zero : float64 := S754_zero false.

(** [x != x] *)
Definition is_nan (x : float64) : bool :=
  match x with S754_nan => true | _ => false end.


End B64.

(** ** Cells, series and frames *)

Inductive cell : Type :=
  | NA
  | Num (x : float64)
  | Str (s : string).

(** The cell of a computed float: pandas reads the NaN of the floats as
    missing, so that a table holds a NaN as [NA] and never under [Num]. *)
Definition float_cell (x : float64) : cell :=
  if B64.is_nan x then NA else Num x.

#[global] Instance cell_eq_dec : EqDecision cell.
Proof. solve_decision. Defined.

#[global] Instance Str_inj : Inj (=) (=) Str.
Proof. by intros s1 s2 [= ?]. Qed.

Record Series : Type := mkSeries { name : string; values : list cell }.

#[global] Instance Series_eq_dec : EqDecision Series.
Proof. solve_decision. Defined.

Abbreviation DataFrame := (list Series).

(** What a Python variable bound to a pandas object may hold. *)
Inductive pandas_obj : Type :=
  | Frame (df : DataFrame)
  | ASeries (s : Series).

#[global] Instance pandas_obj_eq_dec : EqDecision pandas_obj.
Proof. solve_decision. Defined.

#[global] Program Instance cell_countable : Countable cell :=
  inj_countable'
    (λ c, match c with
          | NA => inl ()
          | Num x => inr (inl x)
          | Str s => inr (inr s)
          end)
    (λ y, match y with
          | inl _ => NA
          | inr (inl x) => Num x
          | inr (inr s) => Str s
          end) _.
Next Obligation. by intros [|x|s]. Qed.

(** ** Output files and the pipeline monad *)

Inductive file : Type :=
  | JsonFile (obj : gmap nat cell)
  | CsvFile (table : DataFrame)
  | ParquetFile (table : DataFrame).

Abbreviation files := (gmap string file).

(** A computation that may write files and may raise; what was written
    before an exception stays on disk. *)
Definition io (A : Type) : Type := files → result A * files.

#[global] Instance io_ret : MRet io := λ A a fs, (Ok a, fs).
#[global] Instance io_bind : MBind io := λ A B f m fs,
  match m fs with
  | (Ok a, fs') => f a fs'
  | (Err e, fs') => (Err e, fs')
  end.

Definition lift {A : Type} (r : result A) : io A := λ fs, (r, fs).

Definition write (path : string) (f : file) : io () := λ fs, (Ok (), <[path := f]> fs).

(** [for x in xs: state = body(state, x)], stopping at the first exception. *)
Fixpoint for_each {S A : Type} (body : S → A → result S) (state : S) (xs : list A)
    : result S :=
  match xs with
  | [] => Ok state
  | x :: xs' => state' ← body state x; for_each body state' xs'
  end.

(** ** pandas primitives *)

Module Pd.

(** [df.columns] *)
Definition columns (df : DataFrame) : list string := name <$> df.

(** [df[label]] and [df.loc[:, label]] for one label.  When the label is
    repeated pandas answers with a frame; the stages below read single
    columns by labels that occur once, and the first is taken. *)
Fixpoint getitem (df : DataFrame) (label : string) : result Series :=
  match df with
  | [] => Err KeyError
  | s :: df' => if bool_decide (name s = label) then Ok s else getitem df' label
  end.

(** [df.loc[:, label]] as the frame of every column that carries the label *)
Definition loc_label (df : DataFrame) (label : string) : DataFrame :=
  filter (λ s, name s = label) df.

(** [df[labels]] and [df.loc[:, labels]] for a list of labels: for each
    requested label in turn, every column that carries it. *)
Fixpoint select (df : DataFrame) (labels : list string) : result DataFrame :=
  match labels with
  | [] => Ok []
  | l :: ls =>
      match filter (λ s, name s = l) df with
      | [] => Err KeyError
      | cs => rest ← select df ls; Ok (cs ++ rest)
      end
  end.

(** [df.drop(columns=labels)], [df.drop(labels, axis=1)] *)
Definition drop (df : DataFrame) (labels : list string) : result DataFrame :=
  if bool_decide (Forall (λ l, l ∈ columns df) labels)
  then Ok (filter (λ s, name s ∉ labels) df)
  else Err KeyError.

(** [df.loc[:, label] = vals]: overwrite the column, or append a new one. *)
Definition setitem (df : DataFrame) (label : string) (vals : list cell) : DataFrame :=
  if bool_decide (label ∈ columns df)
  then (λ s, if bool_decide (name s = label) then mkSeries label vals else s) <$> df
  else df ++ [mkSeries label vals].

(** [df.columns = labels] *)
Definition set_columns (df : DataFrame) (labels : list string) : DataFrame :=
  zip_with (λ l s, mkSeries l (values s)) labels df.

(** [s.isnull()] on one cell *)
Definition isnull (c : cell) : bool :=
  match c with NA => true | _ => false end.

(** [x * k] for a float [k], rounded as binary64 multiplication is: a [str]
    times a float is a [TypeError]. *)
Definition cell_mul (k : float64) (c : cell) : result cell :=
  match c with
  | NA => Ok NA
  | Num x => Ok (float_cell (B64.mul x k))
  | Str _ => Err TypeError
  end.

(** [s * k] *)
Definition mul (vals : list cell) (k : float64) : result (list cell) :=
  mapM (cell_mul k) vals.

(** [s.fillna(other)] with both on the same row index *)
Definition fillna (vals other : list cell) : list cell :=
  zip_with (λ v o, if isnull v then o else v) vals other.

(** [s.drop(labels, axis=axis)]: a Series has the single axis 0, whose
    labels are the row numbers, so that a column label is not found on it;
    for any other axis pandas raises
    [ValueError: No axis named 1 for object type Series]. *)
Definition series_drop (s : Series) (labels : list string) (axis : nat) : result Series :=
  match axis with
  | 0 => if bool_decide (labels = []) then Ok s else Err KeyError
  | _ => Err ValueError
  end.

(** [index[mask]], [s[mask]], [df.loc[mask, label]]: the entries at the
    rows where the mask holds *)
Fixpoint take_where {A : Type} (mask : list bool) (xs : list A) : list A :=
  match mask, xs with
  | true :: mask', x :: xs' => x :: take_where mask' xs'
  | false :: mask', _ :: xs' => take_where mask' xs'
  | _, _ => []
  end.

(** [df.loc[mask, label] = new]: the rows where the mask holds take the
    entries of [new] in turn, the other rows keep theirs. *)
Fixpoint put_where (mask : list bool) (old new : list cell) : list cell :=
  match mask, old with
  | true :: mask', _ :: old' =>
      match new with
      | n :: new' => n :: put_where mask' old' new'
      | [] => old
      end
  | false :: mask', x :: old' => x :: put_where mask' old' new
  | _, _ => old
  end.

(** [mask.any()] *)
Definition any (mask : list bool) : bool := existsb id mask.

(** [index.duplicated()]: true at every occurrence of a label but its first *)
Fixpoint duplicated_from (seen labels : list string) : list bool :=
  match labels with
  | [] => []
  | l :: ls => bool_decide (l ∈ seen) :: duplicated_from (l :: seen) ls
  end.

Definition duplicated (labels : list string) : list bool := duplicated_from [] labels.

(** [s.unique()]: the distinct values in order of first appearance *)
Fixpoint unique_from {A : Type} `{EqDecision A} (seen xs : list A) : list A :=
  match xs with
  | [] => []
  | x :: xs' =>
      if bool_decide (x ∈ seen) then unique_from seen xs'
      else x :: unique_from (x :: seen) xs'
  end.

Definition unique {A : Type} `{EqDecision A} (xs : list A) : list A := unique_from [] xs.

Definition is_str (c : cell) : bool :=
  match c with Str _ => true | _ => false end.

(** [s.str.replace(old, new)]: the accessor exists on a column of dtype
    object only (here: a column holding some string, as [read_csv] infers
    it); an entry that is not a string becomes NaN. *)
Definition str_replace (old new : string) (vals : list cell) : result (list cell) :=
  if existsb is_str vals
  then Ok ((λ c, match c with Str s => Str (Py.replace old new s) | _ => NA end) <$> vals)
  else Err AttributeError.

(** [s.replace(to_replace, value)] for a list of strings and one string *)
Definition replace_list (to_replace : list string) (value : string) (vals : list cell)
    : list cell :=
  (λ c, match c with
        | Str s => if bool_decide (s ∈ to_replace) then Str value else c
        | _ => c
        end) <$> vals.

(** The row [r] of a group of columns *)
Definition row (cols : DataFrame) (r : nat) : list cell :=
  (λ s, default NA (values s !! r)) <$> cols.

(** The number of rows, read off the first column *)
Definition nrows (df : DataFrame) : nat :=
  match df with
  | [] => 0
  | s :: _ => length (values s)
  end.

(** The numbers of a row that are present ([skipna=True] passes over NaN); a
    string cannot be averaged. *)
Fixpoint present (vs : list cell) : result (list float64) :=
  match vs with
  | [] => Ok []
  | NA :: vs' => present vs'
  | Num x :: vs' => xs ← present vs'; Ok (if B64.is_nan x then xs else x :: xs)
  | Str _ :: _ => Err TypeError
  end.

(** One value added to the running sum of the group mean, which pandas
    keeps with a compensation term (Kahan summation, [group_mean] of
    [pandas/_libs/groupby.pyx]):
    [y = val - compensation; t = sumx + y;
     compensation = t - sumx - y; sumx = t],
    the compensation being reset to 0 when it is NaN. *)
Definition kahan_step (acc : float64 * float64) (val : float64) : float64 * float64 :=
  let '(sumx, compensation) := acc in
  let y := B64.sub val compensation in
  let t := B64.add sumx y in
  let compensation := B64.sub (B64.sub t sumx) y in
  (t, if B64.is_nan compensation then B64.zero else compensation).

Definition kahan_sum (xs : list float64) : float64 :=
  (foldl kahan_step (B64.zero, B64.zero) xs).1.

(** [sumx / nobs] over the values that are present *)
Definition float_mean (xs : list float64) : cell :=
  match xs with
  | [] => NA
  | _ => float_cell (B64.div (kahan_sum xs) (B64.of_Z (Z.of_nat (length xs))))
  end.

(** The mean with [skipna=True]: NaN when nothing is present *)
Definition mean (vs : list cell) : result cell :=
  xs ← present vs;
  Ok (float_mean xs).

(** [df.groupby(df.columns, axis=1).mean()]: one column per distinct label,
    the labels in sorted order, each row the mean over the columns that
    carry the label. *)
Definition groupby_columns_mean (df : DataFrame) : result DataFrame :=
  mapM (λ g, vals ← mapM (λ r, mean (row (filter (λ s, name s = g) df) r))
                         (seq 0 (nrows df));
             Ok (mkSeries g vals))
       (merge_sort String.le (unique (columns df))).

(** [left.join(right)] on a shared row index: the labels must not overlap. *)
Definition join (left right : DataFrame) : result DataFrame :=
  if bool_decide (Forall (λ l, l ∉ columns left) (columns right))
  then Ok (left ++ right)
  else Err ValueError.

End Pd.

(** ** Coordinate unit resolver *)

Definition um_col (dim : string) : string := "Centroid " +:+ dim +:+ " µm".
Definition px_col (dim : string) : string := "Centroid " +:+ dim +:+ " px".

(** The body of [for dim in ["X", "Y"]] of [convert_pixels_to_micrometre]
    (bin/preprocess_cell_type_classification.py, lines 353-381).  In the
    first branch the variable [expression_df] is rebound to the filled
    Series, on which [drop(..., axis=1)] is then called.  In the second
    branch [expression_df.loc[:, px_col]] is every column of that label;
    when there are several, their product is a frame of several columns,
    which cannot be assigned to the one new label ([ValueError]). *)
Definition centroid_step (pixel_size : float64) (expression_df : pandas_obj) (dim : string)
    : result pandas_obj :=
  match expression_df with
  | ASeries _ => Err AttributeError
  | Frame df =>
      let cols := Pd.columns df in
      if bool_decide (um_col dim ∈ cols) && bool_decide (px_col dim ∈ cols) then
        um ← Pd.getitem df (um_col dim);
        px ← Pd.getitem df (px_col dim);
        scaled ← Pd.mul (values px) pixel_size;
        let expression_df := mkSeries (um_col dim) (Pd.fillna (values um) scaled) in
        _ ← Pd.series_drop expression_df [px_col dim] 1;
        Ok (ASeries expression_df)
      else if bool_decide (um_col dim ∉ cols) && bool_decide (px_col dim ∈ cols) then
        scaled ← mapM (λ px, Pd.mul (values px) pixel_size) (Pd.loc_label df (px_col dim));
        match scaled with
        | [scaled] =>
            df' ← Pd.drop (Pd.setitem df (um_col dim) scaled) [px_col dim];
            Ok (Frame df')
        | _ => Err ValueError
        end
      else if bool_decide (um_col dim ∈ cols) && bool_decide (px_col dim ∉ cols) then
        Ok (Frame df)
      else Err RuntimeError
  end.

Definition fixed_pixel_size : float64 := B64.decimal 3906 10000.

Definition convert_pixels_to_micrometre (expression_df : DataFrame) (pixel_size : float64)
    : result pandas_obj :=
  let pixel_size := fixed_pixel_size in
  for_each (centroid_step pixel_size) (Frame expression_df) ["X"; "Y"].

(** The same loop in scripts/preprocess-training-data.py (lines 260-284):
    the micron column is probed inside [try], and a bare [except] falls
    back to creating it from the pixel column. *)
Module Scripts.

Definition centroid_step (pixel_size : float64) (expression_df : DataFrame) (dim : string)
    : result DataFrame :=
  let try_body :=
    um ← Pd.getitem expression_df (um_col dim);
    let null_arr := Pd.isnull <$> values um in
    if Pd.any null_arr then
      px ← Pd.getitem expression_df (px_col dim);
      scaled ← Pd.mul (Pd.take_where null_arr (values px)) pixel_size;
      let filled :=
        Pd.setitem expression_df (um_col dim) (Pd.put_where null_arr (values um) scaled) in
      _ ← Pd.drop filled [px_col dim];
      Ok filled
    else Ok expression_df in
  match try_body with
  | Ok df => Ok df
  | Err _ =>
      px ← Pd.getitem expression_df (px_col dim);
      scaled ← Pd.mul (values px) pixel_size;
      Pd.drop (Pd.setitem expression_df (um_col dim) scaled) [px_col dim]
  end.

Definition convert_pixels_to_micrometre (expression_df : DataFrame) (pixel_size : float64)
    : result DataFrame :=
  let pixel_size := fixed_pixel_size in
  for_each (centroid_step pixel_size) expression_df ["X"; "Y"].

End Scripts.

(** ** Column normalizer *)

Definition specific_matches : list (string * string) :=
  [ ("MHC.I..", "MHC I (");
    ("MHC.II..", "MHC II (");
    ("MHC_I_.", "MHC_I_(");
    ("MHC_II_.", "MHC_II_(");
    ("Target.", "Target:");
    ("Beta.Tubulin", "Beta-Tubulin");
    ("IFN.y", "IFN-y");
    ("HLA.DR", "HLA-DR") ].

(** [cols.str.replace(old, new)] on the column index *)
Definition index_replace (old new : string) (cols : list string) : list string :=
  Py.replace old new <$> cols.

Definition remove_dots (expression_df : DataFrame) : DataFrame :=
  let cols := Pd.columns expression_df in
  let cols := index_replace "Âµm" "µm" cols in
  let cols := index_replace "µm.2" "µm^2" cols in
  let cols := foldl (λ cols '(m, r), index_replace m r cols) cols specific_matches in
  let cols := index_replace "..." "): " cols in
  let cols := index_replace ".." ": " cols in
  let cols := index_replace "Std.Dev." "STD_DEV_PLACEHOLDER" cols in
  let cols := Py.sub_lone_dots None <$> cols in
  let cols := index_replace "STD_DEV_PLACEHOLDER" "Std.Dev." cols in
  Pd.set_columns expression_df cols.

(** [generate_warnings] builds a paragraph of the report; what the pipeline
    depends on is whether it raises.  The original names of each repeated
    name are gathered into a dict of lists, and [pd.DataFrame] of a dict of
    lists wants them all of one length. *)
Definition generate_warnings (expression_df : DataFrame) : result () :=
  let column_names_orig := Pd.columns expression_df in
  let column_names := index_replace "Target:" "" column_names_orig in
  let column_names := index_replace "_" " " column_names in
  let duplicated_column_names :=
    Pd.take_where (Pd.duplicated column_names) column_names in
  if bool_decide (0 < length duplicated_column_names) then
    let duplicated_columns :=
      (λ n, length (filter (λ c, c = n) column_names)) <$> duplicated_column_names in
    match duplicated_columns with
    | [] => Ok ()
    | k :: ks => if bool_decide (Forall (λ k', k' = k) ks) then Ok () else Err ValueError
    end
  else Ok ().

(** ** Label processor *)

Definition as_str (c : cell) : result string :=
  match c with
  | Str s => Ok s
  | _ => Err TypeError
  end.

(** [sorted(xs)] on the distinct values of a label column, which are
    strings and at most one NaN.  Strings are ordered by code point; [<]
    between a string and a float is a [TypeError]; a list of at most one
    entry is returned without any comparison.  (A label column of numbers
    alone, which Python would sort, is outside the model: it is given the
    [TypeError] as well.) *)
Definition sorted (xs : list cell) : result (list cell) :=
  match xs with
  | [] | [_] => Ok xs
  | _ => strs ← mapM as_str xs; Ok (Str <$> merge_sort String.le strs)
  end.

(** [df.loc[:, label] = f(df.loc[:, label])] *)
Definition update_column (df : DataFrame) (label : string)
    (f : list cell → result (list cell)) : result DataFrame :=
  s ← Pd.getitem df label;
  vals ← f (values s);
  Ok (Pd.setitem df label vals).

(** The frame is changed in place, so the cleaned frame is returned along
    with the two label lists. *)
Definition preprocess_celltypecolumn (expression_df : DataFrame)
    (cell_types_to_remove : list string) (change_to : string)
    : result (DataFrame * option (list cell) * option (list cell)) :=
  class ← Pd.getitem expression_df "Class";
  if Pd.any (negb ∘ Pd.isnull <$> values class) then
    df ← update_column expression_df "Class" (Pd.str_replace "Edited: " "");
    df ← except_KeyError (update_column df "Name" (Pd.str_replace "Edited: " "")) (Ok df);
    df ← update_column df "Class" (Pd.str_replace "Immune cells: " "");
    df ← except_KeyError
           (update_column df "Name" (Pd.str_replace "Immune cells: " "")) (Ok df);
    class ← Pd.getitem df "Class";
    found_cell_types ← sorted (Pd.unique (values class));
    df ← update_column df "Class" (Ok ∘ Pd.replace_list cell_types_to_remove change_to);
    df ← except_KeyError
           (update_column df "Name" (Ok ∘ Pd.replace_list cell_types_to_remove change_to))
           (Ok df);
    class ← Pd.getitem df "Class";
    cell_types ← sorted (Pd.unique (values class));
    Ok (df, Some found_cell_types, Some cell_types)
  else
    Ok (expression_df, None, None).

(** [{cell_types[i]: i for i in range(len(cell_types))}] and
    [{i: cell_types[i] for i in range(len(cell_types))}] *)
Definition encoder_of (cell_types : list cell) : gmap cell nat :=
  foldl (λ d i, match cell_types !! i with
                | Some c => <[c := i]> d
                | None => d
                end) ∅ (seq 0 (length cell_types)).

Definition decoder_of (cell_types : list cell) : gmap nat cell :=
  foldl (λ d i, match cell_types !! i with
                | Some c => <[i := c]> d
                | None => d
                end) ∅ (seq 0 (length cell_types)).

Definition create_encoder_decoder (cell_types : list cell) (output_folder batch_name : string)
    : io (gmap cell nat * gmap nat cell) :=
  let encoder := encoder_of cell_types in
  let decoder := decoder_of cell_types in
  _ ← write (Py.path_join output_folder (batch_name +:+ "_decoder.json")) (JsonFile decoder);
  mret (encoder, decoder).

(** [labels.replace({"Name": encoder})].  With a dict for [encoder] the
    entries of the column are looked up in it; with [None] the argument is
    the flat dict [{"Name": None}], which asks to replace the value
    ["Name"] by [None] wherever it stands. *)
Definition replace_in_column (label : string) (encoder : option (gmap cell nat))
    (labels : DataFrame) : DataFrame :=
  match encoder with
  | Some enc =>
      (λ s, if bool_decide (name s = label)
            then mkSeries (name s)
                   ((λ c, match enc !! c with
                          | Some i => Num (B64.of_Z (Z.of_nat i))
                          | None => c
                          end) <$> values s)
            else s) <$> labels
  | None =>
      (λ s, mkSeries (name s)
              ((λ c, if bool_decide (c = Str label) then NA else c) <$> values s)) <$> labels
  end.

Definition save_encoded_labels (expression_df : DataFrame)
    (encoder : option (gmap cell nat)) (output_folder batch_name : string) : io () :=
  let filename := Py.path_join output_folder (batch_name +:+ "_cell_type_labels.csv") in
  labels ← lift (Pd.select expression_df ["Name"]);
  let labels := replace_in_column "Name" encoder labels in
  write filename (CsvFile labels).

(** ** Feature table stages *)

Definition save_image_coordinate_columns (expression_df : DataFrame)
    (additional_meta_data : list string) (output_folder batch_name : string) : io () :=
  let image_coord_cols := ["Image"; "Centroid X µm"; "Centroid Y µm"] ++ additional_meta_data in
  image_coord_df ← lift (Pd.select expression_df image_coord_cols);
  let image_coord_file_name := Py.path_join output_folder (batch_name +:+ "_images.csv") in
  write image_coord_file_name (CsvFile image_coord_df).

Definition remove_prefixes_underscores (expression_df : DataFrame) : DataFrame :=
  let expression_df :=
    Pd.set_columns expression_df (index_replace "Target:" "" (Pd.columns expression_df)) in
  Pd.set_columns expression_df (index_replace "_" " " (Pd.columns expression_df)).

Definition remove_duplicate_columns (expression_df : DataFrame) : result DataFrame :=
  let duplicated_cols :=
    Pd.take_where (Pd.duplicated (Pd.columns expression_df)) (Pd.columns expression_df) in
  expression_df_duplicated ← Pd.select expression_df duplicated_cols;
  expression_df_duplicated ← Pd.groupby_columns_mean expression_df_duplicated;
  expression_df ← Pd.drop expression_df duplicated_cols;
  Pd.join expression_df expression_df_duplicated.

Definition collect_markers (expression_df : DataFrame) : list string :=
  Py.replace ": Cell: Mean" "" <$>
    filter (λ col, Py.contains "Cell: Mean" col) (Pd.columns expression_df).

Definition drop_markers (expression_df : DataFrame) (markers excluded_markers : list string)
    : result DataFrame :=
  let markers_ := (λ s, s +:+ ": ") <$> filter (λ s, s ∉ excluded_markers) markers in
  let measurement_columns :=
    filter (λ col, existsb (λ m, Py.contains m col) markers_) (Pd.columns expression_df) in
  Pd.select expression_df measurement_columns.

(** The body of [for col in expression_df.columns] of
    [replace_cytoplasm_with_membrane]; the frame is updated in place. *)
Definition cytoplasm_step (expression_df : DataFrame) (col : string) : result DataFrame :=
  s ← Pd.getitem expression_df col;
  let null_arr := Pd.isnull <$> values s in
  if Pd.any null_arr then
    if Py.contains "Cytoplasm" col then
      let new_col := Py.replace_count "Cytoplasm" "Membrane" 1 col in
      n ← Pd.getitem expression_df new_col;
      Ok (Pd.setitem expression_df col
            (Pd.put_where null_arr (values s) (Pd.take_where null_arr (values n))))
    else Ok expression_df
  else Ok expression_df.

Definition replace_cytoplasm_with_membrane (expression_df : DataFrame) : result DataFrame :=
  for_each cytoplasm_step expression_df (Pd.columns expression_df).

(** The body of the loop of [use_cell_measurement] *)
Definition nucleus_step (expression_df : DataFrame) (col : string) : result DataFrame :=
  s ← Pd.getitem expression_df col;
  let null_arr := Pd.isnull <$> values s in
  if Pd.any null_arr then
    if Py.contains "Nucleus" col then
      let new_col := Py.replace_count "Nucleus" "Cell" 1 col in
      n ← Pd.getitem expression_df new_col;
      Ok (Pd.setitem expression_df col
            (Pd.put_where null_arr (values s) (Pd.take_where null_arr (values n))))
    else Ok expression_df
  else Ok expression_df.

Definition use_cell_measurement (expression_df : DataFrame) : result DataFrame :=
  for_each nucleus_step expression_df (Pd.columns expression_df).

Definition remove_unwanted_compartments (expression_df : DataFrame)
    (unwanted_compartments : list string) : result DataFrame :=
  let compartments_cols_to_remove :=
    filter (λ col, existsb (λ t, Py.contains t col) unwanted_compartments)
           (Pd.columns expression_df) in
  Pd.drop expression_df compartments_cols_to_remove.

Definition remove_statistics (expression_df : DataFrame) (unwanted_stats : list string)
    : result DataFrame :=
  let statistics_cols_to_remove :=
    filter (λ col, existsb (λ t, Py.contains t col) unwanted_stats)
           (Pd.columns expression_df) in
  Pd.drop expression_df statistics_cols_to_remove.

Definition save_preprocessed_data (expression_df : DataFrame)
    (output_folder batch_name output_format : string) : io () :=
  if bool_decide (output_format = "parquet") then
    write (Py.path_join output_folder (batch_name +:+ "_preprocessed_input_data.parquet"))
          (ParquetFile expression_df)
  else
    write (Py.path_join output_folder (batch_name +:+ "_preprocessed_input_data.csv"))
          (CsvFile expression_df).

(** ** The pipeline *)

Record config : Type := mkConfig {
  batch_name : string;
  output_folder : string;
  cell_types_to_remove : list string;
  change_to : string;
  additional_meta_data_to_keep : list string;
  unwanted_markers : list string;
  unwanted_compartments : list string;
  unwanted_statistics : list string;
  output_format : string
}.

(** [if cell_types:] *)
Definition truthy (cell_types : option (list cell)) : bool :=
  match cell_types with
  | None | Some [] => false
  | Some (_ :: _) => true
  end.

(** Lines 612-648 of [preprocess_training_data]: everything after the
    label file has been saved.  The fields of the report are left out; the
    read of the [Class] column for its value counts is kept. *)
Definition feature_stages (cfg : config) (expression_df : DataFrame) : io () :=
  converted ← lift (convert_pixels_to_micrometre expression_df fixed_pixel_size);
  match converted with
  | ASeries _ => lift (Err AttributeError)
  | Frame expression_df =>
      _ ← save_image_coordinate_columns expression_df (additional_meta_data_to_keep cfg)
            (output_folder cfg) (batch_name cfg);
      _ ← lift (Pd.getitem expression_df "Class");
      let expression_df := remove_prefixes_underscores expression_df in
      expression_df ← lift (remove_duplicate_columns expression_df);
      let markers := collect_markers expression_df in
      expression_df ← lift (drop_markers expression_df markers (unwanted_markers cfg));
      expression_df ← lift (replace_cytoplasm_with_membrane expression_df);
      expression_df ← lift (use_cell_measurement expression_df);
      expression_df ←
        lift (remove_unwanted_compartments expression_df (unwanted_compartments cfg));
      expression_df ← lift (remove_statistics expression_df (unwanted_statistics cfg));
      save_preprocessed_data expression_df (output_folder cfg) (batch_name cfg)
        (output_format cfg)
  end.

(** [preprocess_training_data], given the table that [setup] has read *)
Definition preprocess_training_data (cfg : config) (input : DataFrame) : io () :=
  let expression_df := remove_dots input in
  _ ← lift (generate_warnings expression_df);
  '(expression_df, found_cell_types, cell_types) ←
    lift (preprocess_celltypecolumn expression_df (cell_types_to_remove cfg) (change_to cfg));
  encoder ←
    (if truthy cell_types then
       '(encoder, decoder) ←
         create_encoder_decoder (default [] cell_types) (output_folder cfg) (batch_name cfg);
       mret (Some encoder)
     else mret None);
  _ ← save_encoded_labels expression_df encoder (output_folder cfg) (batch_name cfg);
  feature_stages cfg expression_df.

(** ** Binary mode *)

Module FunctionalMarker.

(** [labels[i]] *)
Definition item (labels : list cell) (i : nat) : result cell :=
  match labels !! i with
  | Some c => Ok c
  | None => Err IndexError
  end.

(** [int("+" in x)]: membership in a float is a [TypeError]. *)
Definition plus_flag (x : cell) : result cell :=
  match x with
  | Str s => Ok (Num (B64.of_Z (if Py.contains "+" s then 1 else 0)))
  | _ => Err TypeError
  end.

Definition binarize_and_save_fm (expression_df : DataFrame) (output_folder batch_name : string)
    : io (gmap cell nat * gmap nat cell) :=
  classification ← lift (Pd.getitem expression_df "Classification");
  let binarized := values classification in
  labels ← lift (sorted (Pd.unique binarized));
  l0 ← lift (item labels 0);
  l1 ← lift (item labels 1);
  let decoder : gmap nat cell := <[0 := l1]> (<[1 := l0]> ∅) in
  let encoder : gmap cell nat := <[l1 := 0]> (<[l0 := 1]> ∅) in
  _ ← write (Py.path_join output_folder (batch_name +:+ "_decoder.json")) (JsonFile decoder);
  binarized ← lift (mapM plus_flag binarized);
  _ ← write (Py.path_join output_folder (batch_name +:+ "_binarized_labels.csv"))
        (CsvFile [mkSeries "Classification" binarized]);
  mret (encoder, decoder).

End FunctionalMarker.

(** ** Vocabulary of the statements *)

(** A cell of a numeric column: a number or NaN *)
Definition numeric (c : cell) : Prop := Pd.is_str c = false.

(** The value of a cell times [k] in binary64, NaN staying NaN *)
Definition times (k : float64) (c : cell) : cell :=
  match c with
  | Num x => float_cell (B64.mul x k)
  | c => c
  end.

(** The columns of the table that carry the label [g] *)
Definition occurrences (df : DataFrame) (g : string) : DataFrame :=
  filter (λ s, name s = g) df.

(** The two input states of an axis that the resolver accepts: the pixel
    column alone, once and numeric; or the micron column and no pixel
    column *)
Definition px_only (df : DataFrame) (dim : string) : Prop :=
  (um_col dim ∉ Pd.columns df) ∧
  (∃ px, occurrences df (px_col dim) = [px] ∧ Forall numeric (values px)).

Definition um_only (df : DataFrame) (dim : string) : Prop :=
  (um_col dim ∈ Pd.columns df) ∧ (px_col dim ∉ Pd.columns df).

(** The frame the pixel-only branch leaves: the pixel column is gone and the
    micron column stands at the end. *)
Definition px_branch_result (df : DataFrame) (dim : string) (px : Series) (k : float64)
    : DataFrame :=
  filter (λ s, name s ∉ [px_col dim]) df ++
  [mkSeries (um_col dim) (times k <$> values px)].

(** What one pass of the resolver guarantees for its axis, from the frame
    [df] before to the frame [df'] after *)
Definition axis_resolved (k : float64) (df df' : DataFrame) (dim : string) : Prop :=
  (px_col dim ∉ Pd.columns df') ∧
  (∀ px, um_col dim ∉ Pd.columns df → occurrences df (px_col dim) = [px] →
     Pd.getitem df' (um_col dim) = Ok (mkSeries (um_col dim) (times k <$> values px))) ∧
  (um_only df dim → Pd.getitem df' (um_col dim) = Pd.getitem df (um_col dim)).

(** The columns of the other labels are the same before and after. *)
Definition others_kept (df df' : DataFrame) (dim : string) : Prop :=
  ∀ l, l ≠ um_col dim → l ≠ px_col dim → Pd.getitem df' l = Pd.getitem df l.

(** A micron column whose missing entries are taken from the pixel column
    times [k] *)
Definition fill_from (k : float64) (um px : list cell) : list cell :=
  zip_with (λ u p, if Pd.isnull u then times k p else u) um px.

(** The column [s] is in the table that [drop_markers] returns. *)
Definition kept (df : DataFrame) (markers excluded : list string) (s : Series) : Prop :=
  ∃ df', drop_markers df markers excluded = Ok df' ∧ s ∈ df'.

(** The columns that carry one of the labels, label by label *)
Definition columns_labelled (df : DataFrame) (labels : list string) : DataFrame :=
  labels ≫= λ l, filter (λ s, name s = l) df.

(** Some kept marker, followed by [": "], occurs in the column name. *)
Definition measures_kept_marker (markers excluded : list string) (col : string) : Prop :=
  ∃ m, m ∈ markers ∧ (m ∉ excluded) ∧ Py.contains (m +:+ ": ") col = true.

(** The labels that [drop_markers] asks for *)
Definition measurement_columns (df : DataFrame) (markers excluded : list string)
    : list string :=
  filter (λ col, existsb (λ m, Py.contains m col)
                   ((λ s, s +:+ ": ") <$> filter (λ s, s ∉ excluded) markers))
         (Pd.columns df).

(** The paths of the label artifacts *)
Definition decoder_path (cfg_output_folder cfg_batch_name : string) : string :=
  Py.path_join cfg_output_folder (cfg_batch_name +:+ "_decoder.json").

Definition labels_path (cfg_output_folder cfg_batch_name : string) : string :=
  Py.path_join cfg_output_folder (cfg_batch_name +:+ "_cell_type_labels.csv").

(** The encoded value of a raw classification string *)
Definition plus_code (raw : string) : cell :=
  Num (B64.of_Z (if Py.contains "+" raw then 1 else 0)).

Definition binarized_path (cfg_output_folder cfg_batch_name : string) : string :=
  Py.path_join cfg_output_folder (cfg_batch_name +:+ "_binarized_labels.csv").

(** *** Duplicate column merger *)

(** The label stands on two columns or more. *)
Definition repeated (df : DataFrame) (g : string) : Prop :=
  2 ≤ length (occurrences df g).

(** The numbers among the cells of a row, NaN left out *)
Definition present_values (vs : list cell) : list float64 :=
  omap (λ c, match c with
             | Num x => if B64.is_nan x then None else Some x
             | _ => None
             end) vs.

(** [m] copies of a list, one after the other *)
Definition copies {A : Type} (m : nat) (xs : list A) : list A :=
  mjoin (replicate m xs).

(** The columns that the merger averages for the label [g]: the selection
    [expression_df[duplicated_cols]] asks for the label once for each of
    its occurrences but the first, and gets all its columns each time. *)
Definition averaged (df : DataFrame) (g : string) : DataFrame :=
  copies (pred (length (occurrences df g))) (occurrences df g).

(** The merged value of a row: the binary64 mean of the values that are
    present in the averaged columns, and missing when none is *)
Definition merged_cell (df : DataFrame) (g : string) (r : nat) : cell :=
  Pd.float_mean (present_values (Pd.row (averaged df g) r)).

(** The merged column for the label [g] on a table of [n] rows *)
Definition merged_column (df : DataFrame) (n : nat) (g : string) : Series :=
  mkSeries g (merged_cell df g <$> seq 0 n).


(** The labels at the positions that [duplicated] flags *)
Definition duplicated_cols (df : DataFrame) : list string :=
  Pd.take_where (Pd.duplicated (Pd.columns df)) (Pd.columns df).

(** How often a label occurs in a list of labels *)
Definition count_label (g : string) (labels : list string) : nat :=
  length (filter (λ l, l = g) labels).

(** The labels of the merged columns, in the order [groupby] gives them *)
Definition merged_labels (df : DataFrame) : list string :=
  merge_sort String.le
    (Pd.unique (Pd.columns (columns_labelled df (duplicated_cols df)))).

(** A table of [n] rows whose repeated columns are numeric *)
Definition mergeable (df : DataFrame) (n : nat) : Prop :=
  (∀ s, s ∈ df → length (values s) = n) ∧
  (∀ s, s ∈ df → repeated df (name s) → Forall numeric (values s)).




(** *** Files *)

(** The computation leaves the file at [path] as it found it. *)
Definition leaves_file {A : Type} (path : string) (m : io A) : Prop :=
  ∀ fs, (m fs).2 !! path = fs !! path.

(** A CSV file with a header line and no row *)
Definition header_only (f : file) : Prop :=
  ∃ table, f = CsvFile table ∧ Forall (λ s, values s = []) table.

(** A run in which every label is missing: two cells without a class. *)
Definition unlabelled_example : DataFrame :=
  [ mkSeries "Image" [Str "a.tif"; Str "a.tif"];
    mkSeries "Class" [NA; NA];
    mkSeries "Name" [Str "PathCellObject"; Str "PathCellObject"];
    mkSeries "Centroid X µm" [Num (B64.of_Z 10); Num (B64.of_Z 20)];
    mkSeries "Centroid Y µm" [Num (B64.of_Z 30); Num (B64.of_Z 40)];
    mkSeries "CD3: Cell: Mean" [Num (B64.of_Z 1); Num (B64.of_Z 2)] ].

Definition example_config : config :=
  mkConfig "B" "out" ["Unknown"] "Other" [] [] [] [] "csv".

(** *** Example tables *)

(** Both centroid columns of the X axis, one micron value missing *)
Definition both_units_example : DataFrame :=
  [ mkSeries "Image" [Str "a.tif"; Str "a.tif"];
    mkSeries "Centroid X µm" [NA; Num (B64.of_Z 3)];
    mkSeries "Centroid X px" [Num (B64.of_Z 100); Num (B64.of_Z 8)];
    mkSeries "Centroid Y µm" [Num (B64.of_Z 5); Num (B64.of_Z 6)] ].

(** Pixels only on the X axis, microns only on the Y axis *)
Definition pixel_example : DataFrame :=
  [ mkSeries "Image" [Str "a.tif"; Str "a.tif"];
    mkSeries "Centroid X px" [Num (B64.of_Z 100); NA];
    mkSeries "Centroid Y µm" [Num (B64.of_Z 5); Num (B64.of_Z 6)] ].

(** The end-to-end scenario: classes "Unknown" and "B cells" with "Unknown"
    replaced by "Other" *)
Definition working_labels_example : list cell := [Str "Other"; Str "B cells"].

Definition classification_example : DataFrame :=
  [ mkSeries "Classification" [Str "CD8-"; Str "CD8+"; Str "CD8-"] ].

(** ** Further vocabulary *)

(** A micron column without a missing entry *)
Definition complete (df : DataFrame) (label : string) : Prop :=
  ∃ s, Pd.getitem df label = Ok s ∧ Pd.any (Pd.isnull <$> values s) = false.

(** A table that carries no centroid column at all *)
Definition no_centroid_example : DataFrame :=
  [ mkSeries "Image" [Str "a.tif"];
    mkSeries "Class" [Str "B cells"];
    mkSeries "CD3: Cell: Mean" [Num (B64.of_Z 1)] ].

(** An axis in a state on which both versions of the resolver return *)
Definition settled (df : DataFrame) (dim : string) : Prop :=
  px_only df dim ∨
  (um_only df dim ∧ length (occurrences df (um_col dim)) = 1 ∧ complete df (um_col dim)).

(** Microns only on both axes, one entry missing *)
Definition micron_gap_example : DataFrame :=
  [ mkSeries "Centroid X µm" [NA; Num (B64.of_Z 3)];
    mkSeries "Centroid Y µm" [Num (B64.of_Z 5); Num (B64.of_Z 6)] ].

(** What [remove_dots] does to one column name: the same replacements in
    the same order *)
Definition normalise_name (col : string) : string :=
  let col := Py.replace "Âµm" "µm" col in
  let col := Py.replace "µm.2" "µm^2" col in
  let col := foldl (λ col '(m, r), Py.replace m r col) col specific_matches in
  let col := Py.replace "..." "): " col in
  let col := Py.replace ".." ": " col in
  let col := Py.replace "Std.Dev." "STD_DEV_PLACEHOLDER" col in
  let col := Py.sub_lone_dots None col in
  Py.replace "STD_DEV_PLACEHOLDER" "Std.Dev." col.

(** A name whose characters all lie below U+0640: none of its UTF-8 bytes
    reaches 0xD9, and its only decimal digits are 0 to 9. *)
Definition plain_digits (col : string) : Prop :=
  Forall (λ c, (Ascii.nat_of_ascii c < 217)%nat) (String.list_ascii_of_string col).

(** A column under a new name *)
Definition renamed (f : string → string) (s : Series) : Series :=
  mkSeries (f (name s)) (values s).

(** Some token of the list occurs in the column name. *)
Definition mentions (tokens : list string) (col : string) : bool :=
  existsb (λ t, Py.contains t col) tokens.

(** A table of unique labels, and one with a repeated measurement *)
Definition unique_labels_example : DataFrame :=
  [ mkSeries "Image" [Str "a.tif"; Str "a.tif"];
    mkSeries "CD3: Cell: Mean" [Num (B64.of_Z 1); NA];
    mkSeries "CD8: Cell: Mean" [Num (B64.of_Z 2); Num (B64.of_Z 4)] ].

Definition repeated_label_example : DataFrame :=
  [ mkSeries "CD3: Cell: Mean" [Num (B64.of_Z 1); NA];
    mkSeries "Image" [Str "a.tif"; Str "a.tif"];
    mkSeries "CD3: Cell: Mean" [Num (B64.of_Z 3); Num (B64.of_Z 4)] ].

(** The entry of a measurement after imputation from the entry [w] of the
    substitute column in the same row *)
Definition imputed (v w : cell) : cell := if Pd.isnull v then w else v.

(** Cytoplasm and nucleus measurements with gaps, and their substitutes *)
Definition compartments_example : DataFrame :=
  [ mkSeries "CD3: Cytoplasm: Mean" [NA; Num (B64.of_Z 2); NA];
    mkSeries "CD3: Membrane: Mean" [Num (B64.of_Z 5); Num (B64.of_Z 6); NA];
    mkSeries "CD3: Nucleus: Mean" [Num (B64.of_Z 1); NA; NA];
    mkSeries "CD3: Cell: Mean" [Num (B64.of_Z 7); Num (B64.of_Z 8); Num (B64.of_Z 9)] ].

(** A nucleus measurement with a gap and no cell measurement beside it *)
Definition lone_compartment_example : DataFrame :=
  [ mkSeries "CD3: Cytoplasm: Mean" [NA; Num (B64.of_Z 2)];
    mkSeries "CD3: Nucleus: Mean" [Num (B64.of_Z 1); NA] ].

Definition compartments_after_membrane_example : DataFrame :=
  [ mkSeries "CD3: Cytoplasm: Mean" [Num (B64.of_Z 5); Num (B64.of_Z 2); NA];
    mkSeries "CD3: Membrane: Mean" [Num (B64.of_Z 5); Num (B64.of_Z 6); NA];
    mkSeries "CD3: Nucleus: Mean" [Num (B64.of_Z 1); NA; NA];
    mkSeries "CD3: Cell: Mean" [Num (B64.of_Z 7); Num (B64.of_Z 8); Num (B64.of_Z 9)] ].

Definition compartments_after_cell_example : DataFrame :=
  [ mkSeries "CD3: Cytoplasm: Mean" [NA; Num (B64.of_Z 2); NA];
    mkSeries "CD3: Membrane: Mean" [Num (B64.of_Z 5); Num (B64.of_Z 6); NA];
    mkSeries "CD3: Nucleus: Mean" [Num (B64.of_Z 1); Num (B64.of_Z 8); Num (B64.of_Z 9)];
    mkSeries "CD3: Cell: Mean" [Num (B64.of_Z 7); Num (B64.of_Z 8); Num (B64.of_Z 9)] ].

(** ** Labels *)

(** A label without the two prefixes that the label processor removes *)
Definition clean_label (s : string) : string :=
  Py.replace "Immune cells: " "" (Py.replace "Edited: " "" s).

(** A label after the excluded ones are renamed *)
Definition relabel (to_remove : list string) (change_to s : string) : string :=
  if bool_decide (s ∈ to_remove) then change_to else s.

(** A function on strings applied to a cell the way the [.str] accessor
    applies it: what is not a string becomes NaN. *)
Definition on_str (f : string → string) (c : cell) : cell :=
  match c with
  | Str s => Str (f s)
  | _ => NA
  end.

(** The working label set of a table with the raw labels [raw] *)
Definition working_labels (to_remove : list string) (change_to : string) (raw : list string)
    : list string :=
  merge_sort String.le (Pd.unique (relabel to_remove change_to ∘ clean_label <$> raw)).

(** The frame [d] is the frame [df] with the cells [class_vals] in its
    [Class] column and, if it has a [Name] column, [name_vals] there. *)
Definition tracks (df d : DataFrame) (class_vals : list cell)
    (name_vals : option (list cell)) : Prop :=
  Pd.columns d = Pd.columns df ∧
  Pd.getitem d "Class" = Ok (mkSeries "Class" class_vals) ∧
  (∀ l, l ≠ "Class" → l ≠ "Name" → Pd.getitem d l = Pd.getitem df l) ∧
  match name_vals with
  | None => "Name" ∉ Pd.columns d
  | Some vals => Pd.getitem d "Name" = Ok (mkSeries "Name" vals)
  end.

(** Labels as QuPath exports them *)
Definition labelled_example : DataFrame :=
  [ mkSeries "Image" [Str "a.tif"; Str "a.tif"; Str "a.tif"];
    mkSeries "Class" [Str "Edited: Unknown"; Str "Immune cells: B cells"; Str "B cells"];
    mkSeries "Name" [Str "Unknown"; Str "Edited: B cells"; NA];
    mkSeries "CD3: Cell: Mean" [Num (B64.of_Z 1); Num (B64.of_Z 2); Num (B64.of_Z 3)] ].

(** A [Name] column after the label processor, and a working label list *)
Definition names_example : DataFrame :=
  [ mkSeries "Image" [Str "a.tif"; Str "a.tif"; Str "a.tif"];
    mkSeries "Name" [Str "Other"; Str "Tumour"; Str "B cells"] ].

(** The entry of a label column after the label processor *)
Definition processed_label (to_remove : list string) (change_to : string) (c : cell) : cell :=
  on_str (relabel to_remove change_to ∘ clean_label) c.

(** A table in which one cell has no label *)
Definition partly_labelled_example : DataFrame :=
  [ mkSeries "Image" [Str "a.tif"; Str "a.tif"];
    mkSeries "Class" [Str "B cells"; NA];
    mkSeries "Name" [Str "B cells"; Str "PathCellObject"];
    mkSeries "Centroid X µm" [Num (B64.of_Z 10); Num (B64.of_Z 20)];
    mkSeries "Centroid Y µm" [Num (B64.of_Z 30); Num (B64.of_Z 40)];
    mkSeries "CD3: Cell: Mean" [Num (B64.of_Z 1); Num (B64.of_Z 2)] ].

(** ** Name collisions *)

(** How many columns will carry the name [g] once the prefixes and
    underscores are removed *)
Definition collisions (df : DataFrame) (g : string) : nat :=
  count_label g (Pd.columns (remove_prefixes_underscores df)).

(** One name on two columns and another on three *)
Definition uneven_example : DataFrame :=
  [ mkSeries "CD3_a" [Num (B64.of_Z 1)]; mkSeries "CD3 a" [Num (B64.of_Z 2)];
    mkSeries "CD8_a" [Num (B64.of_Z 3)]; mkSeries "CD8 a" [Num (B64.of_Z 4)];
    mkSeries "Target:CD8 a" [Num (B64.of_Z 5)] ].

(** ** Binary mode, degenerate tables *)

Definition one_class_example : DataFrame :=
  [ mkSeries "Classification" [Str "CD8+"; Str "CD8+"] ].

Definition partly_classified_example : DataFrame :=
  [ mkSeries "Classification" [Str "CD8+"; NA; Str "CD8-"] ].

(** ** Artifacts of a run *)

Definition images_path (cfg_output_folder cfg_batch_name : string) : string :=
  Py.path_join cfg_output_folder (cfg_batch_name +:+ "_images.csv").

Definition preprocessed_path (cfg : config) : string :=
  if bool_decide (output_format cfg = "parquet")
  then Py.path_join (output_folder cfg) (batch_name cfg +:+ "_preprocessed_input_data.parquet")
  else Py.path_join (output_folder cfg) (batch_name cfg +:+ "_preprocessed_input_data.csv").

Definition artifact_paths (cfg : config) : list string :=
  [ decoder_path (output_folder cfg) (batch_name cfg);
    labels_path (output_folder cfg) (batch_name cfg);
    images_path (output_folder cfg) (batch_name cfg);
    preprocessed_path cfg ].

(** A feature table in the format asked for *)
Definition feature_file (cfg : config) (f : file) : Prop :=
  ∃ table, f = if bool_decide (output_format cfg = "parquet")
               then ParquetFile table else CsvFile table.

(** The computation writes a file of kind [Q] at [path] when it succeeds
    and leaves the path alone when it raises. *)
Definition written_on_success_only {A : Type} (path : string) (Q : file → Prop) (m : io A)
    : Prop :=
  ∀ fs, match (m fs).1 with
        | Ok _ => ∃ f, (m fs).2 !! path = Some f ∧ Q f
        | Err _ => (m fs).2 !! path = fs !! path
        end.

(** The columns that the image and coordinate file always has *)
Definition image_coord_cols (additional_meta_data : list string) : list string :=
  ["Image"; "Centroid X µm"; "Centroid Y µm"] ++ additional_meta_data.

Definition located_example : DataFrame :=
  [ mkSeries "Centroid Y µm" [Num (B64.of_Z 30)];
    mkSeries "Image" [Str "a.tif"];
    mkSeries "ROI" [Str "r1"];
    mkSeries "Centroid X µm" [Num (B64.of_Z 10)];
    mkSeries "CD3: Cell: Mean" [Num (B64.of_Z 1)] ].

(** ** Marker filter of the binary pipeline *)

Module FunctionalMarkerStages.

(** [drop_markers] of bin/preprocess_functional_marker_classification.py
    (lines 242-263): the measurement columns and the one-hot columns of the
    cell types are asked for together, and the measurement columns alone
    when that raises KeyError.  [cell_types] is the working label list of
    the label processor, which is [None] for a table without labels;
    [list + None] is a TypeError. *)
Definition drop_markers (expression_df : DataFrame) (markers excluded_markers : list string)
    (cell_types : option (list string)) : result DataFrame :=
  let markers_ := (λ s, s +:+ ": ") <$> filter (λ s, s ∉ excluded_markers) markers in
  let measurement_columns :=
    filter (λ col, existsb (λ m, Py.contains m col) markers_) (Pd.columns expression_df) in
  except_KeyError
    (requested ← match cell_types with
                 | Some cell_types => Ok (measurement_columns ++ cell_types)
                 | None => Err TypeError
                 end;
     Pd.select expression_df requested)
    (Pd.select expression_df measurement_columns).

End FunctionalMarkerStages.

(** Histone H3 and its phosphorylated form, the name of the one ending in
    the name of the other *)
Definition suffix_example : DataFrame :=
  [ mkSeries "H3: Cell: Mean" [Num (B64.of_Z 1)];
    mkSeries "pH3: Cell: Mean" [Num (B64.of_Z 2)];
    mkSeries "pH3: Nucleus: Mean" [Num (B64.of_Z 3)] ].

(** ** The feature table *)

(** The column measures a marker that is kept and mentions no unwanted
    compartment or statistic. *)
Definition feature_column (cfg : config) (markers : list string) (col : string) : bool :=
  existsb (λ m, Py.contains m col)
    ((λ s, s +:+ ": ") <$> filter (λ s, s ∉ unwanted_markers cfg) markers)
  && negb (mentions (unwanted_compartments cfg ++ unwanted_statistics cfg) col).

(** The feature columns of the renamed table, in the order of the table *)
Definition feature_table (cfg : config) (df : DataFrame) : DataFrame :=
  let renamed_df := remove_prefixes_underscores df in
  filter (λ s, feature_column cfg (collect_markers renamed_df) (name s) = true) renamed_df.

Definition in_format (cfg : config) (table : DataFrame) : file :=
  if bool_decide (output_format cfg = "parquet") then ParquetFile table else CsvFile table.

(** A table as QuPath exports it, with coordinates in microns *)
Definition export_example : DataFrame :=
  [ mkSeries "Image" [Str "a.tif"; Str "a.tif"];
    mkSeries "Class" [Str "B cells"; Str "Unknown"];
    mkSeries "Name" [Str "B cells"; Str "Unknown"];
    mkSeries "Centroid X µm" [Num (B64.of_Z 10); Num (B64.of_Z 20)];
    mkSeries "Centroid Y µm" [Num (B64.of_Z 30); Num (B64.of_Z 40)];
    mkSeries "Target:CD3: Cell: Mean" [Num (B64.of_Z 1); Num (B64.of_Z 2)];
    mkSeries "Target:CD3: Membrane: Mean" [NA; Num (B64.of_Z 3)];
    mkSeries "Target:DNA_1: Cell: Mean" [Num (B64.of_Z 4); Num (B64.of_Z 5)];
    mkSeries "Target:CD3: Cell: Median" [Num (B64.of_Z 6); Num (B64.of_Z 7)] ].

Definition export_config : config :=
  mkConfig "B" "out" ["Unknown"] "Other" [] ["DNA 1"] [] ["Median"] "csv".
(** * Properties *)

(** ** Frames *)

Section frame_facts.
Implicit Types (df : DataFrame) (l : string) (s : Series).

Lemma getitem_Ok_inv df l s :
  Pd.getitem df l = Ok s → s ∈ df ∧ name s = l.
Proof.
  induction df as [|c df IH]; simpl; [done|].
  case_bool_decide as Hc.
  - intros [= <-]. split; [left | done].
  - intros [? ?]%IH. split; [by right | done].
Qed.

Lemma getitem_Err_inv df l e :
  Pd.getitem df l = Err e → e = KeyError ∧ l ∉ Pd.columns df.
Proof.
  induction df as [|c df IH]; simpl.
  - intros [= <-]. split; [done | apply not_elem_of_nil].
  - case_bool_decide as Hc; [done|].
    intros [-> ?]%IH. split; [done|]. rewrite not_elem_of_cons. auto.
Qed.

Lemma getitem_is_Ok df l :
  l ∈ Pd.columns df → ∃ s, Pd.getitem df l = Ok s.
Proof.
  intros Hin. destruct (Pd.getitem df l) as [s|e] eqn:E; [eauto|].
  by apply getitem_Err_inv in E as [_ ?].
Qed.

Lemma getitem_absent df l :
  l ∉ Pd.columns df → Pd.getitem df l = Err KeyError.
Proof.
  intros Hin. destruct (Pd.getitem df l) as [s|e] eqn:E.
  - apply getitem_Ok_inv in E as [? <-]. destruct Hin.
    unfold Pd.columns. by apply list_elem_of_fmap_2.
  - by apply getitem_Err_inv in E as [-> _].
Qed.

Lemma getitem_occurrences df l :
  Pd.getitem df l =
  match occurrences df l with
  | s :: _ => Ok s
  | [] => Err KeyError
  end.
Proof.
  unfold occurrences. induction df as [|c df IH]; [done|].
  simpl. rewrite filter_cons. case_bool_decide.
  - by rewrite decide_True.
  - by rewrite decide_False.
Qed.

Lemma occurrences_getitem df l s :
  occurrences df l = [s] → Pd.getitem df l = Ok s.
Proof. intros H. by rewrite getitem_occurrences, H. Qed.

Lemma getitem_app df df2 l :
  Pd.getitem (df ++ df2) l =
  match Pd.getitem df l with Ok s => Ok s | Err _ => Pd.getitem df2 l end.
Proof.
  induction df as [|c df IH]; simpl; [done|]. by case_bool_decide.
Qed.

Lemma getitem_filter df (P : string → Prop) `{∀ x, Decision (P x)} l :
  P l → Pd.getitem (filter (λ s, P (name s)) df) l = Pd.getitem df l.
Proof.
  intros HP. induction df as [|c df IH]; simpl; [done|].
  rewrite filter_cons. case_bool_decide as Hc.
  - subst l. rewrite decide_True by done. simpl. by rewrite bool_decide_eq_true_2.
  - destruct (decide (P (name c))); simpl; [|done].
    by rewrite bool_decide_eq_false_2.
Qed.

Lemma columns_filter df (P : string → Prop) `{∀ x, Decision (P x)} :
  Pd.columns (filter (λ s, P (name s)) df) = filter P (Pd.columns df).
Proof.
  unfold Pd.columns. induction df as [|c df IH]; [done|].
  rewrite fmap_cons, !filter_cons. simpl.
  destruct (decide (P (name c))); [rewrite fmap_cons|]; by rewrite IH.
Qed.

Lemma columns_without df (labels : list string) :
  Pd.columns (filter (λ s, name s ∉ labels) df) = filter (λ n, n ∉ labels) (Pd.columns df).
Proof. exact (columns_filter df (λ n, n ∉ labels)). Qed.

Lemma getitem_without df (labels : list string) l :
  l ∉ labels → Pd.getitem (filter (λ s, name s ∉ labels) df) l = Pd.getitem df l.
Proof. exact (getitem_filter df (λ n, n ∉ labels) l). Qed.

Lemma columns_app df df2 : Pd.columns (df ++ df2) = Pd.columns df ++ Pd.columns df2.
Proof. apply fmap_app. Qed.

Lemma drop_present df (labels : list string) :
  Forall (λ l, l ∈ Pd.columns df) labels →
  Pd.drop df labels = Ok (filter (λ s, name s ∉ labels) df).
Proof. intros. unfold Pd.drop. by rewrite bool_decide_eq_true_2. Qed.

Lemma setitem_absent df l vals :
  l ∉ Pd.columns df → Pd.setitem df l vals = df ++ [mkSeries l vals].
Proof. intros. unfold Pd.setitem. by rewrite bool_decide_eq_false_2. Qed.

End frame_facts.

(** ** Results *)

Lemma mapM_Ok_fmap {A B} (f : A → result B) (g : A → B) (l : list A) :
  Forall (λ x, f x = Ok (g x)) l → mapM f l = Ok (g <$> l).
Proof.
  induction 1 as [|x l Hx _ IH]; [done|].
  simpl. rewrite Hx. simpl. by rewrite IH.
Qed.

Lemma mul_numeric (vals : list cell) (k : float64) :
  Forall numeric vals → Pd.mul vals k = Ok (times k <$> vals).
Proof.
  intros Hnum. apply mapM_Ok_fmap.
  eapply Forall_impl; [exact Hnum|]. by intros [|q|s].
Qed.

Lemma for_each_nil {S A} (body : S → A → result S) (s : S) :
  for_each body s [] = Ok s.
Proof. done. Qed.

Lemma for_each_cons {S A} (body : S → A → result S) (s : S) (x : A) (xs : list A) :
  for_each body s (x :: xs) = body s x ≫= λ s', for_each body s' xs.
Proof. done. Qed.

Lemma bind_Ok {A B} (f : A → result B) (a : A) : Ok a ≫= f = f a.
Proof. done. Qed.

Lemma bind_Err {A B} (f : A → result B) (e : exn) : Err e ≫= f = Err e.
Proof. done. Qed.

(** ** Strings *)

Lemma string_app_inj (a b c : string) : a +:+ b = a +:+ c → b = c.
Proof. induction a as [|x a IH]; simpl; [done|]. intros [= ?]. auto. Qed.

Lemma um_px_distinct (dim : string) : um_col dim ≠ px_col dim.
Proof.
  unfold um_col, px_col. intros H.
  apply string_app_inj, string_app_inj in H. discriminate H.
Qed.

Lemma string_app_cons (x : Ascii.ascii) (a b : string) :
  String x a +:+ b = String x (a +:+ b).
Proof. reflexivity. Qed.

Lemma string_app_assoc (a b c : string) : (a +:+ b) +:+ c = a +:+ b +:+ c.
Proof.
  induction a as [|x a IH]; [done|]. by rewrite !string_app_cons, IH.
Qed.

Lemma startswith_spec (p s : string) :
  Py.startswith p s = true ↔ ∃ t, s = p +:+ t.
Proof.
  revert s. induction p as [|a p IH]; intros s; simpl.
  - split; eauto.
  - destruct s as [|b s]; [split; [done|by intros [? ?]]|].
    destruct (Ascii.eqb_spec a b) as [->|Hab].
    + rewrite IH. split; intros [t Ht]; exists t.
      * by rewrite string_app_cons, <- Ht.
      * rewrite string_app_cons in Ht. congruence.
    + split; [done|]. intros [t Ht]. rewrite string_app_cons in Ht. congruence.
Qed.

Lemma contains_spec (sub s : string) :
  Py.contains sub s = true ↔ ∃ pre post, s = pre +:+ sub +:+ post.
Proof.
  induction s as [|c s IH].
  - simpl. rewrite orb_false_r, startswith_spec. split.
    + intros [t ->]. by exists "", t.
    + intros ([|? ?] & post & H); [|done]. by exists post.
  - simpl. rewrite orb_true_iff, startswith_spec, IH. split.
    + intros [[t ->] | (pre & post & ->)]; [by exists "", t|].
      by exists (String c pre), post.
    + intros ([|c' pre] & post & H); [left; by exists post|].
      right. rewrite string_app_cons in H. injection H as -> ->. by exists pre, post.
Qed.

Lemma contains_app_r (a b s : string) :
  Py.contains (a +:+ b) s = true → Py.contains b s = true.
Proof.
  rewrite !contains_spec. intros (pre & post & ->).
  exists (pre +:+ a), post. by rewrite !string_app_assoc.
Qed.

Lemma filter_none {A} (P : A → Prop) `{∀ x, Decision (P x)} (l : list A) :
  (∀ x, x ∈ l → ¬ P x) → filter P l = [].
Proof.
  induction l as [|x l IH]; intros Hl; [done|].
  rewrite filter_cons, decide_False by (apply Hl; left).
  apply IH. intros y Hy. apply Hl. by right.
Qed.

(** ** Coordinate unit resolver *)

Section resolver.
Implicit Types (df : DataFrame) (dim l : string) (px : Series) (k : float64).

Lemma step_px_only df dim px k :
  um_col dim ∉ Pd.columns df →
  occurrences df (px_col dim) = [px] →
  Forall numeric (values px) →
  centroid_step k (Frame df) dim = Ok (Frame (px_branch_result df dim px k)).
Proof.
  intros Hum Hpx Hnum. unfold centroid_step.
  assert (px_col dim ∈ Pd.columns df) as Hin.
  { apply occurrences_getitem, getitem_Ok_inv in Hpx as [? <-].
    by apply list_elem_of_fmap_2. }
  rewrite (bool_decide_eq_false_2 (um_col dim ∈ _)) by done.
  rewrite (bool_decide_eq_true_2 (um_col dim ∉ _)) by done.
  rewrite (bool_decide_eq_true_2 (px_col dim ∈ _)) by done.
  simpl. unfold Pd.loc_label. fold (occurrences df (px_col dim)). rewrite Hpx.
  simpl. rewrite mul_numeric by done. simpl.
  rewrite setitem_absent by done.
  rewrite drop_present.
  2:{ constructor; [|constructor]. rewrite columns_app, elem_of_app. by left. }
  simpl. do 2 f_equal. unfold px_branch_result.
  rewrite filter_app. f_equal.
  rewrite filter_cons, decide_True; [done|].
  simpl. rewrite list_elem_of_singleton. apply um_px_distinct.
Qed.

Lemma step_um_only df dim k :
  um_col dim ∈ Pd.columns df →
  px_col dim ∉ Pd.columns df →
  centroid_step k (Frame df) dim = Ok (Frame df).
Proof.
  intros Hum Hpx. unfold centroid_step.
  rewrite (bool_decide_eq_true_2 (um_col dim ∈ _)) by done.
  rewrite (bool_decide_eq_false_2 (px_col dim ∈ _)) by done.
  rewrite (bool_decide_eq_false_2 (um_col dim ∉ _)) by auto.
  rewrite (bool_decide_eq_true_2 (px_col dim ∉ _)) by done.
  done.
Qed.

Lemma elem_of_px_branch_result df dim px k l :
  l ∈ Pd.columns (px_branch_result df dim px k) ↔
  (l ∈ Pd.columns df ∧ l ≠ px_col dim) ∨ l = um_col dim.
Proof.
  unfold px_branch_result.
  rewrite columns_app, elem_of_app, columns_without.
  rewrite list_elem_of_filter, list_elem_of_singleton. simpl.
  rewrite list_elem_of_singleton. tauto.
Qed.

Lemma getitem_px_branch_result df dim px k l :
  l ≠ px_col dim →
  Pd.getitem (px_branch_result df dim px k) l =
  match Pd.getitem df l with
  | Ok s => Ok s
  | Err _ =>
      if bool_decide (um_col dim = l)
      then Ok (mkSeries (um_col dim) (times k <$> values px))
      else Err KeyError
  end.
Proof.
  intros Hl. unfold px_branch_result.
  rewrite getitem_app, getitem_without by (by rewrite list_elem_of_singleton).
  simpl. destruct (Pd.getitem df l); [done|]. by case_bool_decide.
Qed.

Lemma occurrences_px_branch_result df dim px k l :
  l ≠ px_col dim → l ≠ um_col dim →
  occurrences (px_branch_result df dim px k) l = occurrences df l.
Proof.
  intros Hpx Hum. unfold occurrences, px_branch_result.
  rewrite filter_app, list_filter_filter.
  rewrite (filter_cons _ (mkSeries _ _)), decide_False by (simpl; congruence).
  rewrite app_nil_r. apply list_filter_iff. intros s. split; [tauto|].
  intros <-. split; [done|]. by rewrite list_elem_of_singleton.
Qed.

Lemma occurrences_um_px_branch_result df dim px k :
  um_col dim ∉ Pd.columns df →
  occurrences (px_branch_result df dim px k) (um_col dim) =
  [mkSeries (um_col dim) (times k <$> values px)].
Proof.
  intros Hum. unfold occurrences, px_branch_result.
  rewrite filter_app, list_filter_filter.
  rewrite (filter_cons _ (mkSeries _ _)), decide_True by done.
  rewrite filter_none; [done|].
  intros s Hs [Hname _]. apply Hum. rewrite <- Hname. by apply list_elem_of_fmap_2.
Qed.

End resolver.

Lemma elem_of_columns_getitem (df : DataFrame) (l : string) :
  l ∈ Pd.columns df ↔ is_ok (Pd.getitem df l) = true.
Proof.
  split.
  - intros [s ->]%getitem_is_Ok. done.
  - destruct (Pd.getitem df l) as [s|e] eqn:E; [|done].
    intros _. apply getitem_Ok_inv in E as [? <-]. by apply list_elem_of_fmap_2.
Qed.

Lemma getitem_eq_columns (df df' : DataFrame) (l : string) :
  Pd.getitem df' l = Pd.getitem df l → (l ∈ Pd.columns df' ↔ l ∈ Pd.columns df).
Proof. intros H. by rewrite !elem_of_columns_getitem, H. Qed.

Lemma step_accepts (df : DataFrame) (dim : string) (k : float64) :
  px_only df dim ∨ um_only df dim →
  ∃ df', centroid_step k (Frame df) dim = Ok (Frame df') ∧
         axis_resolved k df df' dim ∧ others_kept df df' dim ∧
         (∀ l, l ≠ um_col dim → l ≠ px_col dim → occurrences df' l = occurrences df l) ∧
         (∀ px, um_col dim ∉ Pd.columns df → occurrences df (px_col dim) = [px] →
                occurrences df' (um_col dim) =
                [mkSeries (um_col dim) (times k <$> values px)]).
Proof.
  intros [[Hum (px & Hpx & Hnum)] | [Hum Hpx]].
  - exists (px_branch_result df dim px k). split; [by apply step_px_only|].
    split; [split; [|split]|split; [|split]].
    + rewrite elem_of_px_branch_result. intros [[_ ?]|?]; [done|].
      by eapply um_px_distinct.
    + intros px' _ Hpx'. assert (px' = px) as -> by congruence.
      rewrite getitem_px_branch_result by apply um_px_distinct.
      rewrite getitem_absent by done. by rewrite bool_decide_eq_true_2.
    + by intros [? _].
    + intros l Hl1 Hl2. rewrite getitem_px_branch_result by done.
      destruct (Pd.getitem df l) as [s|e] eqn:E; [done|].
      rewrite bool_decide_eq_false_2 by done.
      by apply getitem_Err_inv in E as [-> _].
    + intros l Hl1 Hl2. by apply occurrences_px_branch_result.
    + intros px' _ Hpx'. assert (px' = px) as -> by congruence.
      by apply occurrences_um_px_branch_result.
  - exists df. split; [by apply step_um_only|].
    split; [split; [|split]|split; [|split]]; done.
Qed.

(** C9: [pixel_size] is a fixed constant: whatever value is passed for the
    parameter of [convert_pixels_to_micrometre], the result is the one
    computed with 0.3906. *)
Theorem pixel_size_parameter_has_no_influence (df : DataFrame) (p1 p2 : float64) :
  convert_pixels_to_micrometre df p1 = convert_pixels_to_micrometre df p2 ∧
  convert_pixels_to_micrometre df p1 =
    for_each (centroid_step (B64.decimal 3906 10000)) (Frame df) ["X"; "Y"].
Proof. split; reflexivity. Qed.

Lemma times_rows (k : float64) (vals : list cell) (r : nat) :
  ((vals !! r = Some NA → (times k <$> vals) !! r = Some NA) ∧
   (∀ x, vals !! r = Some (Num x) →
         (times k <$> vals) !! r = Some (float_cell (B64.mul x k)))).
Proof. split; [intros Hr|intros x Hr]; by rewrite list_lookup_fmap, Hr. Qed.

(** C8: in the pixel-only branch (no micron column, the pixel column once
    and numeric) the pass over an axis drops the pixel column and creates
    the micron column, whose entry in every row is the pixel value times
    0.3906 as binary64 multiplication rounds it, a missing pixel value
    staying missing.  On a table whose two axes each carry either only the
    pixel column or only the micron column, the resolver returns a table in
    which no pixel column is left; an axis that had only microns keeps its
    column.  In binary64, 100 times 0.3906 is the float of 39.06, while 31
    times 0.3906 is the float above that of 12.1086. *)
Theorem pixel_only_axis_is_converted (df : DataFrame) (pixel_size : float64) :
  (∀ dim, dim ∈ ["X"; "Y"] → px_only df dim ∨ um_only df dim) →
  (∀ dim px, um_col dim ∉ Pd.columns df → occurrences df (px_col dim) = [px] →
     Forall numeric (values px) →
     centroid_step (B64.decimal 3906 10000) (Frame df) dim =
       Ok (Frame (filter (λ s, name s ∉ [px_col dim]) df ++
                  [mkSeries (um_col dim)
                     (times (B64.decimal 3906 10000) <$> values px)]))) ∧
  (∃ df',
     convert_pixels_to_micrometre df pixel_size = Ok (Frame df') ∧
     ∀ dim, dim ∈ ["X"; "Y"] →
       (px_col dim ∉ Pd.columns df') ∧
       (∀ px, um_col dim ∉ Pd.columns df → occurrences df (px_col dim) = [px] →
          ∃ um,
            occurrences df' (um_col dim) = [um] ∧
            Pd.getitem df' (um_col dim) = Ok um ∧
            length (values um) = length (values px) ∧
            ∀ r,
              (values px !! r = Some NA → values um !! r = Some NA) ∧
              (∀ x, values px !! r = Some (Num x) →
                    values um !! r =
                    Some (float_cell (B64.mul x (B64.decimal 3906 10000))))) ∧
       (um_only df dim → Pd.getitem df' (um_col dim) = Pd.getitem df (um_col dim))) ∧
  B64.mul (B64.of_Z 100) (B64.decimal 3906 10000) = B64.decimal 3906 100 ∧
  B64.mul (B64.of_Z 31) (B64.decimal 3906 10000) =
    S754_finite false 6816535805997299 (-49) ∧
  B64.decimal 121086 10000 = S754_finite false 6816535805997298 (-49).
Proof.
  intros Hst. split; [intros dim px; apply step_px_only|].
  split; [|by vm_compute].
  unfold convert_pixels_to_micrometre. rewrite for_each_cons.
  destruct (step_accepts df "X" fixed_pixel_size) as (df1 & -> & HX & HkeepX & HoccX & HumX).
  { apply Hst. by left. }
  rewrite bind_Ok, for_each_cons.
  assert (Pd.getitem df1 (um_col "Y") = Pd.getitem df (um_col "Y")) as Hy_um
    by (by apply HkeepX).
  assert (Pd.getitem df1 (px_col "Y") = Pd.getitem df (px_col "Y")) as Hy_px
    by (by apply HkeepX).
  assert (occurrences df1 (px_col "Y") = occurrences df (px_col "Y")) as Hy_occ
    by (by apply HoccX).
  destruct (step_accepts df1 "Y" fixed_pixel_size) as (df2 & -> & HY & HkeepY & HoccY & HumY).
  { destruct (Hst "Y") as [[Hum (px & Hpx & Hnum)] | [Hum Hpx]];
      [by right; left | |].
    - left. split; [by rewrite (getitem_eq_columns df df1)|].
      exists px. by rewrite Hy_occ.
    - right. split; by rewrite (getitem_eq_columns df df1). }
  assert (Pd.getitem df2 (um_col "X") = Pd.getitem df1 (um_col "X")) as Hx_um
    by (by apply HkeepY).
  assert (Pd.getitem df2 (px_col "X") = Pd.getitem df1 (px_col "X")) as Hx_px
    by (by apply HkeepY).
  assert (occurrences df2 (um_col "X") = occurrences df1 (um_col "X")) as Hx_occ
    by (by apply HoccY).
  rewrite bind_Ok, for_each_nil.
  exists df2. split; [done|].
  intros dim [->|[->|[]%elem_of_nil]%elem_of_cons]%elem_of_cons.
  - destruct HX as (HX1 & HX2 & HX3). split; [|split].
    + by rewrite (getitem_eq_columns df1 df2).
    + intros px Hum Hpx. eexists. split; [|split; [|split]].
      * rewrite Hx_occ. by apply HumX.
      * rewrite Hx_um. by apply HX2.
      * simpl. by rewrite length_fmap.
      * intros r. apply times_rows.
    + intros Hum. rewrite Hx_um. by apply HX3.
  - destruct HY as (HY1 & HY2 & HY3). split; [done|split].
    + intros px Hum Hpx.
      assert (um_col "Y" ∉ Pd.columns df1) as Hum1
        by (by rewrite (getitem_eq_columns df df1)).
      eexists. split; [|split; [|split]].
      * apply HumY; [done|]. by rewrite Hy_occ.
      * apply HY2; [done|]. by rewrite Hy_occ.
      * simpl. by rewrite length_fmap.
      * intros r. apply times_rows.
    + intros [Hum Hpx]. rewrite <- Hy_um. apply HY3.
      split; by rewrite (getitem_eq_columns df df1).
Qed.

Lemma step_both_raises (df : DataFrame) (dim : string) (k : float64) :
  um_col dim ∈ Pd.columns df → px_col dim ∈ Pd.columns df →
  ∃ e, centroid_step k (Frame df) dim = Err e.
Proof.
  intros Hum Hpx. unfold centroid_step.
  rewrite !bool_decide_eq_true_2 by done. simpl.
  destruct (getitem_is_Ok df _ Hum) as [um ->].
  destruct (getitem_is_Ok df _ Hpx) as [px ->]. simpl.
  destruct (Pd.mul (values px) k); simpl; eauto.
Qed.

Lemma step_Ok_inv (df : DataFrame) (dim : string) (k : float64) (o : pandas_obj) :
  centroid_step k (Frame df) dim = Ok o →
  ∃ df', o = Frame df' ∧
    ∀ l, l ≠ um_col dim → l ≠ px_col dim → (l ∈ Pd.columns df' ↔ l ∈ Pd.columns df).
Proof.
  unfold centroid_step.
  destruct (decide (um_col dim ∈ Pd.columns df)) as [Hum|Hum];
    destruct (decide (px_col dim ∈ Pd.columns df)) as [Hpx|Hpx].
  - destruct (step_both_raises df dim k Hum Hpx) as [e He].
    unfold centroid_step in He. rewrite He. done.
  - rewrite (bool_decide_eq_true_2 (um_col dim ∈ _)) by done.
    rewrite (bool_decide_eq_false_2 (px_col dim ∈ _)) by done.
    rewrite (bool_decide_eq_false_2 (um_col dim ∉ _)) by auto.
    rewrite (bool_decide_eq_true_2 (px_col dim ∉ _)) by done.
    simpl. intros [= <-]. eauto.
  - rewrite (bool_decide_eq_false_2 (um_col dim ∈ _)) by done.
    rewrite (bool_decide_eq_true_2 (um_col dim ∉ _)) by done.
    rewrite (bool_decide_eq_true_2 (px_col dim ∈ _)) by done.
    simpl.
    destruct (mapM _ (Pd.loc_label df (px_col dim))) as [[|scaled [|? ?]]|]; simpl;
      try done.
    rewrite setitem_absent by done.
    rewrite drop_present.
    2:{ constructor; [|constructor]. rewrite columns_app, elem_of_app. by left. }
    simpl. intros [= <-]. eexists. split; [done|].
    intros l Hl1 Hl2.
    rewrite columns_without, list_elem_of_filter, columns_app, elem_of_app.
    rewrite list_elem_of_singleton. simpl. rewrite list_elem_of_singleton.
    tauto.
  - rewrite (bool_decide_eq_false_2 (um_col dim ∈ _)) by done.
    rewrite (bool_decide_eq_false_2 (px_col dim ∈ _)) by done.
    rewrite (bool_decide_eq_true_2 (um_col dim ∉ _)) by done.
    rewrite (bool_decide_eq_true_2 (px_col dim ∉ _)) by done.
    done.
Qed.

(** C1, the code of bin/preprocess_cell_type_classification.py: when an
    axis carries both its micron and its pixel column, the resolver does not
    return a table at all.  The first branch rebinds [expression_df] to the
    filled Series and calls [drop(..., axis=1)] on it, which raises. *)
Theorem both_columns_present_raises (df : DataFrame) (pixel_size : float64) (dim : string) :
  dim ∈ ["X"; "Y"] →
  um_col dim ∈ Pd.columns df →
  px_col dim ∈ Pd.columns df →
  ∃ e, convert_pixels_to_micrometre df pixel_size = Err e.
Proof.
  intros Hdim Hum Hpx. unfold convert_pixels_to_micrometre. rewrite for_each_cons.
  apply elem_of_cons in Hdim as [->|Hdim].
  { destruct (step_both_raises df "X" fixed_pixel_size Hum Hpx) as [e ->]. eauto. }
  apply list_elem_of_singleton in Hdim as ->.
  destruct (centroid_step fixed_pixel_size (Frame df) "X") as [o|e] eqn:HX; [|eauto].
  apply step_Ok_inv in HX as (df1 & -> & Hkeep).
  rewrite bind_Ok, for_each_cons.
  destruct (step_both_raises df1 "Y" fixed_pixel_size) as [e ->]; [| |eauto].
  - by apply Hkeep.
  - by apply Hkeep.
Qed.

(** *** The older resolver of scripts/preprocess-training-data.py *)

Lemma take_where_numeric (mask : list bool) (vals : list cell) :
  Forall numeric vals → Forall numeric (Pd.take_where mask vals).
Proof.
  intros H. revert mask. induction H as [|v vals Hv _ IH]; intros [|[] mask]; simpl; auto.
Qed.

Lemma put_take_fill (k : float64) (um px : list cell) :
  length um = length px →
  Pd.put_where (Pd.isnull <$> um) um
    (times k <$> Pd.take_where (Pd.isnull <$> um) px) = fill_from k um px.
Proof.
  revert px. induction um as [|u um IH]; intros [|p px]; simpl; try done.
  intros [= Hlen]. unfold fill_from. simpl.
  destruct u; simpl; f_equal; by apply IH.
Qed.

Lemma fill_from_no_null (k : float64) (um px : list cell) :
  length um = length px → Pd.any (Pd.isnull <$> um) = false → fill_from k um px = um.
Proof.
  revert px. induction um as [|u um IH]; intros [|p px]; simpl; try done.
  intros [= Hlen]. unfold Pd.any, fill_from. simpl.
  intros [Hu Hrest]%orb_false_elim. unfold id in Hu. rewrite Hu.
  f_equal. by apply IH.
Qed.

Lemma columns_setitem_present (df : DataFrame) (l : string) (vals : list cell) :
  l ∈ Pd.columns df → Pd.columns (Pd.setitem df l vals) = Pd.columns df.
Proof.
  intros Hl. unfold Pd.setitem. rewrite bool_decide_eq_true_2 by done.
  unfold Pd.columns. rewrite <- list_fmap_compose. apply list_fmap_ext.
  intros i s _. simpl. by case_bool_decide.
Qed.

Lemma getitem_fmap_same_name (df : DataFrame) (g : Series → Series) (l : string) :
  (∀ s, name (g s) = name s) →
  Pd.getitem (g <$> df) l =
  match Pd.getitem df l with Ok s => Ok (g s) | Err e => Err e end.
Proof.
  intros Hg. induction df as [|s df IH]; [done|].
  rewrite fmap_cons. simpl. rewrite Hg. by case_bool_decide.
Qed.

Lemma getitem_setitem_present (df : DataFrame) (l l' : string) (vals : list cell) :
  l ∈ Pd.columns df →
  Pd.getitem (Pd.setitem df l vals) l' =
  if bool_decide (l' = l) then Ok (mkSeries l vals) else Pd.getitem df l'.
Proof.
  intros Hl. unfold Pd.setitem. rewrite bool_decide_eq_true_2 by done.
  rewrite getitem_fmap_same_name by (intros s; by case_bool_decide).
  case_bool_decide as Hl'.
  - subst l'. destruct (getitem_is_Ok df l Hl) as [s Hs]. rewrite Hs.
    apply getitem_Ok_inv in Hs as [_ Hs]. by rewrite bool_decide_eq_true_2.
  - destruct (Pd.getitem df l') as [s|e] eqn:Hs; [|done].
    apply getitem_Ok_inv in Hs as [_ Hs]. rewrite bool_decide_eq_false_2; congruence.
Qed.

Lemma getitem_Ok_columns (df : DataFrame) (l : string) (s : Series) :
  Pd.getitem df l = Ok s → l ∈ Pd.columns df.
Proof. intros H. apply elem_of_columns_getitem. by rewrite H. Qed.

Lemma scripts_step_both_present (df : DataFrame) (dim : string) (um px : Series) (k : float64) :
  Pd.getitem df (um_col dim) = Ok um →
  Pd.getitem df (px_col dim) = Ok px →
  Forall numeric (values px) →
  length (values um) = length (values px) →
  ∃ df',
    Scripts.centroid_step k df dim = Ok df' ∧
    Pd.columns df' = Pd.columns df ∧
    Pd.getitem df' (um_col dim) =
      Ok (mkSeries (um_col dim) (fill_from k (values um) (values px))) ∧
    ∀ l, l ≠ um_col dim → Pd.getitem df' l = Pd.getitem df l.
Proof.
  intros Hum Hpx Hnum Hlen. unfold Scripts.centroid_step.
  pose proof (getitem_Ok_columns _ _ _ Hum) as Hum_in.
  pose proof (getitem_Ok_columns _ _ _ Hpx) as Hpx_in.
  rewrite Hum. simpl. destruct (Pd.any (Pd.isnull <$> values um)) eqn:Hany.
  - rewrite Hpx. simpl. rewrite mul_numeric by by apply take_where_numeric. simpl.
    rewrite drop_present.
    2:{ constructor; [|constructor]. by rewrite columns_setitem_present. }
    simpl. eexists. split; [done|]. rewrite put_take_fill by done.
    split; [by apply columns_setitem_present|]. split.
    + by rewrite getitem_setitem_present, bool_decide_eq_true_2.
    + intros l Hl. by rewrite getitem_setitem_present, bool_decide_eq_false_2.
  - exists df. rewrite fill_from_no_null by done.
    split; [done|]. split; [done|]. split; [|done]. rewrite Hum.
    apply getitem_Ok_inv in Hum as [_ Hname]. destruct um as [n vals].
    simpl in *. by subst n.
Qed.

(** The older script on a table with unique labels and both columns
    present on both axes: the resolver returns the table with the same
    columns (the pixel columns included), the missing micron entries
    filled with pixel value times 0.3906, and every other column as it
    was. *)
Lemma scripts_resolver_fills_missing (df : DataFrame) (pixel_size : float64)
    (umx pxx umy pxy : Series) :
  NoDup (Pd.columns df) →
  Pd.getitem df (um_col "X") = Ok umx → Pd.getitem df (px_col "X") = Ok pxx →
  Pd.getitem df (um_col "Y") = Ok umy → Pd.getitem df (px_col "Y") = Ok pxy →
  Forall numeric (values pxx) → Forall numeric (values pxy) →
  length (values umx) = length (values pxx) →
  length (values umy) = length (values pxy) →
  ∃ df',
    Scripts.convert_pixels_to_micrometre df pixel_size = Ok df' ∧
    Pd.columns df' = Pd.columns df ∧
    Pd.getitem df' (um_col "X") =
      Ok (mkSeries (um_col "X") (fill_from (B64.decimal 3906 10000) (values umx) (values pxx))) ∧
    Pd.getitem df' (um_col "Y") =
      Ok (mkSeries (um_col "Y") (fill_from (B64.decimal 3906 10000) (values umy) (values pxy))) ∧
    ∀ l, l ≠ um_col "X" → l ≠ um_col "Y" → Pd.getitem df' l = Pd.getitem df l.
Proof.
  intros _ Hux Hpx Huy Hpy Hnx Hny Hlx Hly.
  unfold Scripts.convert_pixels_to_micrometre. rewrite for_each_cons.
  destruct (scripts_step_both_present df "X" umx pxx fixed_pixel_size)
    as (df1 & -> & Hc1 & Hx1 & Hk1); [done..|].
  rewrite bind_Ok, for_each_cons.
  destruct (scripts_step_both_present df1 "Y" umy pxy fixed_pixel_size)
    as (df2 & -> & Hc2 & Hy2 & Hk2); [by rewrite Hk1..|done|done|].
  rewrite bind_Ok, for_each_nil. exists df2.
  split; [done|]. split; [congruence|]. split; [by rewrite Hk2|].
  split; [done|]. intros l Hl1 Hl2. by rewrite Hk2, Hk1.
Qed.

(** ** Selecting columns *)

Lemma select_present (df : DataFrame) (labels : list string) :
  Forall (λ l, l ∈ Pd.columns df) labels →
  Pd.select df labels = Ok (columns_labelled df labels).
Proof.
  unfold columns_labelled. induction 1 as [|l labels Hl _ IH]; [done|].
  simpl. rewrite IH. simpl.
  destruct (filter (λ s, name s = l) df) as [|c cs] eqn:E; [|done].
  exfalso. apply list_elem_of_fmap in Hl as (s & -> & Hs).
  assert (s ∈ filter (λ s', name s' = name s) df) as Hin
    by (by apply list_elem_of_filter).
  rewrite E in Hin. by apply elem_of_nil in Hin.
Qed.

Lemma elem_of_columns_labelled (df : DataFrame) (labels : list string) (s : Series) :
  s ∈ columns_labelled df labels ↔ s ∈ df ∧ name s ∈ labels.
Proof.
  unfold columns_labelled. rewrite list_elem_of_bind. split.
  - intros (l & [-> ?]%list_elem_of_filter & Hl). done.
  - intros [Hs Hl]. exists (name s). split; [|done]. by apply list_elem_of_filter.
Qed.

Lemma select_absent (df : DataFrame) (labels : list string) :
  ¬ Forall (λ l, l ∈ Pd.columns df) labels → Pd.select df labels = Err KeyError.
Proof.
  induction labels as [|l labels IH]; [intros []; constructor|].
  intros Hn. simpl.
  destruct (filter (λ s, name s = l) df) as [|c cs] eqn:E; [done|].
  rewrite IH; [done|]. intros Hall. apply Hn. constructor; [|done].
  assert (c ∈ filter (λ s, name s = l) df) as [<- Hc]%list_elem_of_filter
    by (rewrite E; left).
  by apply list_elem_of_fmap_2.
Qed.

(** ** Marker filter *)

Section markers.
Implicit Types (df : DataFrame) (markers excluded : list string) (s : Series).

Lemma existsb_marker_token markers excluded (col : string) :
  existsb (λ m, Py.contains m col)
    ((λ m, m +:+ ": ") <$> filter (λ m, m ∉ excluded) markers) = true ↔
  measures_kept_marker markers excluded col.
Proof.
  rewrite existsb_exists. unfold measures_kept_marker. split.
  - intros (t & Ht & Hc). apply list_elem_of_In, list_elem_of_fmap in Ht as (m & -> & Hm).
    apply list_elem_of_filter in Hm as [? ?]. eauto.
  - intros (m & Hm & Hex & Hc). exists (m +:+ ": "). split; [|done].
    apply list_elem_of_In, list_elem_of_fmap. exists m. split; [done|].
    by apply list_elem_of_filter.
Qed.

Lemma elem_of_measurement_columns df markers excluded (col : string) :
  col ∈ measurement_columns df markers excluded ↔
  col ∈ Pd.columns df ∧ measures_kept_marker markers excluded col.
Proof.
  unfold measurement_columns.
  rewrite list_elem_of_filter, Is_true_true, existsb_marker_token. tauto.
Qed.

Lemma drop_markers_total df markers excluded :
  drop_markers df markers excluded =
  Ok (columns_labelled df (measurement_columns df markers excluded)).
Proof.
  unfold drop_markers. apply select_present, Forall_forall.
  intros l Hl. by apply list_elem_of_filter in Hl as [_ ?].
Qed.

Lemma kept_iff df markers excluded s :
  kept df markers excluded s ↔
  s ∈ df ∧ measures_kept_marker markers excluded (name s).
Proof.
  unfold kept. rewrite drop_markers_total. split.
  - intros (df' & [= <-] & Hs).
    apply elem_of_columns_labelled in Hs as [Hs Hl].
    by apply elem_of_measurement_columns in Hl as [_ ?].
  - intros [Hs Hm]. eexists. split; [done|].
    apply elem_of_columns_labelled. split; [done|].
    apply elem_of_measurement_columns. split; [by apply list_elem_of_fmap_2|done].
Qed.

End markers.

Lemma excluding_unmatched_marker (df : DataFrame) (markers excluded : list string)
    (x : string) (s : Series) :
  Py.contains (x +:+ ": ") (name s) = false →
  kept df markers (x :: excluded) s ↔ kept df markers excluded s.
Proof.
  intros Hx. rewrite !kept_iff. unfold measures_kept_marker. split.
  - intros (Hs & m & Hm & Hex & Hc). split; [done|]. exists m.
    apply not_elem_of_cons in Hex as [_ Hex]. done.
  - intros (Hs & m & Hm & Hex & Hc). split; [done|]. exists m.
    split; [done|]. split; [|done]. apply not_elem_of_cons. split; [|done].
    intros ->. congruence.
Qed.

(** C7: [drop_markers] keeps exactly the columns whose name contains a kept
    marker followed by [": "].  Excluding a marker [x] therefore never
    removes a column of another kept marker [m], also when [x] is a prefix
    of [m]; adding "CD4" to any exclusion list changes nothing for a
    column named "CD45: Cell: Mean", which is kept whenever "CD45" itself
    is not excluded. *)
Theorem marker_exclusion_uses_delimited_token
    (df : DataFrame) (markers excluded : list string) :
  (∀ s, kept df markers excluded s ↔
        s ∈ df ∧ measures_kept_marker markers excluded (name s)) ∧
  (∀ x m s, s ∈ df → m ∈ markers → m ∉ excluded → m ≠ x →
        Py.contains (m +:+ ": ") (name s) = true →
        kept df markers (x :: excluded) s) ∧
  (∀ x s, Py.contains (x +:+ ": ") (name s) = false →
        (kept df markers (x :: excluded) s ↔ kept df markers excluded s)) ∧
  (∀ s, name s = "CD45: Cell: Mean" →
        (kept df markers ("CD4" :: excluded) s ↔ kept df markers excluded s)) ∧
  ("CD45" ∉ excluded →
   ∀ s, s ∈ df → name s = "CD45: Cell: Mean" →
        kept df (collect_markers df) ("CD4" :: excluded) s).
Proof.
  split; [intros s; apply kept_iff|].
  split.
  { intros x m s Hs Hm Hex Hne Hc. apply kept_iff. split; [done|].
    exists m. split; [done|]. split; [|done]. apply not_elem_of_cons. done. }
  split; [intros x s; apply excluding_unmatched_marker|].
  split.
  { intros s Hs. apply excluding_unmatched_marker. by rewrite Hs. }
  intros Hex s Hs Hname. apply kept_iff. split; [done|].
  exists "CD45". rewrite Hname. split; [|split; [|done]].
  - unfold collect_markers. apply list_elem_of_fmap.
    exists "CD45: Cell: Mean". split; [done|].
    apply list_elem_of_filter. split; [done|].
    rewrite <- Hname. by apply list_elem_of_fmap_2.
  - apply not_elem_of_cons. done.
Qed.

(** ** Later stages of the feature table *)

Lemma for_each_invariant {S A} (P : S → Prop) (body : S → A → result S)
    (xs : list A) (s s' : S) :
  (∀ s x s', P s → body s x = Ok s' → P s') →
  P s → for_each body s xs = Ok s' → P s'.
Proof.
  intros Hbody. revert s. induction xs as [|x xs IH]; intros s Hs; simpl.
  - by intros [= <-].
  - destruct (body s x) as [s1|e] eqn:E; [|done]. simpl. eauto.
Qed.

Lemma cytoplasm_step_columns (df df' : DataFrame) (col : string) :
  cytoplasm_step df col = Ok df' → Pd.columns df' = Pd.columns df.
Proof.
  unfold cytoplasm_step. destruct (Pd.getitem df col) as [s|] eqn:Hs; [|done].
  simpl. destruct (Pd.any _); [|by intros [= <-]].
  destruct (Py.contains _ _); [|by intros [= <-]].
  destruct (Pd.getitem df (Py.replace_count _ _ _ _)) as [n|]; [|done].
  simpl. intros [= <-].
  apply columns_setitem_present. by eapply getitem_Ok_columns.
Qed.

Lemma nucleus_step_columns (df df' : DataFrame) (col : string) :
  nucleus_step df col = Ok df' → Pd.columns df' = Pd.columns df.
Proof.
  unfold nucleus_step. destruct (Pd.getitem df col) as [s|] eqn:Hs; [|done].
  simpl. destruct (Pd.any _); [|by intros [= <-]].
  destruct (Py.contains _ _); [|by intros [= <-]].
  destruct (Pd.getitem df (Py.replace_count _ _ _ _)) as [n|]; [|done].
  simpl. intros [= <-].
  apply columns_setitem_present. by eapply getitem_Ok_columns.
Qed.

Lemma replace_cytoplasm_with_membrane_columns (df df' : DataFrame) :
  replace_cytoplasm_with_membrane df = Ok df' → Pd.columns df' = Pd.columns df.
Proof.
  intros H.
  refine (for_each_invariant (λ d, Pd.columns d = Pd.columns df) _ _ _ _ _ eq_refl H).
  intros d col d' Hd Hstep. apply cytoplasm_step_columns in Hstep. congruence.
Qed.

Lemma use_cell_measurement_columns (df df' : DataFrame) :
  use_cell_measurement df = Ok df' → Pd.columns df' = Pd.columns df.
Proof.
  intros H.
  refine (for_each_invariant (λ d, Pd.columns d = Pd.columns df) _ _ _ _ _ eq_refl H).
  intros d col d' Hd Hstep. apply nucleus_step_columns in Hstep. congruence.
Qed.

Lemma drop_columns_subset (df df' : DataFrame) (labels : list string) (col : string) :
  Pd.drop df labels = Ok df' → col ∈ Pd.columns df' → col ∈ Pd.columns df.
Proof.
  unfold Pd.drop. case_bool_decide; [|done]. intros [= <-].
  rewrite columns_without. by intros [_ ?]%list_elem_of_filter.
Qed.

(** C10: the table that [drop_markers] returns holds measurement columns
    only: each of its column names contains a kept marker followed by
    [": "], so the identity and centroid columns are not in it; and the
    stages that follow (the two imputers and the two filters) add no
    column. *)
Theorem drop_markers_keeps_measurement_columns_only
    (df : DataFrame) (markers excluded : list string) :
  ∃ df',
    drop_markers df markers excluded = Ok df' ∧
    (∀ col, col ∈ Pd.columns df' → measures_kept_marker markers excluded col) ∧
    (∀ col, col ∈ ["Image"; "Class"; "Name"; "Centroid X µm"; "Centroid Y µm";
                   "Centroid X px"; "Centroid Y px"] → col ∉ Pd.columns df') ∧
    (∀ unwanted_compartments unwanted_stats df1 df2 df3 df4,
       replace_cytoplasm_with_membrane df' = Ok df1 →
       use_cell_measurement df1 = Ok df2 →
       remove_unwanted_compartments df2 unwanted_compartments = Ok df3 →
       remove_statistics df3 unwanted_stats = Ok df4 →
       ∀ col, col ∈ Pd.columns df4 → col ∈ Pd.columns df').
Proof.
  eexists. split; [apply drop_markers_total|].
  assert (∀ col, col ∈ Pd.columns
            (columns_labelled df (measurement_columns df markers excluded)) →
          measures_kept_marker markers excluded col) as Hmeas.
  { intros col (s & -> & Hs)%list_elem_of_fmap.
    apply elem_of_columns_labelled in Hs as [_ Hs].
    by apply elem_of_measurement_columns in Hs as [_ ?]. }
  split; [done|]. split.
  - intros col Hcol Hin. destruct (Hmeas col Hin) as (m & _ & _ & Hc).
    apply contains_app_r in Hc.
    repeat (apply elem_of_cons in Hcol as [->|Hcol]; [done|]).
    by apply elem_of_nil in Hcol.
  - intros uc us df1 df2 df3 df4 H1 H2 H3 H4 col Hcol.
    apply replace_cytoplasm_with_membrane_columns in H1.
    apply use_cell_measurement_columns in H2.
    rewrite <- H1, <- H2.
    eapply drop_columns_subset; [exact H3|].
    eapply drop_columns_subset; [exact H4|done].
Qed.

(** ** Distinct values and sorting *)

Section unique.
Context {A : Type} `{EqDecision A}.
Implicit Types (x : A) (xs seen : list A).

Lemma elem_of_unique_from seen xs x :
  x ∈ Pd.unique_from seen xs ↔ x ∈ xs ∧ x ∉ seen.
Proof.
  revert seen. induction xs as [|y xs IH]; intros seen; simpl.
  - rewrite elem_of_nil. tauto.
  - case_bool_decide as Hy.
    + rewrite IH, elem_of_cons. split; [tauto|].
      intros [[->|?] ?]; tauto.
    + rewrite !elem_of_cons, IH, not_elem_of_cons.
      destruct (decide (x = y)) as [->|]; tauto.
Qed.

Lemma NoDup_unique_from seen xs : NoDup (Pd.unique_from seen xs).
Proof.
  revert seen. induction xs as [|y xs IH]; intros seen; simpl; [constructor|].
  case_bool_decide; [done|]. constructor; [|done].
  rewrite elem_of_unique_from, not_elem_of_cons. tauto.
Qed.

Lemma elem_of_unique xs x : x ∈ Pd.unique xs ↔ x ∈ xs.
Proof.
  unfold Pd.unique. rewrite elem_of_unique_from.
  split; [tauto|]. intros ?. split; [done|]. apply not_elem_of_nil.
Qed.

Lemma NoDup_unique xs : NoDup (Pd.unique xs).
Proof. apply NoDup_unique_from. Qed.

End unique.

Lemma StronglySorted_lookup_le {A} (R : relation A) (l : list A) (i j : nat) (x y : A) :
  StronglySorted R l → i < j → l !! i = Some x → l !! j = Some y → R x y.
Proof.
  intros Hl. revert i j. induction Hl as [|a l _ IH Hall]; intros i j Hij Hi Hj; [done|].
  destruct j as [|j]; [lia|]. simpl in Hj. destruct i as [|i].
  - simpl in Hi. injection Hi as ->.
    rewrite Forall_forall in Hall. apply Hall. by eapply list_elem_of_lookup_2.
  - simpl in Hi. apply (IH i j); [lia|done..].
Qed.

Lemma mapM_as_str_inv (xs : list cell) (strs : list string) :
  mapM as_str xs = Ok strs → xs = Str <$> strs.
Proof.
  revert strs. induction xs as [|c xs IH]; intros strs; simpl.
  - by intros [= <-].
  - destruct c as [|q|s]; simpl; try done.
    destruct (mapM as_str xs) as [strs'|]; simpl; [|done].
    intros [= <-]. by rewrite (IH strs').
Qed.

(** What [sorted] returns: the same values, and when there are several
    they are strings in ascending order. *)
Lemma sorted_Ok_inv (xs cts : list cell) :
  sorted xs = Ok cts →
  cts ≡ₚ xs ∧
  ∃ strs, (length cts ≤ 1 ∨ cts = Str <$> strs) ∧ StronglySorted String.le strs.
Proof.
  unfold sorted. destruct xs as [|x [|y xs]].
  - intros [= <-]. split; [done|]. exists []. split; [left; simpl; lia|constructor].
  - intros [= <-]. split; [done|]. exists []. split; [left; simpl; lia|constructor].
  - destruct (mapM as_str (x :: y :: xs)) as [strs|] eqn:E; [|done].
    simpl. intros [= <-]. apply mapM_as_str_inv in E. rewrite E. split.
    + apply fmap_Permutation, merge_sort_Permutation.
    + eexists. split; [by right|]. apply StronglySorted_merge_sort; apply _.
Qed.

(** ** Encoder and decoder *)

Section encoder.
Implicit Types (cell_types : list cell) (c : cell) (i n : nat).

Lemma decoder_prefix_lookup cell_types n i :
  n ≤ length cell_types →
  foldl (λ d j, match cell_types !! j with
                | Some c => <[j := c]> d
                | None => d
                end) (∅ : gmap nat cell) (seq 0 n) !! i =
  if decide (i < n) then cell_types !! i else None.
Proof.
  induction n as [|n IH]; intros Hn.
  - simpl. rewrite lookup_empty. by destruct (decide (i < 0)); [lia|].
  - rewrite seq_S, foldl_app. simpl.
    destruct (lookup_lt_is_Some_2 cell_types n) as [c Hc]; [lia|]. rewrite Hc.
    destruct (decide (i = n)) as [->|Hne].
    + rewrite lookup_insert_eq. by rewrite decide_True by lia.
    + rewrite lookup_insert_ne by done. rewrite IH by lia.
      destruct (decide (i < n)), (decide (i < S n)); try lia; done.
Qed.

Lemma decoder_of_lookup cell_types i :
  decoder_of cell_types !! i = cell_types !! i.
Proof.
  unfold decoder_of. rewrite decoder_prefix_lookup by done.
  destruct (decide (i < length cell_types)); [done|].
  symmetry. apply lookup_ge_None. lia.
Qed.

Lemma encoder_prefix_lookup cell_types n c i :
  NoDup cell_types →
  n ≤ length cell_types →
  foldl (λ d j, match cell_types !! j with
                | Some c => <[c := j]> d
                | None => d
                end) (∅ : gmap cell nat) (seq 0 n) !! c = Some i ↔
  i < n ∧ cell_types !! i = Some c.
Proof.
  intros Hnd. induction n as [|n IH]; intros Hn.
  - simpl. rewrite lookup_empty. split; [done|]. intros [? _]. lia.
  - rewrite seq_S, foldl_app. simpl.
    destruct (lookup_lt_is_Some_2 cell_types n) as [cn Hcn]; [lia|]. rewrite Hcn.
    destruct (decide (cn = c)) as [->|Hne].
    + rewrite lookup_insert_eq. split.
      * intros [= <-]. split; [lia|done].
      * intros [_ Hi]. f_equal. by eapply NoDup_lookup.
    + rewrite lookup_insert_ne by done. rewrite IH by lia. split.
      * intros [? ?]. split; [lia|done].
      * intros [Hi Hc]. split; [|done].
        destruct (decide (i = n)) as [->|]; [congruence|lia].
Qed.

Lemma encoder_of_lookup cell_types c i :
  NoDup cell_types →
  encoder_of cell_types !! c = Some i ↔ cell_types !! i = Some c.
Proof.
  intros Hnd. unfold encoder_of. rewrite encoder_prefix_lookup by done.
  split; [tauto|]. intros Hc. split; [|done]. by eapply lookup_lt_Some.
Qed.

End encoder.

(** C4: for the working label set [cell_types = sorted(unique(labels))],
    [create_encoder_decoder] persists a decoder and returns an encoder that
    are inverse to each other, between the distinct labels and exactly the
    indices [0 .. N-1]; decoding the index of a label gives the label back;
    and the indices follow the alphabetical order of the labels. *)
Theorem encoder_decoder_bijection
    (labels cell_types : list cell) (folder batch : string) (fs : files) :
  sorted (Pd.unique labels) = Ok cell_types →
  ∃ encoder decoder,
    create_encoder_decoder cell_types folder batch fs =
      (Ok (encoder, decoder), <[decoder_path folder batch := JsonFile decoder]> fs) ∧
    length cell_types = length (Pd.unique labels) ∧
    (∀ l i, encoder !! l = Some i ↔ decoder !! i = Some l) ∧
    (∀ i, is_Some (decoder !! i) ↔ i < length cell_types) ∧
    (∀ l, l ∈ labels ↔ is_Some (encoder !! l)) ∧
    (∀ l, l ∈ labels → ∃ i, encoder !! l = Some i ∧ decoder !! i = Some l) ∧
    (∀ s1 s2 i1 i2,
       encoder !! Str s1 = Some i1 → encoder !! Str s2 = Some i2 →
       (i1 ≤ i2 ↔ (s1 ≤ s2)%string)).
Proof.
  intros Hsorted. apply sorted_Ok_inv in Hsorted as (Hperm & strs & Hshape & Hord).
  assert (NoDup cell_types) as Hnd.
  { rewrite Hperm. apply NoDup_unique. }
  assert (∀ l i, encoder_of cell_types !! l = Some i ↔
                 decoder_of cell_types !! i = Some l) as Hinv.
  { intros l i. by rewrite encoder_of_lookup, decoder_of_lookup. }
  assert (∀ l, l ∈ labels ↔ is_Some (encoder_of cell_types !! l)) as Hdom.
  { intros l. rewrite <- elem_of_unique, <- Hperm, list_elem_of_lookup.
    unfold is_Some. by setoid_rewrite encoder_of_lookup. }
  exists (encoder_of cell_types), (decoder_of cell_types).
  split; [done|]. split; [by rewrite Hperm|]. split; [done|]. split.
  { intros i. rewrite decoder_of_lookup. apply lookup_lt_is_Some. }
  split; [done|]. split.
  { intros l [i Hi]%Hdom. exists i. split; [done|]. by apply Hinv. }
  intros s1 s2 i1 i2 H1%encoder_of_lookup H2%encoder_of_lookup; [|done..].
  destruct (decide (i1 = i2)) as [->|Hne].
  { assert (s1 = s2) as -> by congruence. split; [done|lia]. }
  destruct Hshape as [Hlen | ->].
  { apply lookup_lt_Some in H1, H2. lia. }
  rewrite list_lookup_fmap in H1, H2.
  destruct (strs !! i1) as [t1|] eqn:E1; [|done].
  destruct (strs !! i2) as [t2|] eqn:E2; [|done].
  simpl in H1, H2. injection H1 as ->. injection H2 as ->.
  split.
  - intros Hle. apply (StronglySorted_lookup_le _ strs i1 i2); [done|lia|done..].
  - intros Hle. destruct (decide (i1 ≤ i2)) as [|Hgt]; [done|]. exfalso.
    assert ((s2 ≤ s1)%string) as Hge.
    { apply (StronglySorted_lookup_le _ strs i2 i1); [done|lia|done..]. }
    assert (s1 = s2) as -> by (by apply (anti_symm String.le)).
    apply Hne. eapply NoDup_lookup; [|done..].
    by apply (NoDup_fmap_1 Str).
Qed.

(** ** Binary mode *)

Lemma unique_from_fmap {A B} `{EqDecision A, EqDecision B} (f : A → B) `{!Inj (=) (=) f}
    (seen xs : list A) :
  Pd.unique_from (f <$> seen) (f <$> xs) = f <$> Pd.unique_from seen xs.
Proof.
  revert seen. induction xs as [|x xs IH]; intros seen; [done|].
  rewrite fmap_cons. simpl.
  rewrite (bool_decide_ext (f x ∈ f <$> seen) (x ∈ seen)).
  2:{ rewrite list_elem_of_fmap. split; [|eauto].
      by intros (y & ->%(inj f) & ?). }
  case_bool_decide; [apply IH|].
  rewrite fmap_cons. f_equal. apply (IH (x :: seen)).
Qed.

Lemma mapM_as_str_fmap (strs : list string) : mapM as_str (Str <$> strs) = Ok strs.
Proof.
  rewrite (mapM_Ok_fmap as_str (λ c, match c with Str s => s | _ => "" end)).
  - f_equal. rewrite <- list_fmap_compose. by rewrite <- (list_fmap_id strs) at 2.
  - apply Forall_fmap, Forall_true. done.
Qed.

Lemma sorted_two_strings (raw : list string) (a b : string) :
  a ≠ b → (a ≤ b)%string → (∀ s, s ∈ raw ↔ s = a ∨ s = b) →
  sorted (Pd.unique (Str <$> raw)) = Ok [Str a; Str b].
Proof.
  intros Hne Hle Hmem. unfold Pd.unique.
  change (@nil cell) with (Str <$> @nil string). rewrite (unique_from_fmap Str).
  fold (Pd.unique raw).
  assert (Pd.unique raw ≡ₚ [a; b]) as Hperm.
  { apply NoDup_Permutation; [apply NoDup_unique| |].
    - constructor; [by rewrite list_elem_of_singleton|]. apply NoDup_singleton.
    - intros s. rewrite elem_of_unique, Hmem, elem_of_cons, list_elem_of_singleton. done. }
  assert (length (Pd.unique raw) = 2) as Hlen by (by rewrite Hperm).
  destruct (Pd.unique raw) as [|x [|y [|z u]]] eqn:E; try done.
  change (Str <$> [x; y]) with [Str x; Str y]. unfold sorted.
  change [Str x; Str y] with (Str <$> [x; y]).
  rewrite mapM_as_str_fmap. rewrite bind_Ok.
  enough (merge_sort String.le [x; y] = [a; b]) as -> by done.
  apply (StronglySorted_unique String.le).
  - apply StronglySorted_merge_sort; apply _.
  - repeat constructor. done.
  - by rewrite merge_sort_Permutation.
Qed.

Lemma mapM_plus_flag (raw : list string) :
  mapM FunctionalMarker.plus_flag (Str <$> raw) = Ok (plus_code <$> raw).
Proof.
  rewrite (mapM_Ok_fmap FunctionalMarker.plus_flag
             (λ c, match c with Str s => plus_code s | _ => NA end)).
  - by rewrite <- list_fmap_compose.
  - apply Forall_fmap, Forall_true. done.
Qed.

(** C2: on a [Classification] column of strings with exactly the two
    distinct values [a] and [b], [a] before [b] in alphabetical order, the
    persisted decoder is [{1: a, 0: b}] and the returned encoder its
    inverse, while the persisted label of every row is 1 when the
    character "+" occurs in the raw string of the row and 0 when it does
    not, whatever [a] and [b] are: the label of a row need not be the index
    under which the decoder holds its raw string. *)
Theorem binary_decoder_alphabetical_rows_by_plus
    (df : DataFrame) (folder batch : string) (fs : files)
    (classification : Series) (raw : list string) (a b : string) :
  Pd.getitem df "Classification" = Ok classification →
  values classification = Str <$> raw →
  a ≠ b → (a ≤ b)%string → (∀ s, s ∈ raw ↔ s = a ∨ s = b) →
  ∃ encoder decoder encoded,
    FunctionalMarker.binarize_and_save_fm df folder batch fs =
      (Ok (encoder, decoder),
       <[binarized_path folder batch := CsvFile [mkSeries "Classification" encoded]]>
         (<[decoder_path folder batch := JsonFile decoder]> fs)) ∧
    decoder = <[0 := Str b]> (<[1 := Str a]> ∅) ∧
    encoder = <[Str b := 0]> (<[Str a := 1]> ∅) ∧
    decoder !! 1 = Some (Str a) ∧
    decoder !! 0 = Some (Str b) ∧
    (∀ i, 2 ≤ i → decoder !! i = None) ∧
    length encoded = length raw ∧
    ∀ r s, raw !! r = Some s →
      (encoded !! r = Some (Num (B64.of_Z 1)) ∨ encoded !! r = Some (Num (B64.of_Z 0))) ∧
      (encoded !! r = Some (Num (B64.of_Z 1)) ↔ ∃ pre post, s = pre +:+ "+" +:+ post) ∧
      (encoded !! r = Some (Num (B64.of_Z 0)) ↔ ¬ ∃ pre post, s = pre +:+ "+" +:+ post).
Proof.
  intros Hcol Hvals Hne Hle Hmem.
  exists (<[Str b := 0]> (<[Str a := 1]> ∅)), (<[0 := Str b]> (<[1 := Str a]> ∅)),
         (plus_code <$> raw).
  split; [|split; [done|split; [done|split; [|split; [|split; [|split]]]]]].
  - unfold FunctionalMarker.binarize_and_save_fm, lift, write, mbind, io_bind.
    rewrite Hcol, Hvals, (sorted_two_strings raw a b) by done.
    simpl. by rewrite mapM_plus_flag.
  - by rewrite lookup_insert_ne, lookup_insert_eq.
  - by rewrite lookup_insert_eq.
  - intros i Hi. rewrite !lookup_insert_ne, lookup_empty by lia. done.
  - by rewrite length_fmap.
  - intros r s Hr. rewrite list_lookup_fmap, Hr. simpl. unfold plus_code.
    rewrite <- contains_spec.
    destruct (Py.contains "+" s); (split; [|split; split]); try done; auto;
      try (by intros [= H]).
Qed.

(** ** Duplicate column merger *)

(** *** Binary64 arithmetic *)

Section binary64.
Implicit Types (x y a b : float64) (s : bool) (m : positive) (e : Z).











End binary64.

Section mean.
Implicit Types (vs : list cell) (xs : list float64) (m : nat).

Lemma copies_S {A} m (xs : list A) : copies (S m) xs = xs ++ copies m xs.
Proof. done. Qed.

Lemma fmap_copies {A B} (f : A → B) m (xs : list A) :
  f <$> copies m xs = copies m (f <$> xs).
Proof.
  induction m as [|m IH]; [done|]. by rewrite !copies_S, fmap_app, IH.
Qed.

Lemma length_copies {A} m (xs : list A) : length (copies m xs) = m * length xs.
Proof.
  induction m as [|m IH]; [done|]. rewrite copies_S, length_app, IH. lia.
Qed.



Lemma present_numeric vs :
  Forall numeric vs → Pd.present vs = Ok (present_values vs).
Proof.
  induction 1 as [|v vs Hv _ IH]; [done|].
  destruct v as [|x|s]; simpl; [done| |done].
  rewrite IH. simpl. by destruct (B64.is_nan x).
Qed.



Lemma Forall_copies {A} (P : A → Prop) m (xs : list A) :
  Forall P xs → Forall P (copies m xs).
Proof.
  intros H. induction m as [|m IH]; [constructor|].
  rewrite copies_S. by apply Forall_app.
Qed.

(** On a row of numbers and gaps the mean is the binary64 mean of the
    numbers. *)
Lemma mean_numeric vs :
  Forall numeric vs → Pd.mean vs = Ok (Pd.float_mean (present_values vs)).
Proof. intros Hnum. unfold Pd.mean. by rewrite present_numeric. Qed.


End mean.

Section merger.
Implicit Types (df : DataFrame) (g l : string) (labels seen : list string) (s : Series).

Lemma count_label_cons g l labels :
  count_label g (l :: labels) =
  (if decide (l = g) then 1 else 0) + count_label g labels.
Proof.
  unfold count_label. rewrite filter_cons. by destruct (decide (l = g)).
Qed.

Lemma count_label_pos g labels : 0 < count_label g labels ↔ g ∈ labels.
Proof.
  unfold count_label. split.
  - intros H. destruct (filter (λ l, l = g) labels) as [|x xs] eqn:E; [simpl in H; lia|].
    assert (x ∈ filter (λ l, l = g) labels) as [-> ?]%list_elem_of_filter
      by (rewrite E; left). done.
  - intros H. assert (g ∈ filter (λ l, l = g) labels) as Hin
      by (by apply list_elem_of_filter).
    destruct (filter (λ l, l = g) labels); [by apply elem_of_nil in Hin|simpl; lia].
Qed.

Lemma count_label_columns df g :
  count_label g (Pd.columns df) = length (occurrences df g).
Proof.
  unfold occurrences. induction df as [|s df IH]; [done|].
  unfold Pd.columns. rewrite fmap_cons, count_label_cons, filter_cons.
  fold (Pd.columns df). rewrite IH. by destruct (decide (name s = g)).
Qed.

Lemma count_take_duplicated seen labels g :
  count_label g (Pd.take_where (Pd.duplicated_from seen labels) labels) =
  if decide (g ∈ seen) then count_label g labels else pred (count_label g labels).
Proof.
  revert seen. induction labels as [|l labels IH]; intros seen; simpl.
  - by destruct (decide (g ∈ seen)).
  - case_bool_decide; rewrite ?count_label_cons, IH;
      (destruct (decide (g ∈ l :: seen)) as [Hin|Hin];
        [apply elem_of_cons in Hin|apply not_elem_of_cons in Hin]);
      repeat case_decide; subst; simpl; try lia; try tauto.
    all: destruct Hin; congruence.
Qed.

Lemma count_duplicated_cols df g :
  count_label g (duplicated_cols df) = pred (length (occurrences df g)).
Proof.
  unfold duplicated_cols, Pd.duplicated. rewrite count_take_duplicated.
  rewrite decide_False by apply not_elem_of_nil. by rewrite count_label_columns.
Qed.

Lemma elem_of_duplicated_cols df g : g ∈ duplicated_cols df ↔ repeated df g.
Proof.
  rewrite <- count_label_pos, count_duplicated_cols. unfold repeated. lia.
Qed.

Lemma duplicated_cols_present df :
  Forall (λ l, l ∈ Pd.columns df) (duplicated_cols df).
Proof.
  apply Forall_forall. intros l Hl%elem_of_duplicated_cols.
  apply count_label_pos. rewrite count_label_columns. unfold repeated in Hl. lia.
Qed.

Lemma occurrences_columns_labelled df labels g :
  occurrences (columns_labelled df labels) g =
  copies (count_label g labels) (occurrences df g).
Proof.
  unfold occurrences, columns_labelled.
  induction labels as [|l labels IH]; [done|].
  rewrite count_label_cons, bind_cons, filter_app, IH.
  destruct (decide (l = g)) as [->|Hne]; simpl.
  - rewrite copies_S. f_equal. rewrite list_filter_filter.
    apply list_filter_iff. tauto.
  - rewrite filter_none; [done|].
    intros s [Hs _]%list_elem_of_filter. congruence.
Qed.

End merger.

Section merger_result.
Implicit Types (df : DataFrame) (g l : string) (s : Series) (n r : nat).

Lemma repeated_occurs df g : repeated df g → ∃ s, s ∈ df ∧ name s = g.
Proof.
  unfold repeated, occurrences. intros H.
  destruct (filter (λ s, name s = g) df) as [|s ?] eqn:E; [simpl in H; lia|].
  assert (s ∈ filter (λ s, name s = g) df) as [? ?]%list_elem_of_filter
    by (rewrite E; left).
  by exists s.
Qed.

Lemma elem_of_selected df s :
  s ∈ columns_labelled df (duplicated_cols df) ↔ s ∈ df ∧ repeated df (name s).
Proof. by rewrite elem_of_columns_labelled, elem_of_duplicated_cols. Qed.

Lemma elem_of_merged_labels df g : g ∈ merged_labels df ↔ repeated df g.
Proof.
  unfold merged_labels. rewrite merge_sort_Permutation, elem_of_unique.
  unfold Pd.columns. rewrite list_elem_of_fmap. split.
  - intros (s & -> & Hs). by apply elem_of_selected in Hs as [_ ?].
  - intros Hg. destruct (repeated_occurs df g Hg) as (s & Hs & <-).
    exists s. split; [done|]. by apply elem_of_selected.
Qed.

Lemma NoDup_merged_labels df : NoDup (merged_labels df).
Proof. unfold merged_labels. rewrite merge_sort_Permutation. apply NoDup_unique. Qed.

Lemma nrows_selected df n s :
  (∀ s, s ∈ df → length (values s) = n) →
  s ∈ columns_labelled df (duplicated_cols df) →
  Pd.nrows (columns_labelled df (duplicated_cols df)) = n.
Proof.
  intros Hwf Hs. destruct (columns_labelled df (duplicated_cols df)) as [|c cs] eqn:E.
  - by apply elem_of_nil in Hs.
  - simpl. apply Hwf. assert (c ∈ columns_labelled df (duplicated_cols df)) as Hc
      by (rewrite E; left).
    by apply elem_of_selected in Hc as [? _].
Qed.

Lemma row_numeric df g r :
  (∀ s, s ∈ df → repeated df (name s) → Forall numeric (values s)) →
  repeated df g → Forall numeric (Pd.row (occurrences df g) r).
Proof.
  intros Hnum Hg. unfold Pd.row. apply Forall_fmap, Forall_forall.
  intros s [<- Hs]%list_elem_of_filter. simpl.
  destruct (values s !! r) as [c|] eqn:E; [|done]. simpl.
  specialize (Hnum s Hs Hg). rewrite Forall_forall in Hnum.
  apply Hnum. by eapply list_elem_of_lookup_2.
Qed.

Lemma groupby_selected df n :
  mergeable df n →
  Pd.groupby_columns_mean (columns_labelled df (duplicated_cols df)) =
  Ok (merged_column df n <$> merged_labels df).
Proof.
  intros [Hwf Hnum]. unfold Pd.groupby_columns_mean. fold (merged_labels df).
  apply mapM_Ok_fmap, Forall_forall. intros g Hg%elem_of_merged_labels.
  fold (occurrences (columns_labelled df (duplicated_cols df)) g).
  rewrite occurrences_columns_labelled, count_duplicated_cols.
  fold (averaged df g).
  destruct (repeated_occurs df g Hg) as (s & Hs & Hname).
  rewrite (nrows_selected df n s Hwf) by (apply elem_of_selected; by subst g).
  rewrite (mapM_Ok_fmap _ (merged_cell df g)); [done|].
  apply Forall_forall. intros r _. unfold merged_cell.
  apply mean_numeric. unfold averaged, Pd.row. rewrite fmap_copies.
  apply Forall_copies. by apply row_numeric.
Qed.

Lemma remove_duplicate_columns_result df n :
  mergeable df n →
  remove_duplicate_columns df =
  Ok (filter (λ s, name s ∉ duplicated_cols df) df ++
      (merged_column df n <$> merged_labels df)).
Proof.
  intros Hm. unfold remove_duplicate_columns. fold (duplicated_cols df).
  rewrite select_present by apply duplicated_cols_present.
  rewrite bind_Ok, (groupby_selected df n Hm), bind_Ok.
  rewrite drop_present by apply duplicated_cols_present.
  rewrite bind_Ok. unfold Pd.join. rewrite bool_decide_eq_true_2; [done|].
  apply Forall_forall. intros l (c & -> & (g & -> & Hg)%list_elem_of_fmap)%list_elem_of_fmap.
  simpl. rewrite columns_without, list_elem_of_filter.
  apply elem_of_merged_labels, elem_of_duplicated_cols in Hg. tauto.
Qed.

End merger_result.





(** ** Column normalizer *)

(** C5, by evaluation: a period that follows a digit and is not followed by
    one is left in place by [remove_dots], although it does not stand
    between two digits; the regular expression wants a non-digit on each
    side of the period it rewrites.  The same name with a letter before the
    period is normalised as the specification says. *)
Theorem lone_period_after_digit_is_kept (vals : list cell) :
  remove_dots [mkSeries "Cell..CD3.mean" vals] = [mkSeries "Cell: CD3.mean" vals] ∧
  remove_dots [mkSeries "Cell..CDx.mean" vals] = [mkSeries "Cell: CDx mean" vals] ∧
  remove_dots [mkSeries "CD3..Std.Dev." vals] = [mkSeries "CD3: Std.Dev." vals] ∧
  remove_dots [mkSeries "Percentile..99.9" vals] = [mkSeries "Percentile: 99.9" vals].
Proof. repeat split; reflexivity. Qed.

(** ** Files *)

Section files.
Context {A B : Type}.
Implicit Types (path : string).

Lemma leaves_file_lift path (r : result A) : leaves_file path (lift r).
Proof. done. Qed.

Lemma leaves_file_ret path (a : A) : leaves_file path (mret a : io A).
Proof. done. Qed.

Lemma leaves_file_write path path' (f : file) :
  path ≠ path' → leaves_file path (write path' f).
Proof. intros Hne fs. unfold write. simpl. by rewrite lookup_insert_ne. Qed.

Lemma leaves_file_bind path (m : io A) (k : A → io B) :
  leaves_file path m → (∀ a, leaves_file path (k a)) → leaves_file path (m ≫= k).
Proof.
  intros Hm Hk fs. unfold mbind, io_bind. specialize (Hm fs).
  destruct (m fs) as [[a|e] fs']; simpl in *; [|done].
  by rewrite Hk.
Qed.

End files.

Lemma startswith_slash_batch (batch suffix : string) :
  Py.startswith "/" ("_" +:+ suffix) = false →
  Py.startswith "/" (batch +:+ "_" +:+ suffix) = Py.startswith "/" (batch +:+ "_").
Proof. by destruct batch as [|c batch]. Qed.

(** Two artifacts of one run lie at different paths when their suffixes
    differ. *)
Lemma path_join_suffix_inj (folder batch s1 s2 : string) :
  Py.path_join folder (batch +:+ "_" +:+ s1) = Py.path_join folder (batch +:+ "_" +:+ s2) →
  s1 = s2.
Proof.
  unfold Py.path_join.
  rewrite (startswith_slash_batch batch s1), (startswith_slash_batch batch s2) by done.
  destruct (Py.startswith "/" (batch +:+ "_")).
  { intros Heq. by apply string_app_inj, (string_app_inj "_") in Heq. }
  case_bool_decide.
  { intros Heq. by apply string_app_inj, (string_app_inj "_") in Heq. }
  destruct (Py.startswith "/" (String.rev folder)); intros Heq.
  - by apply string_app_inj, string_app_inj, (string_app_inj "_") in Heq.
  - by apply string_app_inj, (string_app_inj "/"), string_app_inj,
      (string_app_inj "_") in Heq.
Qed.

Lemma artifact_paths_distinct (folder batch s1 s2 : string) :
  s1 ≠ s2 →
  Py.path_join folder (batch +:+ "_" +:+ s1) ≠ Py.path_join folder (batch +:+ "_" +:+ s2).
Proof. intros Hne Heq. by apply Hne, (path_join_suffix_inj folder batch). Qed.

Lemma lift_Ok_bind {A B} (a : A) (k : A → io B) : lift (Ok a) ≫= k = k a.
Proof. done. Qed.

Lemma lift_Err_bind {A B} (e : exn) (k : A → io B) (fs : files) :
  (lift (Err e) ≫= k) fs = (Err e, fs).
Proof. done. Qed.

(** ** The pipeline on a table without labels *)

Lemma feature_stages_leaves_decoder (cfg : config) (df : DataFrame) :
  leaves_file (decoder_path (output_folder cfg) (batch_name cfg)) (feature_stages cfg df).
Proof.
  unfold feature_stages, decoder_path.
  apply leaves_file_bind; [apply leaves_file_lift|].
  intros [df1|s]; [|apply leaves_file_lift].
  apply leaves_file_bind.
  { unfold save_image_coordinate_columns.
    apply leaves_file_bind; [apply leaves_file_lift|]. intros t.
    apply leaves_file_write.
    by apply (artifact_paths_distinct _ _ "decoder.json" "images.csv"). }
  intros _. repeat (apply leaves_file_bind; [apply leaves_file_lift|]; intros ?).
  unfold save_preprocessed_data. case_bool_decide; apply leaves_file_write.
  - by apply (artifact_paths_distinct _ _ "decoder.json" "preprocessed_input_data.parquet").
  - by apply (artifact_paths_distinct _ _ "decoder.json" "preprocessed_input_data.csv").
Qed.

Lemma celltypecolumn_all_missing (df : DataFrame) (class : Series)
    (to_remove : list string) (change_to : string) :
  Pd.getitem df "Class" = Ok class →
  Forall (λ c, c = NA) (values class) →
  preprocess_celltypecolumn df to_remove change_to = Ok (df, None, None).
Proof.
  intros Hclass Hall. unfold preprocess_celltypecolumn. rewrite Hclass, bind_Ok.
  replace (Pd.any (negb ∘ Pd.isnull <$> values class)) with false; [done|].
  symmetry. unfold Pd.any. induction Hall as [|c cs -> _ IH]; [done|].
  rewrite fmap_cons. simpl. exact IH.
Qed.

(** C6 as the code has it: when every entry of the label column is
    missing, the label processor returns no label list (None for both),
    no encoder is created and the decoder file is not written; the label
    file is written all the same, with its header and one row per
    observation holding the entry of the [Name] column without encoding,
    but for an entry that is the text "Name" itself, which is written as
    missing; and the pipeline goes on with the stages that produce the
    other artifacts. *)
Theorem missing_labels_skip_encoder_only
    (cfg : config) (input : DataFrame) (fs : files) (class : Series) (names : DataFrame) :
  generate_warnings (remove_dots input) = Ok () →
  Pd.getitem (remove_dots input) "Class" = Ok class →
  Forall (λ c, c = NA) (values class) →
  Pd.select (remove_dots input) ["Name"] = Ok names →
  let df := remove_dots input in
  let label_file := CsvFile (replace_in_column "Name" None names) in
  preprocess_celltypecolumn df (cell_types_to_remove cfg) (change_to cfg) =
    Ok (df, None, None) ∧
  preprocess_training_data cfg input fs =
    feature_stages cfg df
      (<[labels_path (output_folder cfg) (batch_name cfg) := label_file]> fs) ∧
  (preprocess_training_data cfg input fs).2
    !! decoder_path (output_folder cfg) (batch_name cfg) =
    fs !! decoder_path (output_folder cfg) (batch_name cfg) ∧
  (∃ s, s ∈ replace_in_column "Name" None names) ∧
  (∀ s, s ∈ replace_in_column "Name" None names →
     ∃ s0, s0 ∈ remove_dots input ∧ name s0 = "Name" ∧ name s = "Name" ∧
           length (values s) = length (values s0) ∧
           ∀ r c, values s0 !! r = Some c →
                  values s !! r = Some (if bool_decide (c = Str "Name") then NA else c)).
Proof.
  intros Hwarn Hclass Hall Hnames df label_file. subst df label_file.
  set (df := remove_dots input) in *.
  set (label_file := CsvFile (replace_in_column "Name" None names)).
  pose proof (celltypecolumn_all_missing df class (cell_types_to_remove cfg)
                (change_to cfg) Hclass Hall) as Hpre.
  assert (preprocess_training_data cfg input fs =
          feature_stages cfg df
            (<[labels_path (output_folder cfg) (batch_name cfg) := label_file]> fs)) as Hrun.
  { unfold preprocess_training_data. change (remove_dots input) with df.
    rewrite Hwarn, lift_Ok_bind, Hpre, lift_Ok_bind. simpl.
    unfold save_encoded_labels. rewrite Hnames. done. }
  split; [done|]. split; [done|]. split.
  - rewrite Hrun, feature_stages_leaves_decoder. apply lookup_insert_ne.
    by apply (artifact_paths_distinct _ _ "cell_type_labels.csv" "decoder.json").
  - assert (names = columns_labelled df ["Name"] ∧ "Name" ∈ Pd.columns df) as [-> Hin].
    { destruct (decide (Forall (λ l, l ∈ Pd.columns df) ["Name"])) as [Hin|Hin].
      - rewrite select_present in Hnames by done.
        split; [congruence|]. by apply Forall_cons in Hin as [? _].
      - rewrite select_absent in Hnames by done. done. }
    split.
    { apply list_elem_of_fmap in Hin as (s0 & Hname & Hs0).
      eexists. apply list_elem_of_fmap_2. apply elem_of_columns_labelled.
      split; [exact Hs0|]. rewrite <- Hname. by left. }
    intros s (s0 & -> & Hs0)%list_elem_of_fmap.
    apply elem_of_columns_labelled in Hs0 as [Hs0 Hname%list_elem_of_singleton].
    exists s0. simpl. rewrite length_fmap.
    split; [done|]. split; [done|]. split; [done|]. split; [done|].
    intros r c Hr. by rewrite list_lookup_fmap, Hr.
Qed.

(** ** The statements at concrete tables *)

Lemma both_columns_present_raises_witness :
  "X" ∈ ["X"; "Y"] ∧
  um_col "X" ∈ Pd.columns both_units_example ∧
  px_col "X" ∈ Pd.columns both_units_example ∧
  ∃ e, convert_pixels_to_micrometre both_units_example (B64.decimal 3906 10000) = Err e.
Proof.
  assert ("X" ∈ ["X"; "Y"]) as H1 by (by left).
  assert (um_col "X" ∈ Pd.columns both_units_example) as H2 by (by right; left).
  assert (px_col "X" ∈ Pd.columns both_units_example) as H3 by (by right; right; left).
  split; [done|]. split; [done|]. split; [done|].
  exact (both_columns_present_raises both_units_example (B64.decimal 3906 10000) "X" H1 H2 H3).
Defined.

Example both_units_example_raises :
  convert_pixels_to_micrometre both_units_example (B64.decimal 3906 10000) = Err ValueError.
Proof. reflexivity. Qed.

Example both_units_example_scripts :
  Scripts.convert_pixels_to_micrometre both_units_example (B64.decimal 3906 10000) =
  Ok [ mkSeries "Image" [Str "a.tif"; Str "a.tif"];
       mkSeries "Centroid X µm" [Num (B64.decimal 3906 100); Num (B64.of_Z 3)];
       mkSeries "Centroid X px" [Num (B64.of_Z 100); Num (B64.of_Z 8)];
       mkSeries "Centroid Y µm" [Num (B64.of_Z 5); Num (B64.of_Z 6)] ].
Proof. compute_done. Qed.

Lemma binary_decoder_alphabetical_rows_by_plus_witness :
  Pd.getitem classification_example "Classification" =
    Ok (mkSeries "Classification" [Str "CD8-"; Str "CD8+"; Str "CD8-"]) ∧
  "CD8+" ≠ "CD8-" ∧ ("CD8+" ≤ "CD8-")%string ∧
  ∃ encoder decoder,
    FunctionalMarker.binarize_and_save_fm classification_example "out" "B" ∅ =
      (Ok (encoder, decoder),
       <[binarized_path "out" "B" :=
           CsvFile [mkSeries "Classification"
                      [Num (B64.of_Z 0); Num (B64.of_Z 1); Num (B64.of_Z 0)]]]>
         (<[decoder_path "out" "B" :=
              JsonFile (<[0 := Str "CD8-"]> (<[1 := Str "CD8+"]> ∅))]> ∅)) ∧
    decoder !! 1 = Some (Str "CD8+") ∧
    decoder !! 0 = Some (Str "CD8-").
Proof.
  assert ("CD8+" ≠ "CD8-") as Hne by discriminate.
  assert (("CD8+" ≤ "CD8-")%string) as Hle by (by vm_compute).
  split; [reflexivity|]. split; [exact Hne|]. split; [exact Hle|].
  destruct (binary_decoder_alphabetical_rows_by_plus classification_example "out" "B" ∅
              (mkSeries "Classification" [Str "CD8-"; Str "CD8+"; Str "CD8-"])
              ["CD8-"; "CD8+"; "CD8-"] "CD8+" "CD8-")
    as (encoder & decoder & encoded & Hrun & Hdec & _ & H1 & H0 & _ & Hlen & Hrows);
    [reflexivity|reflexivity|exact Hne|exact Hle| |].
  { intros s. rewrite !elem_of_cons, elem_of_nil. tauto. }
  exists encoder, decoder. split; [|split; [exact H1|exact H0]].
  assert (∀ pre post, "CD8-" ≠ pre +:+ "+" +:+ post) as Hminus.
  { intros pre post Heq.
    assert (Py.contains "+" "CD8-" = true) as Hc by (apply contains_spec; eauto).
    by vm_compute in Hc. }
  destruct encoded as [|e0 [|e1 [|e2 [|? ?]]]]; try done.
  destruct (Hrows 0 "CD8-" eq_refl) as (_ & _ & Hr0).
  destruct (Hrows 1 "CD8+" eq_refl) as (_ & Hr1 & _).
  destruct (Hrows 2 "CD8-" eq_refl) as (_ & _ & Hr2).
  assert (e0 = Num (B64.of_Z 0)) as ->.
  { enough (Some e0 = Some (Num (B64.of_Z 0))) by congruence.
    apply Hr0. intros (pre & post & Heq). by eapply Hminus. }
  assert (e1 = Num (B64.of_Z 1)) as ->.
  { enough (Some e1 = Some (Num (B64.of_Z 1))) by congruence.
    apply Hr1. by exists "CD8", "". }
  assert (e2 = Num (B64.of_Z 0)) as ->.
  { enough (Some e2 = Some (Num (B64.of_Z 0))) by congruence.
    apply Hr2. intros (pre & post & Heq). by eapply Hminus. }
  rewrite Hrun, Hdec. reflexivity.
Defined.



Lemma encoder_decoder_bijection_witness :
  sorted (Pd.unique working_labels_example) = Ok [Str "B cells"; Str "Other"] ∧
  ∃ encoder decoder,
    create_encoder_decoder [Str "B cells"; Str "Other"] "out" "B" ∅ =
      (Ok (encoder, decoder), <[decoder_path "out" "B" := JsonFile decoder]> ∅) ∧
    (∀ l i, encoder !! l = Some i ↔ decoder !! i = Some l) ∧
    (∀ i, is_Some (decoder !! i) ↔ i < 2) ∧
    (∀ l, l ∈ working_labels_example →
          ∃ i, encoder !! l = Some i ∧ decoder !! i = Some l).
Proof.
  assert (sorted (Pd.unique working_labels_example) = Ok [Str "B cells"; Str "Other"])
    as Hs by reflexivity.
  split; [exact Hs|].
  destruct (encoder_decoder_bijection working_labels_example
              [Str "B cells"; Str "Other"] "out" "B" ∅ Hs)
    as (encoder & decoder & Hrun & _ & Hinv & Hdom & _ & Hround & _).
  exists encoder, decoder. split; [exact Hrun|]. split; [exact Hinv|].
  split; [exact Hdom|exact Hround].
Defined.

Lemma pixel_only_axis_is_converted_witness :
  px_only pixel_example "X" ∧ um_only pixel_example "Y" ∧
  ∃ df',
    convert_pixels_to_micrometre pixel_example (B64.decimal 3906 10000) = Ok (Frame df') ∧
    (px_col "X" ∉ Pd.columns df') ∧ (px_col "Y" ∉ Pd.columns df') ∧
    (∃ um, Pd.getitem df' (um_col "X") = Ok um ∧
           length (values um) = 2 ∧
           values um !! 0 = Some (Num (B64.decimal 3906 100)) ∧
           values um !! 1 = Some NA) ∧
    Pd.getitem df' (um_col "Y") = Pd.getitem pixel_example (um_col "Y").
Proof.
  assert (px_only pixel_example "X") as HX.
  { split; [compute_done|].
    eexists. split; [reflexivity|]. repeat constructor. }
  assert (um_only pixel_example "Y") as HY.
  { split; compute_done. }
  split; [exact HX|]. split; [exact HY|].
  destruct (pixel_only_axis_is_converted pixel_example (B64.decimal 3906 10000))
    as (_ & (df' & Hrun & Hax) & _).
  { intros dim [->|[->|[]%elem_of_nil]%elem_of_cons]%elem_of_cons; [by left|by right]. }
  exists df'. split; [exact Hrun|].
  destruct (Hax "X") as (HpX & HumX & _); [by left|].
  destruct (Hax "Y") as (HpY & _ & HumY); [by right; left|].
  split; [exact HpX|]. split; [exact HpY|]. split; [|exact (HumY HY)].
  destruct HX as [HnoX _].
  destruct (HumX (mkSeries "Centroid X px" [Num (B64.of_Z 100); NA]) HnoX eq_refl)
    as (um & _ & Hget & Hlen & Hrows).
  exists um. split; [exact Hget|]. split; [exact Hlen|].
  split; [exact (proj2 (Hrows 0) (B64.of_Z 100) eq_refl)|exact (proj1 (Hrows 1) eq_refl)].
Defined.

(** C6 as the specification words it fails on the table without labels:
    every entry of [Class] is missing, the run completes, and the label
    file that it leaves holds two rows below its header. *)
Lemma label_file_has_rows_without_labels :
  Pd.getitem (remove_dots unlabelled_example) "Class" = Ok (mkSeries "Class" [NA; NA]) ∧
  (preprocess_training_data example_config unlabelled_example ∅).1 = Ok () ∧
  (preprocess_training_data example_config unlabelled_example ∅).2
    !! labels_path "out" "B" =
    Some (CsvFile [mkSeries "Name" [Str "PathCellObject"; Str "PathCellObject"]]) ∧
  ¬ header_only (CsvFile [mkSeries "Name" [Str "PathCellObject"; Str "PathCellObject"]]).
Proof.
  split; [reflexivity|]. split; [reflexivity|]. split; [reflexivity|].
  intros (table & [= <-] & Hall). apply Forall_cons in Hall as [Hrows _].
  discriminate Hrows.
Qed.

Lemma missing_labels_skip_encoder_only_witness :
  generate_warnings (remove_dots unlabelled_example) = Ok () ∧
  Pd.getitem (remove_dots unlabelled_example) "Class" = Ok (mkSeries "Class" [NA; NA]) ∧
  Forall (λ c, c = NA) [NA; NA] ∧
  preprocess_celltypecolumn (remove_dots unlabelled_example) ["Unknown"] "Other" =
    Ok (remove_dots unlabelled_example, None, None) ∧
  preprocess_training_data example_config unlabelled_example ∅ =
    feature_stages example_config (remove_dots unlabelled_example)
      (<[labels_path "out" "B" :=
           CsvFile [mkSeries "Name" [Str "PathCellObject"; Str "PathCellObject"]]]> ∅) ∧
  (preprocess_training_data example_config unlabelled_example ∅).2
    !! decoder_path "out" "B" = None ∧
  (preprocess_training_data example_config unlabelled_example ∅).1 = Ok () ∧
  is_Some ((preprocess_training_data example_config unlabelled_example ∅).2
             !! "out/B_images.csv") ∧
  is_Some ((preprocess_training_data example_config unlabelled_example ∅).2
             !! "out/B_preprocessed_input_data.csv").
Proof.
  assert (Forall (λ c, c = NA) [NA; NA]) as Hall by (repeat constructor).
  split; [reflexivity|]. split; [reflexivity|]. split; [exact Hall|].
  destruct (missing_labels_skip_encoder_only example_config unlabelled_example ∅
              (mkSeries "Class" [NA; NA])
              [mkSeries "Name" [Str "PathCellObject"; Str "PathCellObject"]]
              eq_refl eq_refl Hall eq_refl) as (Hpre & Hrun & Hdec & _).
  split; [exact Hpre|]. split; [exact Hrun|]. split; [exact Hdec|].
  split; [reflexivity|]. split; eexists; reflexivity.
Defined.

(** ** Further checks by evaluation *)

Example replace_all_occurrences :
  Py.replace ".." ": " "Cell..CD3..Mean" = "Cell: CD3: Mean".
Proof. reflexivity. Qed.

Example replace_does_not_overlap : Py.replace "aa" "b" "aaaaa" = "bba".
Proof. reflexivity. Qed.

Example replace_first_occurrence :
  Py.replace_count "Cytoplasm" "Membrane" 1 "Cytoplasm: Cytoplasm X" =
  "Membrane: Cytoplasm X".
Proof. reflexivity. Qed.

Example sub_lone_dots_lookaround :
  Py.sub_lone_dots None "a.b 99.9 x.5 5.y ." = "a b 99.9 x.5 5.y  ".
Proof. reflexivity. Qed.

Example end_to_end_labels :
  preprocess_celltypecolumn
    [mkSeries "Class" [Str "Unknown"; Str "B cells"]] ["Unknown"] "Other" =
  Ok ([mkSeries "Class" [Str "Other"; Str "B cells"]],
      Some [Str "B cells"; Str "Unknown"], Some [Str "B cells"; Str "Other"]).
Proof. reflexivity. Qed.

Example end_to_end_decoder :
  decoder_of [Str "B cells"; Str "Other"] = <[1 := Str "Other"]> {[0 := Str "B cells"]}.
Proof. reflexivity. Qed.

Example cd45_survives_cd4 :
  drop_markers
    [mkSeries "Image" []; mkSeries "CD4: Cell: Mean" []; mkSeries "CD45: Cell: Mean" []]
    ["CD4"; "CD45"] ["CD4"] =
  Ok [mkSeries "CD45: Cell: Mean" []].
Proof. reflexivity. Qed.

(** * Further properties of the pipeline *)

(** ** Coordinate unit resolver: the fatal branch and the two versions *)

Lemma step_neither_raises (df : DataFrame) (dim : string) (k : float64) :
  um_col dim ∉ Pd.columns df → px_col dim ∉ Pd.columns df →
  centroid_step k (Frame df) dim = Err RuntimeError.
Proof.
  intros Hum Hpx. unfold centroid_step.
  rewrite (bool_decide_eq_false_2 (um_col dim ∈ _)) by done.
  rewrite (bool_decide_eq_false_2 (px_col dim ∈ _)) by done.
  rewrite (bool_decide_eq_true_2 (um_col dim ∉ _)) by done.
  rewrite (bool_decide_eq_true_2 (px_col dim ∉ _)) by done.
  done.
Qed.

(** X1: when an axis has neither its micron nor its pixel column, and the axis
    before it (if any) is in a state the resolver accepts (only the pixel
    column, once and numeric, or the micron column and no pixel column),
    the resolver raises [RuntimeError]; the stages after the label file
    then write nothing. *)
Theorem missing_centroids_abort
    (cfg : config) (df : DataFrame) (pixel_size : float64) (fs : files) (dim : string) :
  dim ∈ ["X"; "Y"] →
  um_col dim ∉ Pd.columns df → px_col dim ∉ Pd.columns df →
  (dim = "Y" → px_only df "X" ∨ um_only df "X") →
  convert_pixels_to_micrometre df pixel_size = Err RuntimeError ∧
  feature_stages cfg df fs = (Err RuntimeError, fs).
Proof.
  intros Hdim Hum Hpx HX.
  assert (convert_pixels_to_micrometre df pixel_size = Err RuntimeError) as Hconv.
  { unfold convert_pixels_to_micrometre. rewrite for_each_cons.
    apply elem_of_cons in Hdim as [->|Hdim].
    { by rewrite step_neither_raises. }
    apply list_elem_of_singleton in Hdim as ->.
    destruct (step_accepts df "X" fixed_pixel_size (HX eq_refl))
      as (df1 & -> & _ & Hkeep & _).
    rewrite bind_Ok, for_each_cons, step_neither_raises; [done| |].
    - rewrite (getitem_eq_columns df df1); [done|]. by apply Hkeep.
    - rewrite (getitem_eq_columns df df1); [done|]. by apply Hkeep. }
  split; [done|]. unfold feature_stages.
  change (convert_pixels_to_micrometre df fixed_pixel_size)
    with (convert_pixels_to_micrometre df pixel_size).
  by rewrite Hconv.
Qed.

Lemma missing_centroids_abort_witness :
  "X" ∈ ["X"; "Y"] ∧
  (um_col "X" ∉ Pd.columns no_centroid_example) ∧
  (px_col "X" ∉ Pd.columns no_centroid_example) ∧
  convert_pixels_to_micrometre no_centroid_example (B64.decimal 3906 10000) = Err RuntimeError ∧
  feature_stages example_config no_centroid_example ∅ = (Err RuntimeError, ∅).
Proof.
  assert ("X" ∈ ["X"; "Y"]) as H1 by (by left).
  assert (um_col "X" ∉ Pd.columns no_centroid_example) as H2 by compute_done.
  assert (px_col "X" ∉ Pd.columns no_centroid_example) as H3 by compute_done.
  split; [exact H1|]. split; [exact H2|]. split; [exact H3|].
  apply (missing_centroids_abort example_config no_centroid_example (B64.decimal 3906 10000) ∅ "X"
           H1 H2 H3).
  intros Heq. discriminate Heq.
Defined.

Lemma scripts_step_px_only (df : DataFrame) (dim : string) (px : Series) (k : float64) :
  um_col dim ∉ Pd.columns df →
  occurrences df (px_col dim) = [px] →
  Forall numeric (values px) →
  Scripts.centroid_step k df dim = Ok (px_branch_result df dim px k).
Proof.
  intros Hum Hpx%occurrences_getitem Hnum. unfold Scripts.centroid_step.
  rewrite (getitem_absent df (um_col dim)) by done. simpl.
  rewrite Hpx. simpl. rewrite mul_numeric by done. simpl.
  rewrite setitem_absent by done.
  rewrite drop_present.
  2:{ constructor; [|constructor]. rewrite columns_app, elem_of_app. left.
      by eapply getitem_Ok_columns. }
  f_equal. unfold px_branch_result. rewrite filter_app. f_equal.
  rewrite filter_cons, decide_True; [done|].
  simpl. rewrite list_elem_of_singleton. apply um_px_distinct.
Qed.

Lemma scripts_step_complete (df : DataFrame) (dim : string) (k : float64) :
  complete df (um_col dim) → Scripts.centroid_step k df dim = Ok df.
Proof.
  intros (um & Hum & Hany). unfold Scripts.centroid_step.
  rewrite Hum. simpl. by rewrite Hany.
Qed.

Lemma steps_agree (df : DataFrame) (dim : string) (k : float64) :
  settled df dim →
  ∃ df', centroid_step k (Frame df) dim = Ok (Frame df') ∧
         Scripts.centroid_step k df dim = Ok df' ∧
         others_kept df df' dim ∧
         (∀ l, l ≠ um_col dim → l ≠ px_col dim → occurrences df' l = occurrences df l).
Proof.
  intros [Hpx | (Hum & _ & Hcomplete)].
  - destruct (step_accepts df dim k (or_introl Hpx)) as (df' & Hbin & _ & Hkeep & Hocc & _).
    destruct Hpx as [Hno (px & Hpx & Hnum)].
    rewrite (step_px_only df dim px k) in Hbin by done. injection Hbin as <-.
    exists (px_branch_result df dim px k).
    split; [by apply step_px_only|]. split; [by apply scripts_step_px_only|done].
  - exists df. destruct Hum as [Hum Hpx].
    split; [by apply step_um_only|]. split; [by apply scripts_step_complete|].
    split; by intros l _ _.
Qed.

Lemma settled_kept (df df' : DataFrame) (dim other : string) :
  others_kept df df' other →
  (∀ l, l ≠ um_col other → l ≠ px_col other → occurrences df' l = occurrences df l) →
  um_col dim ≠ um_col other → um_col dim ≠ px_col other →
  px_col dim ≠ um_col other → px_col dim ≠ px_col other →
  settled df dim → settled df' dim.
Proof.
  intros Hkeep Hocc H1 H2 H3 H4.
  pose proof (Hkeep (um_col dim) H1 H2) as Hum.
  pose proof (Hkeep (px_col dim) H3 H4) as Hpx.
  intros [[Hno (px & Hget & Hnum)] | ([Hin Hno] & Hlen & um & Hget & Hany)].
  - left. split; [by rewrite (getitem_eq_columns df df')|].
    exists px. by rewrite (Hocc (px_col dim)).
  - right. split; [split; by rewrite (getitem_eq_columns df df')|].
    split; [by rewrite (Hocc (um_col dim))|].
    exists um. by rewrite Hum.
Qed.

(** X2: the resolver of bin/ and the older one of scripts/ return the same
    table whenever each axis carries either only its pixel column, once and
    numeric, or only its micron column, once and without a missing
    entry. *)
Theorem resolver_versions_agree (df : DataFrame) (pixel_size : float64) :
  settled df "X" → settled df "Y" →
  ∃ df',
    convert_pixels_to_micrometre df pixel_size = Ok (Frame df') ∧
    Scripts.convert_pixels_to_micrometre df pixel_size = Ok df'.
Proof.
  intros HX HY.
  unfold convert_pixels_to_micrometre, Scripts.convert_pixels_to_micrometre.
  rewrite !for_each_cons.
  destruct (steps_agree df "X" fixed_pixel_size HX) as (df1 & -> & -> & Hkeep & Hocc).
  rewrite !bind_Ok, !for_each_cons.
  destruct (steps_agree df1 "Y" fixed_pixel_size) as (df2 & -> & -> & _).
  { by apply (settled_kept df df1 "Y" "X"). }
  rewrite !bind_Ok, !for_each_nil. by exists df2.
Qed.

Lemma resolver_versions_agree_witness :
  settled pixel_example "X" ∧ settled pixel_example "Y" ∧
  ∃ df',
    convert_pixels_to_micrometre pixel_example (B64.decimal 3906 10000) = Ok (Frame df') ∧
    Scripts.convert_pixels_to_micrometre pixel_example (B64.decimal 3906 10000) = Ok df'.
Proof.
  assert (settled pixel_example "X") as HX.
  { left. split; [compute_done|]. eexists. split; [reflexivity|]. repeat constructor. }
  assert (settled pixel_example "Y") as HY.
  { right. split; [split; compute_done|]. split; [reflexivity|].
    eexists. split; reflexivity. }
  split; [exact HX|]. split; [exact HY|].
  exact (resolver_versions_agree pixel_example (B64.decimal 3906 10000) HX HY).
Defined.

Lemma scripts_step_gap (df : DataFrame) (dim : string) (um : Series) (k : float64) :
  Pd.getitem df (um_col dim) = Ok um →
  Pd.any (Pd.isnull <$> values um) = true →
  px_col dim ∉ Pd.columns df →
  Scripts.centroid_step k df dim = Err KeyError.
Proof.
  intros Hum Hany Hpx. unfold Scripts.centroid_step.
  rewrite Hum. simpl. rewrite Hany.
  by rewrite (getitem_absent df (px_col dim)).
Qed.

(** X3: where the two versions part: on a micron-only axis with a missing
    entry the resolver of bin/ leaves the table as it is, while the older
    script looks for the pixel column to fill the gap and raises
    [KeyError]. *)
Theorem resolver_versions_differ_on_gap (df : DataFrame) (pixel_size : float64) (um : Series) :
  Pd.getitem df (um_col "X") = Ok um →
  Pd.any (Pd.isnull <$> values um) = true →
  px_col "X" ∉ Pd.columns df →
  um_only df "Y" →
  convert_pixels_to_micrometre df pixel_size = Ok (Frame df) ∧
  Scripts.convert_pixels_to_micrometre df pixel_size = Err KeyError.
Proof.
  intros Hum Hany Hpx [HumY HpxY]. split.
  - unfold convert_pixels_to_micrometre.
    rewrite for_each_cons, step_um_only, bind_Ok by (by eauto using getitem_Ok_columns).
    by rewrite for_each_cons, step_um_only, bind_Ok.
  - unfold Scripts.convert_pixels_to_micrometre.
    by rewrite for_each_cons, (scripts_step_gap df "X" um).
Qed.

Lemma resolver_versions_differ_on_gap_witness :
  Pd.getitem micron_gap_example (um_col "X") =
    Ok (mkSeries "Centroid X µm" [NA; Num (B64.of_Z 3)]) ∧
  (px_col "X" ∉ Pd.columns micron_gap_example) ∧
  um_only micron_gap_example "Y" ∧
  convert_pixels_to_micrometre micron_gap_example (B64.decimal 3906 10000) =
    Ok (Frame micron_gap_example) ∧
  Scripts.convert_pixels_to_micrometre micron_gap_example (B64.decimal 3906 10000) = Err KeyError.
Proof.
  assert (px_col "X" ∉ Pd.columns micron_gap_example) as Hpx by compute_done.
  assert (um_only micron_gap_example "Y") as HY by (split; compute_done).
  split; [reflexivity|]. split; [exact Hpx|]. split; [exact HY|].
  exact (resolver_versions_differ_on_gap micron_gap_example (B64.decimal 3906 10000)
           (mkSeries "Centroid X µm" [NA; Num (B64.of_Z 3)]) eq_refl eq_refl Hpx HY).
Defined.

(** ** Renaming stages *)

Lemma set_columns_fmap (df : DataFrame) (f : string → string) :
  Pd.set_columns df (f <$> Pd.columns df) = renamed f <$> df.
Proof.
  unfold Pd.set_columns, Pd.columns. induction df as [|s df IH]; [done|].
  rewrite !fmap_cons. simpl. f_equal. exact IH.
Qed.

Lemma columns_renamed (df : DataFrame) (f : string → string) :
  Pd.columns (renamed f <$> df) = f <$> Pd.columns df.
Proof. unfold Pd.columns. by rewrite <- !list_fmap_compose. Qed.

Lemma remove_dots_renamed (df : DataFrame) : remove_dots df = renamed normalise_name <$> df.
Proof.
  unfold remove_dots, index_replace. simpl.
  rewrite <- !list_fmap_compose. apply set_columns_fmap.
Qed.

Lemma replace_absent (old new s : string) :
  Py.contains old s = false → Py.replace old new s = s.
Proof.
  unfold Py.replace. destruct old as [|a old]; [by destruct s|].
  induction s as [|c s IH]; [done|].
  simpl. intros [Hhead Htail]%orb_false_elim.
  rewrite Hhead. f_equal. by apply IH.
Qed.

Lemma contains_part (a x b s : string) :
  Py.contains (a +:+ x +:+ b) s = true → Py.contains x s = true.
Proof.
  rewrite !contains_spec. intros (pre & post & ->).
  exists (pre +:+ a), (b +:+ post). by rewrite !string_app_assoc.
Qed.

Lemma not_contains_part (a x b s : string) :
  Py.contains x s = false → Py.contains (a +:+ x +:+ b) s = false.
Proof.
  intros Hx. destruct (Py.contains (a +:+ x +:+ b) s) eqn:E; [|done].
  apply contains_part in E. congruence.
Qed.

Lemma contains_cons (sub : string) (c : ascii) (s : string) :
  Py.contains sub (String c s) = Py.startswith sub (String c s) || Py.contains sub s.
Proof. done. Qed.

Lemma startswith_char (a c : ascii) (s : string) :
  Py.startswith (String a "") (String c s) = Ascii.eqb a c.
Proof. cbn [Py.startswith]. by destruct (Ascii.eqb a c). Qed.

Lemma sub_lone_dots_cons (prev : option ascii) (c : ascii) (s : string) :
  Py.sub_lone_dots prev (String c s) =
  String (if Py.is_dot c && negb (from_option Py.isdigit false prev)
             && negb (Py.head_isdigit s) then " "%char else c)
         (Py.sub_lone_dots (Some c) s).
Proof. done. Qed.

Lemma sub_lone_dots_dotless (prev : option ascii) (s : string) :
  Py.contains "." s = false → Py.sub_lone_dots prev s = s.
Proof.
  revert prev. induction s as [|c s IH]; intros prev; [done|].
  rewrite contains_cons, (startswith_char "." c), sub_lone_dots_cons.
  intros [Hhead Htail]%orb_false_elim.
  unfold Py.is_dot. rewrite Ascii.eqb_sym, Hhead. cbn [andb]. f_equal. by apply IH.
Qed.

Lemma normalise_name_dotless (col : string) :
  Py.contains "." col = false →
  Py.contains "Âµm" col = false →
  Py.contains "STD_DEV_PLACEHOLDER" col = false →
  normalise_name col = col.
Proof.
  intros Hdot Hmu Hmask. unfold normalise_name, specific_matches. cbn [foldl].
  rewrite (replace_absent "Âµm") by done.
  rewrite (replace_absent "µm.2") by exact (not_contains_part "µm" "." "2" col Hdot).
  rewrite (replace_absent "MHC.I..") by exact (not_contains_part "MHC" "." "I.." col Hdot).
  rewrite (replace_absent "MHC.II..") by exact (not_contains_part "MHC" "." "II.." col Hdot).
  rewrite (replace_absent "MHC_I_.") by exact (not_contains_part "MHC_I_" "." "" col Hdot).
  rewrite (replace_absent "MHC_II_.") by exact (not_contains_part "MHC_II_" "." "" col Hdot).
  rewrite (replace_absent "Target.") by exact (not_contains_part "Target" "." "" col Hdot).
  rewrite (replace_absent "Beta.Tubulin")
    by exact (not_contains_part "Beta" "." "Tubulin" col Hdot).
  rewrite (replace_absent "IFN.y") by exact (not_contains_part "IFN" "." "y" col Hdot).
  rewrite (replace_absent "HLA.DR") by exact (not_contains_part "HLA" "." "DR" col Hdot).
  rewrite (replace_absent "...") by exact (not_contains_part "" "." ".." col Hdot).
  rewrite (replace_absent "..") by exact (not_contains_part "" "." "." col Hdot).
  rewrite (replace_absent "Std.Dev.") by exact (not_contains_part "Std" "." "Dev." col Hdot).
  rewrite sub_lone_dots_dotless by done.
  by rewrite (replace_absent "STD_DEV_PLACEHOLDER").
Qed.

(** X4: [remove_dots] only renames: the table keeps its columns, their order
    and their data; the new name of a column whose characters lie below
    U+0640 (so that 0 to 9 are its only decimal digits) is given by the
    replacements of [normalise_name] on its old name alone; and a name
    that holds no period, no mis-decoded micron sign and not the
    placeholder of the normalizer is left as it is. *)
Theorem remove_dots_renames_only (df : DataFrame) :
  length (remove_dots df) = length df ∧
  values <$> remove_dots df = values <$> df ∧
  (∀ i s, df !! i = Some s → plain_digits (name s) →
     remove_dots df !! i = Some (renamed normalise_name s)) ∧
  (∀ i s, df !! i = Some s →
     Py.contains "." (name s) = false →
     Py.contains "Âµm" (name s) = false →
     Py.contains "STD_DEV_PLACEHOLDER" (name s) = false →
     remove_dots df !! i = Some s).
Proof.
  rewrite remove_dots_renamed. split; [by rewrite length_fmap|]. split.
  { rewrite <- list_fmap_compose. by apply list_fmap_ext. }
  split.
  { intros i s Hs _. by rewrite list_lookup_fmap, Hs. }
  intros i s Hs Hdot Hmu Hmask. rewrite list_lookup_fmap, Hs. simpl.
  unfold renamed. rewrite normalise_name_dotless by done. by destruct s.
Qed.

Lemma replace_underscore_cons (c : ascii) (s : string) :
  Py.replace "_" " " (String c s) =
  String (if Ascii.eqb "_" c then " "%char else c) (Py.replace "_" " " s).
Proof.
  unfold Py.replace. cbn [Py.replace_from]. rewrite bool_decide_eq_false_2 by done.
  rewrite (startswith_char "_" c). by destruct (Ascii.eqb "_" c).
Qed.

Lemma replace_underscore_clean (s : string) :
  Py.contains "_" (Py.replace "_" " " s) = false.
Proof.
  induction s as [|c s IH]; [done|].
  rewrite replace_underscore_cons, contains_cons, startswith_char, IH, orb_false_r.
  destruct (Ascii.eqb_spec "_" c) as [<-|Hne]; [done|].
  by apply Ascii.eqb_neq.
Qed.

(** X5: [remove_prefixes_underscores] only renames as well: columns, order and
    data stay, each name has its "Target:" occurrences removed and its
    underscores turned into spaces, and no underscore is left in any
    column name. *)
Theorem remove_prefixes_underscores_renames_only (df : DataFrame) :
  remove_prefixes_underscores df =
    renamed (λ col, Py.replace "_" " " (Py.replace "Target:" "" col)) <$> df ∧
  values <$> remove_prefixes_underscores df = values <$> df ∧
  (∀ col, col ∈ Pd.columns (remove_prefixes_underscores df) →
          Py.contains "_" col = false).
Proof.
  assert (remove_prefixes_underscores df =
          renamed (λ col, Py.replace "_" " " (Py.replace "Target:" "" col)) <$> df) as ->.
  { unfold remove_prefixes_underscores, index_replace.
    rewrite !set_columns_fmap, <- list_fmap_compose. by apply list_fmap_ext. }
  split; [done|]. split.
  - rewrite <- list_fmap_compose. by apply list_fmap_ext.
  - rewrite columns_renamed. intros col (c & -> & _)%list_elem_of_fmap.
    apply replace_underscore_clean.
Qed.

(** ** Compartment and statistic filters *)

Lemma filter_ext_in {A} (P Q : A → Prop) `{∀ x, Decision (P x)} `{∀ x, Decision (Q x)}
    (l : list A) :
  (∀ x, x ∈ l → P x ↔ Q x) → filter P l = filter Q l.
Proof.
  induction l as [|x l IH]; intros Hext; [done|].
  rewrite !filter_cons.
  assert (P x ↔ Q x) as Hx by (apply Hext; left).
  rewrite IH by (intros y Hy; apply Hext; by right).
  destruct (decide (P x)), (decide (Q x)); tauto.
Qed.

Lemma drop_mentioned (df : DataFrame) (tokens : list string) :
  Pd.drop df (filter (λ col, existsb (λ t, Py.contains t col) tokens) (Pd.columns df)) =
  Ok (filter (λ s, mentions tokens (name s) = false) df).
Proof.
  rewrite drop_present.
  2:{ apply Forall_forall. by intros l [_ ?]%list_elem_of_filter. }
  f_equal. apply filter_ext_in. intros s Hs.
  rewrite list_elem_of_filter. unfold mentions.
  destruct (existsb (λ t, Py.contains t (name s)) tokens); simpl.
  - split; [|done]. intros Hn. exfalso. apply Hn. split; [done|].
    by apply list_elem_of_fmap_2.
  - split; [done|]. by intros _ [? _].
Qed.

Lemma mentions_app (t1 t2 : list string) (col : string) :
  mentions (t1 ++ t2) col = mentions t1 col || mentions t2 col.
Proof. apply existsb_app. Qed.

Lemma mentions_empty_token (tokens : list string) (col : string) :
  "" ∈ tokens → mentions tokens col = true.
Proof.
  intros Hin. apply existsb_exists. exists "". split; [by apply list_elem_of_In|].
  by destruct col.
Qed.

(** X6: the two filters never raise and drop exactly the columns whose name
    contains one of the tokens, leaving the other columns as they are and
    in their order; applied one after the other, in either order, they
    drop what mentions a token of either list.  An empty string among the
    tokens occurs in every name, so the table comes back without columns. *)
Theorem filters_drop_by_substring
    (df : DataFrame) (unwanted_compartments unwanted_stats : list string) :
  remove_unwanted_compartments df unwanted_compartments =
    Ok (filter (λ s, mentions unwanted_compartments (name s) = false) df) ∧
  remove_statistics df unwanted_stats =
    Ok (filter (λ s, mentions unwanted_stats (name s) = false) df) ∧
  (remove_unwanted_compartments df unwanted_compartments
     ≫= λ d, remove_statistics d unwanted_stats) =
    Ok (filter (λ s, mentions (unwanted_compartments ++ unwanted_stats) (name s) = false)
           df) ∧
  (remove_statistics df unwanted_stats
     ≫= λ d, remove_unwanted_compartments d unwanted_compartments) =
    (remove_unwanted_compartments df unwanted_compartments
     ≫= λ d, remove_statistics d unwanted_stats) ∧
  ("" ∈ unwanted_compartments → remove_unwanted_compartments df unwanted_compartments = Ok []) ∧
  ("" ∈ unwanted_stats → remove_statistics df unwanted_stats = Ok []).
Proof.
  assert (∀ d t, remove_unwanted_compartments d t =
                 Ok (filter (λ s, mentions t (name s) = false) d)) as Hc
    by (intros; apply drop_mentioned).
  assert (∀ d t, remove_statistics d t =
                 Ok (filter (λ s, mentions t (name s) = false) d)) as Hs
    by (intros; apply drop_mentioned).
  assert (∀ t, "" ∈ t → filter (λ s, mentions t (name s) = false) df = []) as Hempty.
  { intros t Ht. apply filter_none. intros s _. by rewrite mentions_empty_token. }
  split; [done|]. split; [done|]. split; [|split; [|split]].
  - rewrite Hc, bind_Ok, Hs, list_filter_filter. f_equal.
    apply list_filter_iff. intros s. rewrite mentions_app, orb_false_iff. tauto.
  - rewrite Hc, Hs, !bind_Ok, Hc, Hs, !list_filter_filter. f_equal.
    apply list_filter_iff. tauto.
  - intros Hin. by rewrite Hc, Hempty.
  - intros Hin. by rewrite Hs, Hempty.
Qed.

(** ** Labels after the duplicate column merger *)

Lemma count_label_NoDup (g : string) (labels : list string) :
  NoDup labels → count_label g labels ≤ 1.
Proof.
  induction 1 as [|l labels Hl _ IH]; [unfold count_label; simpl; lia|].
  rewrite count_label_cons. destruct (decide (l = g)) as [->|]; [|lia].
  destruct (decide (0 < count_label g labels)) as [Hpos|]; [|lia].
  by apply count_label_pos in Hpos.
Qed.

Lemma NoDup_count_label (labels : list string) :
  (∀ g, count_label g labels ≤ 1) → NoDup labels.
Proof.
  induction labels as [|l labels IH]; intros Hc; [constructor|].
  constructor.
  - intros Hin%count_label_pos. specialize (Hc l).
    rewrite count_label_cons, decide_True in Hc by done. lia.
  - apply IH. intros g. specialize (Hc g). rewrite count_label_cons in Hc. lia.
Qed.

Lemma unique_labels_not_repeated (df : DataFrame) (g : string) :
  NoDup (Pd.columns df) → ¬ repeated df g.
Proof.
  intros Hnd. unfold repeated. rewrite <- count_label_columns.
  pose proof (count_label_NoDup g _ Hnd). lia.
Qed.

Lemma filter_all {A} (P : A → Prop) `{∀ x, Decision (P x)} (l : list A) :
  (∀ x, x ∈ l → P x) → filter P l = l.
Proof.
  induction l as [|x l IH]; intros Hl; [done|].
  rewrite filter_cons, decide_True by (apply Hl; left).
  f_equal. apply IH. intros y Hy. apply Hl. by right.
Qed.

Lemma remove_duplicate_columns_unique (df : DataFrame) :
  NoDup (Pd.columns df) → remove_duplicate_columns df = Ok df.
Proof.
  intros Hnd. unfold remove_duplicate_columns. fold (duplicated_cols df).
  assert (duplicated_cols df = []) as ->.
  { destruct (duplicated_cols df) as [|g gs] eqn:E; [done|].
    assert (g ∈ duplicated_cols df) as Hg by (rewrite E; left).
    apply elem_of_duplicated_cols in Hg. by apply unique_labels_not_repeated in Hg. }
  cbn [Pd.select]. rewrite bind_Ok.
  change (Pd.groupby_columns_mean []) with (Ok [] : result DataFrame).
  rewrite bind_Ok, drop_present by constructor. rewrite bind_Ok.
  rewrite filter_all by (intros; apply not_elem_of_nil).
  unfold Pd.join. rewrite bool_decide_eq_true_2 by constructor.
  by rewrite app_nil_r.
Qed.

(** X7: a table whose labels are all different passes
    [remove_duplicate_columns] unchanged, whatever its cells hold. *)
Theorem unique_labels_pass_the_merger (df : DataFrame) :
  NoDup (Pd.columns df) → remove_duplicate_columns df = Ok df.
Proof. apply remove_duplicate_columns_unique. Qed.

Lemma unique_labels_pass_the_merger_witness :
  NoDup (Pd.columns unique_labels_example) ∧
  remove_duplicate_columns unique_labels_example = Ok unique_labels_example.
Proof.
  assert (NoDup (Pd.columns unique_labels_example)) as Hnd by compute_done.
  split; [exact Hnd|]. exact (unique_labels_pass_the_merger _ Hnd).
Defined.

Lemma columns_merged (df : DataFrame) (n : nat) (labels : list string) :
  Pd.columns (merged_column df n <$> labels) = labels.
Proof.
  unfold Pd.columns. rewrite <- list_fmap_compose.
  induction labels as [|l labels IH]; [done|]. rewrite fmap_cons. by f_equal.
Qed.

Lemma count_label_filter (g : string) (P : string → Prop) `{∀ x, Decision (P x)}
    (labels : list string) :
  count_label g (filter P labels) = if decide (P g) then count_label g labels else 0.
Proof.
  induction labels as [|l labels IH]; [by destruct (decide (P g))|].
  rewrite filter_cons. destruct (decide (P l)) as [Hl|Hl].
  - rewrite !count_label_cons, IH.
    destruct (decide (P g)), (decide (l = g)); subst; done.
  - rewrite count_label_cons, IH. destruct (decide (P g)); [|done].
    rewrite decide_False; [done|]. by intros ->.
Qed.

(** X8: on a table whose colliding columns are numeric, the table that
    [remove_duplicate_columns] returns has every label of the input exactly
    once. *)
Theorem merger_leaves_each_label_once (df : DataFrame) (n : nat) :
  mergeable df n →
  ∃ df', remove_duplicate_columns df = Ok df' ∧
         NoDup (Pd.columns df') ∧
         (∀ g, g ∈ Pd.columns df' ↔ g ∈ Pd.columns df) ∧
         (∀ g, g ∈ Pd.columns df → length (occurrences df' g) = 1).
Proof.
  intros Hm. eexists. split; [by apply remove_duplicate_columns_result|].
  assert (∀ g, count_label g
                 (Pd.columns (filter (λ s, name s ∉ duplicated_cols df) df ++
                              (merged_column df n <$> merged_labels df))) =
               if decide (g ∈ Pd.columns df) then 1 else 0) as Hcount.
  { intros g. rewrite columns_app, columns_merged, columns_without.
    unfold count_label at 1. rewrite filter_app, length_app.
    fold (count_label g (filter (λ l, l ∉ duplicated_cols df) (Pd.columns df))).
    fold (count_label g (merged_labels df)).
    rewrite count_label_filter, count_label_columns.
    pose proof (count_label_NoDup g _ (NoDup_merged_labels df)) as Hle.
    pose proof (count_label_pos g (merged_labels df)) as Hpos.
    rewrite elem_of_merged_labels in Hpos.
    pose proof (count_label_pos g (Pd.columns df)) as Hin.
    rewrite count_label_columns in Hin.
    destruct (decide (g ∉ duplicated_cols df)) as [Hd|Hd].
    - rewrite elem_of_duplicated_cols in Hd. unfold repeated in *.
      destruct (decide (g ∈ Pd.columns df)) as [Hc|Hc].
      + apply Hin in Hc. lia.
      + assert (¬ 0 < length (occurrences df g)) by (by intros ?%Hin). lia.
    - apply dec_stable in Hd. apply elem_of_duplicated_cols in Hd.
      pose proof Hd as Hrep. unfold repeated in Hd.
      rewrite decide_True by (apply Hin; lia). apply Hpos in Hrep. lia. }
  split; [|split].
  - apply NoDup_count_label. intros g. rewrite Hcount. destruct (decide _); lia.
  - intros g. rewrite <- count_label_pos, Hcount.
    destruct (decide _) as [Hc|Hc]; split; intros ?; try done; lia.
  - intros g Hg. rewrite <- count_label_columns, Hcount. by rewrite decide_True.
Qed.

Lemma merger_leaves_each_label_once_witness :
  mergeable repeated_label_example 2 ∧
  ∃ df', remove_duplicate_columns repeated_label_example = Ok df' ∧
         NoDup (Pd.columns df') ∧
         (∀ g, g ∈ Pd.columns df' ↔ g ∈ Pd.columns repeated_label_example) ∧
         (∀ g, g ∈ Pd.columns repeated_label_example → length (occurrences df' g) = 1).
Proof.
  assert (mergeable repeated_label_example 2) as Hm.
  { split.
    - intros s Hs. repeat (apply elem_of_cons in Hs as [->|Hs]; [done|]).
      by apply elem_of_nil in Hs.
    - intros s Hs Hrep.
      repeat (apply elem_of_cons in Hs as [->|Hs];
              [first [ by repeat constructor
                     | exfalso; revert Hrep; unfold repeated; vm_compute; lia ]|]).
      by apply elem_of_nil in Hs. }
  split; [exact Hm|]. exact (merger_leaves_each_label_once _ _ Hm).
Defined.

(** ** Imputers *)

Lemma take_where_nil {A} (mask : list bool) : Pd.take_where mask ([] : list A) = [].
Proof. by destruct mask as [|[] mask]. Qed.

Lemma length_put_where (mask : list bool) (old new : list cell) :
  length (Pd.put_where mask old new) = length old.
Proof.
  revert old new. induction mask as [|b mask IH]; intros old new; [done|].
  destruct old as [|x old]; [by destruct b|].
  destruct b; simpl; [destruct new as [|n new]; simpl|]; by rewrite ?IH.
Qed.

(** Row by row, writing the substitute's entries at the missing rows is
    [imputed]. *)
Lemma put_take_lookup (vs ms : list cell) (r : nat) (v w : cell) :
  vs !! r = Some v → ms !! r = Some w →
  Pd.put_where (Pd.isnull <$> vs) vs (Pd.take_where (Pd.isnull <$> vs) ms) !! r =
  Some (imputed v w).
Proof.
  revert ms r. induction vs as [|x vs IH]; intros ms r Hv Hw; [done|].
  destruct ms as [|m ms]; [done|].
  rewrite fmap_cons. destruct r as [|r]; simpl in Hv, Hw.
  - injection Hv as ->. injection Hw as ->. unfold imputed. by destruct v.
  - destruct (Pd.isnull x); simpl; by apply IH.
Qed.

Lemma complete_lookup (vs : list cell) (r : nat) :
  Pd.any (Pd.isnull <$> vs) = false → vs !! r ≠ Some NA.
Proof.
  revert r. induction vs as [|x vs IH]; intros r; [done|].
  rewrite fmap_cons. unfold Pd.any. simpl. intros [Hx Hrest]%orb_false_elim.
  destruct r as [|r]; simpl.
  - intros [= ->]. done.
  - by apply IH.
Qed.

Lemma for_each_app {S A} (body : S → A → result S) (s : S) (xs ys : list A) :
  for_each body s (xs ++ ys) = for_each body s xs ≫= λ s', for_each body s' ys.
Proof.
  revert s. induction xs as [|x xs IH]; intros s; [done|].
  rewrite <- app_comm_cons, !for_each_cons.
  destruct (body s x) as [s1|e]; [|done]. rewrite !bind_Ok. apply IH.
Qed.

Section imputer.
Variables (token substitute : string) (step : DataFrame → string → result DataFrame).
Hypothesis step_eq : ∀ df col,
  step df col =
  (s ← Pd.getitem df col;
   let null_arr := Pd.isnull <$> values s in
   if Pd.any null_arr then
     if Py.contains token col then
       let new_col := Py.replace_count token substitute 1 col in
       n ← Pd.getitem df new_col;
       Ok (Pd.setitem df col
             (Pd.put_where null_arr (values s) (Pd.take_where null_arr (values n))))
     else Ok df
   else Ok df).
Implicit Types (df cur : DataFrame) (col l : string) (s m : Series) (todo : list string).

Lemma step_untouched df col s :
  Pd.getitem df col = Ok s →
  Pd.any (Pd.isnull <$> values s) = false ∨ Py.contains token col = false →
  step df col = Ok df.
Proof.
  intros Hs Hor. rewrite step_eq, Hs, bind_Ok. cbv zeta.
  destruct (Pd.any _); [|done]. destruct (Py.contains _ _); [|done].
  by destruct Hor.
Qed.

Lemma step_fills df col s m :
  Pd.getitem df col = Ok s →
  Pd.any (Pd.isnull <$> values s) = true →
  Py.contains token col = true →
  Pd.getitem df (Py.replace_count token substitute 1 col) = Ok m →
  step df col =
  Ok (Pd.setitem df col
        (Pd.put_where (Pd.isnull <$> values s) (values s)
           (Pd.take_where (Pd.isnull <$> values s) (values m)))).
Proof.
  intros Hs Hnull Htok Hm. rewrite step_eq, Hs, bind_Ok. cbv zeta.
  by rewrite Hnull, Htok, Hm.
Qed.

Lemma step_raises df col s :
  Pd.getitem df col = Ok s →
  Pd.any (Pd.isnull <$> values s) = true →
  Py.contains token col = true →
  Py.replace_count token substitute 1 col ∉ Pd.columns df →
  step df col = Err KeyError.
Proof.
  intros Hs Hnull Htok Hm. rewrite step_eq, Hs, bind_Ok. cbv zeta.
  by rewrite Hnull, Htok, getitem_absent.
Qed.

Lemma step_cases df col :
  step df col = Err KeyError ∨
  step df col = Ok df ∨
  ∃ s m, Pd.getitem df col = Ok s ∧ Pd.any (Pd.isnull <$> values s) = true ∧
         Py.contains token col = true ∧
         Pd.getitem df (Py.replace_count token substitute 1 col) = Ok m ∧
         step df col =
         Ok (Pd.setitem df col
               (Pd.put_where (Pd.isnull <$> values s) (values s)
                  (Pd.take_where (Pd.isnull <$> values s) (values m)))).
Proof.
  destruct (Pd.getitem df col) as [s|e] eqn:Hs.
  2:{ left. rewrite step_eq, Hs. by apply getitem_Err_inv in Hs as [-> _]. }
  destruct (Pd.any (Pd.isnull <$> values s)) eqn:Hnull.
  2:{ right; left. eapply step_untouched; eauto. }
  destruct (Py.contains token col) eqn:Htok.
  2:{ right; left. eapply step_untouched; eauto. }
  destruct (Pd.getitem df (Py.replace_count token substitute 1 col)) as [m|e] eqn:Hm.
  - right; right. exists s, m. repeat (split; [done|]). by apply step_fills.
  - left. apply getitem_Err_inv in Hm as [_ Hm]. by eapply step_raises.
Qed.

Lemma step_frame df df' col :
  step df col = Ok df' →
  Pd.columns df' = Pd.columns df ∧
  ∀ l, l ≠ col ∨ Py.contains token l = false → Pd.getitem df' l = Pd.getitem df l.
Proof.
  intros Hstep. destruct (step_cases df col) as [He|[Hid|(s & m & Hs & _ & Htok & _ & Hfill)]].
  - congruence.
  - rewrite Hid in Hstep. by injection Hstep as <-.
  - rewrite Hfill in Hstep. injection Hstep as <-.
    pose proof (getitem_Ok_columns _ _ _ Hs) as Hin. split.
    + by apply columns_setitem_present.
    + intros l Hl. rewrite getitem_setitem_present by done.
      rewrite bool_decide_eq_false_2; [done|]. intros ->. destruct Hl; congruence.
Qed.

Lemma run_frame todo cur df' :
  for_each step cur todo = Ok df' →
  Pd.columns df' = Pd.columns cur ∧
  ∀ l, l ∉ todo ∨ Py.contains token l = false → Pd.getitem df' l = Pd.getitem cur l.
Proof.
  revert cur. induction todo as [|col todo IH]; intros cur.
  - rewrite for_each_nil. by intros [= <-].
  - rewrite for_each_cons. destruct (step cur col) as [cur1|e] eqn:Hstep; [|done].
    rewrite bind_Ok. intros [Hcols Hget]%IH.
    apply step_frame in Hstep as [Hcols1 Hget1]. split; [congruence|].
    intros l Hl. rewrite Hget, Hget1; [done|..].
    + destruct Hl as [Hl|Hl]; [|by right]. left. by apply not_elem_of_cons in Hl as [? _].
    + destruct Hl as [Hl|Hl]; [|by right]. left. by apply not_elem_of_cons in Hl as [_ ?].
Qed.

Lemma run_raises_KeyError todo cur e :
  for_each step cur todo = Err e → e = KeyError.
Proof.
  revert cur. induction todo as [|col todo IH]; intros cur; [done|].
  rewrite for_each_cons.
  destruct (step_cases cur col) as [He|[Hid|(s & m & _ & _ & _ & _ & Hfill)]].
  - rewrite He. by intros [= <-].
  - rewrite Hid, bind_Ok. apply IH.
  - rewrite Hfill, bind_Ok. apply IH.
Qed.

Lemma run_complete df todo :
  (∀ s, s ∈ df → Py.contains token (name s) = true →
        Pd.any (Pd.isnull <$> values s) = false) →
  Forall (λ l, l ∈ Pd.columns df) todo →
  for_each step df todo = Ok df.
Proof.
  intros Hcomplete. induction 1 as [|col todo Hcol _ IH]; [done|].
  rewrite for_each_cons. destruct (getitem_is_Ok df col Hcol) as [s Hs].
  rewrite (step_untouched df col s Hs), bind_Ok; [done|].
  pose proof (getitem_Ok_inv _ _ _ Hs) as [Hin <-].
  destruct (Py.contains token (name s)) eqn:Htok; [left; by apply Hcomplete|by right].
Qed.

Lemma run_without_substitute df col s :
  Pd.getitem df col = Ok s →
  Pd.any (Pd.isnull <$> values s) = true →
  Py.contains token col = true →
  Py.replace_count token substitute 1 col ∉ Pd.columns df →
  for_each step df (Pd.columns df) = Err KeyError.
Proof.
  intros Hs Hnull Htok Habsent.
  pose proof (getitem_Ok_columns _ _ _ Hs) as Hin.
  apply list_elem_of_split_l in Hin as (l1 & l2 & -> & Hl1).
  rewrite for_each_app. destruct (for_each step df l1) as [cur|e] eqn:Hrun.
  - rewrite bind_Ok, for_each_cons. apply run_frame in Hrun as [Hcols Hget].
    rewrite (step_raises cur col s); [done| |done..|by rewrite Hcols].
    rewrite Hget by (by left). done.
  - by apply run_raises_KeyError in Hrun as ->.
Qed.

Lemma run_fills df df' col s m :
  NoDup (Pd.columns df) →
  for_each step df (Pd.columns df) = Ok df' →
  Pd.getitem df col = Ok s →
  Py.contains token col = true →
  Py.contains token (Py.replace_count token substitute 1 col) = false →
  Pd.getitem df (Py.replace_count token substitute 1 col) = Ok m →
  ∃ s', Pd.getitem df' col = Ok s' ∧
        length (values s') = length (values s) ∧
        ∀ r v w, values s !! r = Some v → values m !! r = Some w →
                 values s' !! r = Some (imputed v w).
Proof.
  intros Hnd Hrun Hs Htok Hfree Hm.
  pose proof (getitem_Ok_columns _ _ _ Hs) as Hin.
  apply list_elem_of_split_l in Hin as (l1 & l2 & Hsplit & Hl1).
  rewrite Hsplit in Hnd, Hrun.
  apply NoDup_app in Hnd as (_ & _ & [Hl2 _]%NoDup_cons).
  rewrite for_each_app in Hrun.
  destruct (for_each step df l1) as [cur|e] eqn:Hrun1; [|done].
  rewrite bind_Ok, for_each_cons in Hrun.
  apply run_frame in Hrun1 as [Hcols1 Hget1].
  assert (Pd.getitem cur col = Ok s) as Hs1 by (rewrite Hget1; [done|by left]).
  assert (Pd.getitem cur (Py.replace_count token substitute 1 col) = Ok m) as Hm1
    by (rewrite Hget1; [done|by right]).
  destruct (Pd.any (Pd.isnull <$> values s)) eqn:Hnull.
  - rewrite (step_fills cur col s m), bind_Ok in Hrun by done.
    apply run_frame in Hrun as [_ Hget2].
    eexists. split.
    { rewrite Hget2 by (by left).
      rewrite getitem_setitem_present by (by eapply getitem_Ok_columns).
      by rewrite bool_decide_eq_true_2. }
    simpl. split; [apply length_put_where|].
    intros r v w Hv Hw. by apply put_take_lookup.
  - rewrite (step_untouched cur col s), bind_Ok in Hrun by (done || by left).
    apply run_frame in Hrun as [_ Hget2].
    exists s. split; [rewrite Hget2; [done|by left]|]. split; [done|].
    intros r v w Hv Hw. unfold imputed. destruct v; try done.
    by apply complete_lookup with (r := r) in Hnull.
Qed.

End imputer.

(** X9: on a table of unique labels that [replace_cytoplasm_with_membrane]
    accepts, a cytoplasm measurement keeps its length and, row by row, its
    entry where it has one and takes the entry of the membrane measurement
    of the same row where it is missing (which may be missing too).  The
    labels of the table and every column whose name does not mention
    "Cytoplasm" stay as they are. *)
Theorem cytoplasm_gaps_take_membrane_values
    (df df' : DataFrame) (col : string) (s m : Series) :
  NoDup (Pd.columns df) →
  replace_cytoplasm_with_membrane df = Ok df' →
  Py.contains "Cytoplasm" col = true →
  Py.contains "Cytoplasm" (Py.replace_count "Cytoplasm" "Membrane" 1 col) = false →
  Pd.getitem df col = Ok s →
  Pd.getitem df (Py.replace_count "Cytoplasm" "Membrane" 1 col) = Ok m →
  Pd.columns df' = Pd.columns df ∧
  (∀ l, Py.contains "Cytoplasm" l = false → Pd.getitem df' l = Pd.getitem df l) ∧
  ∃ s', Pd.getitem df' col = Ok s' ∧
        length (values s') = length (values s) ∧
        ∀ r v w, values s !! r = Some v → values m !! r = Some w →
                 values s' !! r = Some (imputed v w).
Proof.
  intros Hnd Hrun Htok Hfree Hs Hm.
  pose proof (run_frame "Cytoplasm" "Membrane" cytoplasm_step (λ _ _, eq_refl)
                _ _ _ Hrun) as [Hcols Hget].
  split; [done|]. split; [intros l Hl; apply Hget; by right|].
  exact (run_fills "Cytoplasm" "Membrane" cytoplasm_step (λ _ _, eq_refl)
           df df' col s m Hnd Hrun Hs Htok Hfree Hm).
Qed.

Lemma cytoplasm_gaps_take_membrane_values_witness :
  Pd.columns compartments_after_membrane_example = Pd.columns compartments_example ∧
  (∀ l, Py.contains "Cytoplasm" l = false →
        Pd.getitem compartments_after_membrane_example l =
        Pd.getitem compartments_example l) ∧
  ∃ s', Pd.getitem compartments_after_membrane_example "CD3: Cytoplasm: Mean" = Ok s' ∧
        length (values s') = 3 ∧
        ∀ r v w, [NA; Num (B64.of_Z 2); NA] !! r = Some v →
                 [Num (B64.of_Z 5); Num (B64.of_Z 6); NA] !! r = Some w →
                 values s' !! r = Some (imputed v w).
Proof.
  apply (cytoplasm_gaps_take_membrane_values compartments_example
           compartments_after_membrane_example "CD3: Cytoplasm: Mean"
           (mkSeries "CD3: Cytoplasm: Mean" [NA; Num (B64.of_Z 2); NA])
           (mkSeries "CD3: Membrane: Mean" [Num (B64.of_Z 5); Num (B64.of_Z 6); NA]));
    compute_done.
Defined.

(** X10: the same for [use_cell_measurement]: where a nucleus measurement is
    missing it takes the entry of the cell measurement of the same row, and
    columns whose name does not mention "Nucleus" stay as they are. *)
Theorem nucleus_gaps_take_cell_values
    (df df' : DataFrame) (col : string) (s m : Series) :
  NoDup (Pd.columns df) →
  use_cell_measurement df = Ok df' →
  Py.contains "Nucleus" col = true →
  Py.contains "Nucleus" (Py.replace_count "Nucleus" "Cell" 1 col) = false →
  Pd.getitem df col = Ok s →
  Pd.getitem df (Py.replace_count "Nucleus" "Cell" 1 col) = Ok m →
  Pd.columns df' = Pd.columns df ∧
  (∀ l, Py.contains "Nucleus" l = false → Pd.getitem df' l = Pd.getitem df l) ∧
  ∃ s', Pd.getitem df' col = Ok s' ∧
        length (values s') = length (values s) ∧
        ∀ r v w, values s !! r = Some v → values m !! r = Some w →
                 values s' !! r = Some (imputed v w).
Proof.
  intros Hnd Hrun Htok Hfree Hs Hm.
  pose proof (run_frame "Nucleus" "Cell" nucleus_step (λ _ _, eq_refl)
                _ _ _ Hrun) as [Hcols Hget].
  split; [done|]. split; [intros l Hl; apply Hget; by right|].
  exact (run_fills "Nucleus" "Cell" nucleus_step (λ _ _, eq_refl)
           df df' col s m Hnd Hrun Hs Htok Hfree Hm).
Qed.

Lemma nucleus_gaps_take_cell_values_witness :
  Pd.columns compartments_after_cell_example = Pd.columns compartments_example ∧
  (∀ l, Py.contains "Nucleus" l = false →
        Pd.getitem compartments_after_cell_example l =
        Pd.getitem compartments_example l) ∧
  ∃ s', Pd.getitem compartments_after_cell_example "CD3: Nucleus: Mean" = Ok s' ∧
        length (values s') = 3 ∧
        ∀ r v w, [Num (B64.of_Z 1); NA; NA] !! r = Some v →
                 [Num (B64.of_Z 7); Num (B64.of_Z 8); Num (B64.of_Z 9)] !! r = Some w →
                 values s' !! r = Some (imputed v w).
Proof.
  apply (nucleus_gaps_take_cell_values compartments_example
           compartments_after_cell_example "CD3: Nucleus: Mean"
           (mkSeries "CD3: Nucleus: Mean" [Num (B64.of_Z 1); NA; NA])
           (mkSeries "CD3: Cell: Mean" [Num (B64.of_Z 7); Num (B64.of_Z 8); Num (B64.of_Z 9)]));
    compute_done.
Defined.

(** X11: a measurement with a gap whose name mentions the compartment, in a
    table that has no column under the substitute's name, makes the imputer
    raise KeyError: [replace_cytoplasm_with_membrane] for a cytoplasm
    measurement without its membrane measurement. *)
Theorem cytoplasm_gap_without_membrane_raises (df : DataFrame) (col : string) (s : Series) :
  Pd.getitem df col = Ok s →
  Pd.any (Pd.isnull <$> values s) = true →
  Py.contains "Cytoplasm" col = true →
  Py.replace_count "Cytoplasm" "Membrane" 1 col ∉ Pd.columns df →
  replace_cytoplasm_with_membrane df = Err KeyError.
Proof.
  exact (run_without_substitute "Cytoplasm" "Membrane" cytoplasm_step (λ _ _, eq_refl)
           df col s).
Qed.

Lemma cytoplasm_gap_without_membrane_raises_witness :
  replace_cytoplasm_with_membrane lone_compartment_example = Err KeyError.
Proof.
  apply (cytoplasm_gap_without_membrane_raises lone_compartment_example
           "CD3: Cytoplasm: Mean" (mkSeries "CD3: Cytoplasm: Mean" [NA; Num (B64.of_Z 2)]));
    compute_done.
Defined.

(** X12: [use_cell_measurement] raises KeyError for a nucleus measurement with a
    gap when the table has no column under the name with "Nucleus" replaced
    by "Cell". *)
Theorem nucleus_gap_without_cell_raises (df : DataFrame) (col : string) (s : Series) :
  Pd.getitem df col = Ok s →
  Pd.any (Pd.isnull <$> values s) = true →
  Py.contains "Nucleus" col = true →
  Py.replace_count "Nucleus" "Cell" 1 col ∉ Pd.columns df →
  use_cell_measurement df = Err KeyError.
Proof.
  exact (run_without_substitute "Nucleus" "Cell" nucleus_step (λ _ _, eq_refl) df col s).
Qed.

Lemma nucleus_gap_without_cell_raises_witness :
  use_cell_measurement lone_compartment_example = Err KeyError.
Proof.
  apply (nucleus_gap_without_cell_raises lone_compartment_example
           "CD3: Nucleus: Mean" (mkSeries "CD3: Nucleus: Mean" [Num (B64.of_Z 1); NA]));
    compute_done.
Defined.

(** X13: when no cytoplasm and no nucleus measurement has a gap, both imputers
    return the table as it is: gaps in the columns of other compartments
    are not filled, and no substitute column is looked up. *)
Theorem imputers_leave_other_gaps (df : DataFrame) :
  (∀ s, s ∈ df →
        Py.contains "Cytoplasm" (name s) = true ∨ Py.contains "Nucleus" (name s) = true →
        Pd.any (Pd.isnull <$> values s) = false) →
  replace_cytoplasm_with_membrane df = Ok df ∧ use_cell_measurement df = Ok df.
Proof.
  intros Hcomplete. split.
  - apply (run_complete "Cytoplasm" "Membrane" cytoplasm_step (λ _ _, eq_refl)).
    + intros s Hs Htok. apply Hcomplete; [done|by left].
    + by apply Forall_forall.
  - apply (run_complete "Nucleus" "Cell" nucleus_step (λ _ _, eq_refl)).
    + intros s Hs Htok. apply Hcomplete; [done|by right].
    + by apply Forall_forall.
Qed.

Lemma imputers_leave_other_gaps_witness :
  replace_cytoplasm_with_membrane unique_labels_example = Ok unique_labels_example ∧
  use_cell_measurement unique_labels_example = Ok unique_labels_example.
Proof.
  apply (imputers_leave_other_gaps unique_labels_example).
  intros s Hs.
  repeat (apply elem_of_cons in Hs as [->|Hs];
          [intros [Htok|Htok]; vm_compute in Htok; discriminate|]).
  by apply elem_of_nil in Hs.
Defined.

(** ** Label processor *)

Lemma unique_strings (l : list string) : Pd.unique (Str <$> l) = Str <$> Pd.unique l.
Proof.
  unfold Pd.unique. change (@nil cell) with (Str <$> @nil string).
  apply (unique_from_fmap Str).
Qed.

Lemma sorted_strings (l : list string) :
  sorted (Str <$> l) = Ok (Str <$> merge_sort String.le l).
Proof.
  destruct l as [|x [|y l]]; [done..|].
  unfold sorted. rewrite fmap_cons, fmap_cons.
  change (Str x :: Str y :: (Str <$> l)) with (Str <$> x :: y :: l).
  by rewrite mapM_as_str_fmap.
Qed.

Lemma str_replace_on_str (old new : string) (vals : list cell) :
  existsb Pd.is_str vals = true →
  Pd.str_replace old new vals = Ok (on_str (Py.replace old new) <$> vals).
Proof. intros H. unfold Pd.str_replace. by rewrite H. Qed.

Lemma existsb_is_str_on_str (f : string → string) (vals : list cell) :
  existsb Pd.is_str (on_str f <$> vals) = existsb Pd.is_str vals.
Proof.
  induction vals as [|c vals IH]; [done|].
  rewrite fmap_cons. simpl. rewrite IH. by destruct c.
Qed.

Lemma on_str_strings (f : string → string) (raw : list string) :
  on_str f <$> (Str <$> raw) = Str <$> (f <$> raw).
Proof. by rewrite <- !list_fmap_compose. Qed.

Lemma replace_list_strings (to_remove : list string) (change_to : string)
    (raw : list string) :
  Pd.replace_list to_remove change_to (Str <$> raw) =
  Str <$> (relabel to_remove change_to <$> raw).
Proof.
  unfold Pd.replace_list. rewrite <- !list_fmap_compose.
  apply list_fmap_ext. intros i s _. simpl. unfold relabel. by case_bool_decide.
Qed.

Lemma replace_list_on_str (to_remove : list string) (change_to : string)
    (f : string → string) (vals : list cell) :
  Pd.replace_list to_remove change_to (on_str f <$> vals) =
  on_str (relabel to_remove change_to ∘ f) <$> vals.
Proof.
  unfold Pd.replace_list. rewrite <- list_fmap_compose.
  apply list_fmap_ext. intros i [|q|s] _; simpl; try done.
  unfold relabel. by case_bool_decide.
Qed.

Lemma existsb_is_str_strings (raw : list string) :
  raw ≠ [] → existsb Pd.is_str (Str <$> raw) = true.
Proof. by destruct raw. Qed.

Lemma any_notnull_strings (raw : list string) :
  raw ≠ [] → Pd.any (negb ∘ Pd.isnull <$> (Str <$> raw)) = true.
Proof. by destruct raw. Qed.

Section tracking.
Implicit Types (df d : DataFrame) (cv : list cell) (onv : option (list cell)).

Lemma tracks_class_update df d cv cv' onv (f : list cell → result (list cell)) :
  tracks df d cv onv → f cv = Ok cv' →
  ∃ d', update_column d "Class" f = Ok d' ∧ tracks df d' cv' onv.
Proof.
  intros (Hcols & Hclass & Hother & Hname) Hf.
  pose proof (getitem_Ok_columns _ _ _ Hclass) as Hin.
  eexists. split.
  { unfold update_column. rewrite Hclass, bind_Ok. simpl. by rewrite Hf, bind_Ok. }
  split; [by rewrite columns_setitem_present|]. split; [|split].
  - rewrite getitem_setitem_present by done. by rewrite bool_decide_eq_true_2.
  - intros l Hc Hn. rewrite getitem_setitem_present by done.
    rewrite bool_decide_eq_false_2 by done. by apply Hother.
  - destruct onv as [nv|].
    + rewrite getitem_setitem_present by done. by rewrite bool_decide_eq_false_2.
    + by rewrite columns_setitem_present.
Qed.

Lemma tracks_name_update df d cv onv (f : list cell → result (list cell))
    (g : list cell → list cell) :
  tracks df d cv onv → (∀ nv, onv = Some nv → f nv = Ok (g nv)) →
  ∃ d', except_KeyError (update_column d "Name" f) (Ok d) = Ok d' ∧
        tracks df d' cv (g <$> onv).
Proof.
  intros (Hcols & Hclass & Hother & Hname) Hf. destruct onv as [nv|].
  - pose proof (getitem_Ok_columns _ _ _ Hname) as Hin.
    eexists. split.
    { unfold update_column. rewrite Hname, bind_Ok. simpl.
      rewrite (Hf nv eq_refl), bind_Ok. done. }
    split; [by rewrite columns_setitem_present|]. split; [|split].
    + rewrite getitem_setitem_present by done. by rewrite bool_decide_eq_false_2.
    + intros l Hc Hn. rewrite getitem_setitem_present by done.
      rewrite bool_decide_eq_false_2 by done. by apply Hother.
    + simpl. rewrite getitem_setitem_present by done. by rewrite bool_decide_eq_true_2.
  - exists d. split; [|done].
    unfold update_column. by rewrite (getitem_absent d "Name").
Qed.

End tracking.

Lemma label_processor_result
    (df : DataFrame) (to_remove : list string) (change_to : string)
    (class : Series) (raw : list string) :
  Pd.getitem df "Class" = Ok class →
  values class = Str <$> raw →
  raw ≠ [] →
  (∀ nm, Pd.getitem df "Name" = Ok nm → existsb Pd.is_str (values nm) = true) →
  ∃ df',
    preprocess_celltypecolumn df to_remove change_to =
      Ok (df',
          Some (Str <$> merge_sort String.le (Pd.unique (clean_label <$> raw))),
          Some (Str <$> working_labels to_remove change_to raw)) ∧
    Pd.columns df' = Pd.columns df ∧
    Pd.getitem df' "Class" =
      Ok (mkSeries "Class" (Str <$> (relabel to_remove change_to ∘ clean_label <$> raw))) ∧
    (∀ nm, Pd.getitem df "Name" = Ok nm →
       Pd.getitem df' "Name" =
         Ok (mkSeries "Name"
               (on_str (relabel to_remove change_to ∘ clean_label) <$> values nm))) ∧
    (∀ l, l ≠ "Class" → l ≠ "Name" → Pd.getitem df' l = Pd.getitem df l) ∧
    NoDup (working_labels to_remove change_to raw) ∧
    StronglySorted String.le (working_labels to_remove change_to raw) ∧
    (∀ t, t ∈ to_remove → t ≠ change_to → t ∉ working_labels to_remove change_to raw) ∧
    (∀ s, s ∈ raw →
       relabel to_remove change_to (clean_label s) ∈ working_labels to_remove change_to raw).
Proof.
  intros Hclass Hvals Hraw Hnm.
  set (f1 := Py.replace "Edited: " "").
  set (f2 := Py.replace "Immune cells: " "").
  assert (∃ onv, tracks df df (Str <$> raw) onv ∧
                 (∀ nm, Pd.getitem df "Name" = Ok nm → onv = Some (values nm)) ∧
                 (∀ nv, onv = Some nv → existsb Pd.is_str nv = true)) as (onv & H0 & Honv & Hstr).
  { assert (Pd.getitem df "Class" = Ok (mkSeries "Class" (Str <$> raw))) as Hc.
    { rewrite Hclass. apply getitem_Ok_inv in Hclass as [_ Hn].
      destruct class as [n v]. simpl in *. by subst. }
    destruct (Pd.getitem df "Name") as [nm|e] eqn:Hname.
    - exists (Some (values nm)). split; [|split].
      + repeat (split; [done|]). rewrite Hname.
        apply getitem_Ok_inv in Hname as [_ Hn]. destruct nm as [n v]. simpl in *.
        by subst.
      + by intros ? [= <-].
      + intros nv [= <-]. by apply Hnm.
    - exists None. split; [|split; [done|done]].
      repeat (split; [done|]). by apply getitem_Err_inv in Hname as [_ ?]. }
  destruct (tracks_class_update df df _ (Str <$> (f1 <$> raw)) onv
              (Pd.str_replace "Edited: " "") H0) as (d1 & E1 & H1).
  { rewrite str_replace_on_str by (by apply existsb_is_str_strings).
    by rewrite on_str_strings. }
  destruct (tracks_name_update df d1 _ onv (Pd.str_replace "Edited: " "")
              (fmap (on_str f1)) H1) as (d2 & E2 & H2).
  { intros nv Hnv. apply str_replace_on_str. by apply Hstr. }
  destruct (tracks_class_update df d2 _ (Str <$> (clean_label <$> raw)) _
              (Pd.str_replace "Immune cells: " "") H2) as (d3 & E3 & H3).
  { rewrite str_replace_on_str
      by (apply existsb_is_str_strings; by destruct raw).
    rewrite on_str_strings. do 2 f_equal. by rewrite <- list_fmap_compose. }
  destruct (tracks_name_update df d3 _ _ (Pd.str_replace "Immune cells: " "")
              (fmap (on_str f2)) H3) as (d4 & E4 & H4).
  { intros nv' Hnv'. apply str_replace_on_str.
    destruct onv as [nv|]; [|done]. injection Hnv' as <-.
    rewrite existsb_is_str_on_str. by apply Hstr. }
  destruct (tracks_class_update df d4 _
              (Str <$> (relabel to_remove change_to ∘ clean_label <$> raw)) _
              (Ok ∘ Pd.replace_list to_remove change_to) H4) as (d5 & E5 & H5).
  { simpl. rewrite replace_list_strings. do 2 f_equal. by rewrite <- list_fmap_compose. }
  destruct (tracks_name_update df d5 _ _ (Ok ∘ Pd.replace_list to_remove change_to)
              (Pd.replace_list to_remove change_to) H5) as (d6 & E6 & H6); [done|].
  exists d6.
  pose proof H4 as (_ & Hclass4 & _). pose proof H6 as (Hcols6 & Hclass6 & Hother6 & Hname6).
  split.
  { unfold preprocess_celltypecolumn. rewrite Hclass, bind_Ok, Hvals.
    rewrite any_notnull_strings by done.
    rewrite E1, bind_Ok, E2, bind_Ok, E3, bind_Ok, E4, bind_Ok.
    rewrite Hclass4, bind_Ok. simpl values.
    rewrite unique_strings, sorted_strings, bind_Ok.
    rewrite E5, bind_Ok, E6, bind_Ok, Hclass6, bind_Ok. simpl values.
    by rewrite unique_strings, sorted_strings, bind_Ok. }
  split; [done|]. split; [done|]. split.
  { intros nm Hname. rewrite (Honv nm Hname) in Hname6. simpl in Hname6.
    rewrite Hname6. do 2 f_equal.
    rewrite replace_list_on_str, <- list_fmap_compose.
    apply list_fmap_ext. by intros i [|q|s] _. }
  split; [done|]. unfold working_labels. split; [|split; [|split]].
  - rewrite merge_sort_Permutation. apply NoDup_unique.
  - apply StronglySorted_merge_sort; apply _.
  - intros t Ht Hne. rewrite merge_sort_Permutation, elem_of_unique, list_elem_of_fmap.
    intros (s & Hs & _). simpl in Hs. unfold relabel in Hs.
    case_bool_decide; congruence.
  - intros s Hs. rewrite merge_sort_Permutation, elem_of_unique.
    apply (list_elem_of_fmap_2 (relabel to_remove change_to ∘ clean_label)), Hs.
Qed.

(** X14: on a table whose [Class] column holds a label in every row (and whose
    [Name] column, if there is one, holds some string), the label processor
    succeeds.  Every [Class] entry loses the prefixes "Edited: " and
    "Immune cells: " and is renamed to [change_to] if it is then one of
    the excluded labels; the [Name] column is treated alike, an entry that
    is not a string becoming NaN.  The list of labels found holds the
    cleaned labels, the working list the renamed ones, both sorted and
    without repetition; an excluded label other than [change_to] is not in
    the working list, and the entry of every row is.  The labels of the
    table and the other columns are unchanged. *)
Theorem label_processor_cleans_and_renames
    (df : DataFrame) (to_remove : list string) (change_to : string)
    (class : Series) (raw : list string) :
  Pd.getitem df "Class" = Ok class →
  values class = Str <$> raw →
  raw ≠ [] →
  (∀ nm, Pd.getitem df "Name" = Ok nm → existsb Pd.is_str (values nm) = true) →
  ∃ df',
    preprocess_celltypecolumn df to_remove change_to =
      Ok (df',
          Some (Str <$> merge_sort String.le (Pd.unique (clean_label <$> raw))),
          Some (Str <$> working_labels to_remove change_to raw)) ∧
    Pd.columns df' = Pd.columns df ∧
    Pd.getitem df' "Class" =
      Ok (mkSeries "Class" (Str <$> (relabel to_remove change_to ∘ clean_label <$> raw))) ∧
    (∀ nm, Pd.getitem df "Name" = Ok nm →
       Pd.getitem df' "Name" =
         Ok (mkSeries "Name"
               (on_str (relabel to_remove change_to ∘ clean_label) <$> values nm))) ∧
    (∀ l, l ≠ "Class" → l ≠ "Name" → Pd.getitem df' l = Pd.getitem df l) ∧
    NoDup (working_labels to_remove change_to raw) ∧
    StronglySorted String.le (working_labels to_remove change_to raw) ∧
    (∀ t, t ∈ to_remove → t ≠ change_to → t ∉ working_labels to_remove change_to raw) ∧
    (∀ s, s ∈ raw →
       relabel to_remove change_to (clean_label s) ∈ working_labels to_remove change_to raw).
Proof. apply label_processor_result. Qed.

Lemma label_processor_cleans_and_renames_witness :
  ∃ df',
    preprocess_celltypecolumn labelled_example ["Unknown"] "Other" =
      Ok (df', Some [Str "B cells"; Str "Unknown"], Some [Str "B cells"; Str "Other"]) ∧
    Pd.getitem df' "Class" =
      Ok (mkSeries "Class" [Str "Other"; Str "B cells"; Str "B cells"]) ∧
    Pd.getitem df' "Name" = Ok (mkSeries "Name" [Str "Other"; Str "B cells"; NA]).
Proof.
  destruct (label_processor_cleans_and_renames labelled_example ["Unknown"] "Other"
              (mkSeries "Class"
                 [Str "Edited: Unknown"; Str "Immune cells: B cells"; Str "B cells"])
              ["Edited: Unknown"; "Immune cells: B cells"; "B cells"])
    as (df' & Hrun & _ & Hclass & Hname & _); [done..| |].
  { intros nm Hnm. vm_compute in Hnm. by injection Hnm as <-. }
  exists df'. split; [exact Hrun|]. split; [exact Hclass|].
  exact (Hname (mkSeries "Name" [Str "Unknown"; Str "Edited: B cells"; NA]) eq_refl).
Defined.

(** ** Label file *)

Lemma select_one (df : DataFrame) (l : string) :
  Pd.select df [l] =
  match occurrences df l with
  | [] => Err KeyError
  | cs => Ok cs
  end.
Proof.
  unfold occurrences. simpl. destruct (filter _ df); [done|].
  simpl. by rewrite app_nil_r.
Qed.

Lemma encoded_rows (cell_types : list cell) (vals : list cell) (r : nat) (c : cell) :
  NoDup cell_types →
  vals !! r = Some c →
  (c ∈ cell_types →
     ∃ i, ((λ c, match encoder_of cell_types !! c with
                 | Some i => Num (B64.of_Z (Z.of_nat i))
                 | None => c
                 end) <$> vals) !! r = Some (Num (B64.of_Z (Z.of_nat i))) ∧
          decoder_of cell_types !! i = Some c) ∧
  (c ∉ cell_types →
     ((λ c, match encoder_of cell_types !! c with
            | Some i => Num (B64.of_Z (Z.of_nat i))
            | None => c
            end) <$> vals) !! r = Some c).
Proof.
  intros Hnd Hr. rewrite list_lookup_fmap, Hr. simpl. split.
  - intros (i & Hi)%list_elem_of_lookup. exists i.
    rewrite decoder_of_lookup. split; [|done].
    apply (encoder_of_lookup _ _ _ Hnd) in Hi. by rewrite Hi.
  - intros Hc. destruct (encoder_of cell_types !! c) as [i|] eqn:E; [|done].
    apply (encoder_of_lookup _ _ _ Hnd) in E. destruct Hc.
    by eapply list_elem_of_lookup_2.
Qed.

Lemma label_file_result
    (df : DataFrame) (cell_types : list cell) (nm : Series) (folder batch : string)
    (fs : files) :
  Pd.select df ["Name"] = Ok [nm] →
  ('(encoder, decoder) ← create_encoder_decoder cell_types folder batch;
   save_encoded_labels df (Some encoder) folder batch) fs =
  (Ok (),
   <[labels_path folder batch :=
       CsvFile [mkSeries "Name"
                  ((λ c, match encoder_of cell_types !! c with
                         | Some i => Num (B64.of_Z (Z.of_nat i))
                         | None => c
                         end) <$> values nm)]]>
     (<[decoder_path folder batch := JsonFile (decoder_of cell_types)]> fs)).
Proof.
  intros Hsel.
  assert (name nm = "Name") as Hname.
  { rewrite select_one in Hsel. unfold occurrences in Hsel.
    destruct (filter _ df) as [|c cs] eqn:E; [done|]. injection Hsel as -> ->.
    assert (nm ∈ filter (λ s, name s = "Name") df) as [? _]%list_elem_of_filter
      by (rewrite E; left).
    done. }
  unfold create_encoder_decoder, save_encoded_labels, write, lift, mbind, io_bind, mret,
    io_ret.
  rewrite Hsel. unfold replace_in_column. rewrite fmap_cons.
  rewrite bool_decide_eq_true_2 by done. by rewrite Hname.
Qed.

(** X15: with an encoder made from a list of distinct labels, the decoder file
    and the label file are written, the label file holding the single
    column [Name] with one entry per row.  The entry of a row whose name is
    one of the labels is the index under which the decoder file holds that
    name; a name that is not among the labels is written as it is. *)
Theorem label_file_decodes_to_names
    (df : DataFrame) (cell_types : list cell) (nm : Series) (folder batch : string)
    (fs : files) :
  NoDup cell_types →
  Pd.select df ["Name"] = Ok [nm] →
  ∃ encoded,
    ('(encoder, decoder) ← create_encoder_decoder cell_types folder batch;
     save_encoded_labels df (Some encoder) folder batch) fs =
    (Ok (),
     <[labels_path folder batch := CsvFile [mkSeries "Name" encoded]]>
       (<[decoder_path folder batch := JsonFile (decoder_of cell_types)]> fs)) ∧
    length encoded = length (values nm) ∧
    ∀ r c, values nm !! r = Some c →
      (c ∈ cell_types →
         ∃ i, encoded !! r = Some (Num (B64.of_Z (Z.of_nat i))) ∧
              decoder_of cell_types !! i = Some c) ∧
      (c ∉ cell_types → encoded !! r = Some c).
Proof.
  intros Hnd Hsel. eexists. split; [by apply label_file_result|].
  split; [by rewrite length_fmap|].
  intros r c Hr. by apply encoded_rows.
Qed.

Lemma label_file_decodes_to_names_witness :
  ∃ encoded,
    ('(encoder, decoder) ← create_encoder_decoder [Str "B cells"; Str "Other"] "out" "B";
     save_encoded_labels names_example (Some encoder) "out" "B") ∅ =
    (Ok (),
     <[labels_path "out" "B" := CsvFile [mkSeries "Name" encoded]]>
       (<[decoder_path "out" "B" :=
            JsonFile (decoder_of [Str "B cells"; Str "Other"])]> ∅)) ∧
    length encoded = 3 ∧
    ∀ r c, [Str "Other"; Str "Tumour"; Str "B cells"] !! r = Some c →
      (c ∈ [Str "B cells"; Str "Other"] →
         ∃ i, encoded !! r = Some (Num (B64.of_Z (Z.of_nat i))) ∧
              decoder_of [Str "B cells"; Str "Other"] !! i = Some c) ∧
      (c ∉ [Str "B cells"; Str "Other"] → encoded !! r = Some c).
Proof.
  apply (label_file_decodes_to_names names_example [Str "B cells"; Str "Other"]
           (mkSeries "Name" [Str "Other"; Str "Tumour"; Str "B cells"]));
    compute_done.
Defined.

(** ** A run on a labelled table *)

Lemma working_labels_truthy (to_remove : list string) (change_to : string)
    (raw : list string) :
  raw ≠ [] → truthy (Some (Str <$> working_labels to_remove change_to raw)) = true.
Proof.
  intros Hraw. destruct raw as [|s raw]; [done|].
  assert (relabel to_remove change_to (clean_label s) ∈
          working_labels to_remove change_to (s :: raw)) as Hin.
  { unfold working_labels. rewrite merge_sort_Permutation, elem_of_unique.
    apply (list_elem_of_fmap_2 (relabel to_remove change_to ∘ clean_label)). left. }
  destruct (working_labels to_remove change_to (s :: raw)); [|done].
  by apply elem_of_nil in Hin.
Qed.

Lemma select_one_tracked (df df' : DataFrame) (l : string) (s s' : Series) :
  Pd.columns df' = Pd.columns df →
  Pd.select df [l] = Ok [s] →
  Pd.getitem df' l = Ok s' →
  Pd.select df' [l] = Ok [s'].
Proof.
  intros Hcols Hsel Hget.
  assert (length (occurrences df' l) = 1) as Hlen.
  { rewrite <- count_label_columns, Hcols, count_label_columns.
    rewrite select_one in Hsel. destruct (occurrences df l) as [|c cs]; [done|].
    by injection Hsel as -> ->. }
  rewrite getitem_occurrences in Hget. rewrite select_one.
  destruct (occurrences df' l) as [|c [|c' cs]]; try done.
  by injection Hget as ->.
Qed.

(** X16: a run on a table with a label in every row of [Class] and a single
    [Name] column: the decoder file holds the working labels under their
    positions, the label file holds one entry per row, and the entry of a
    row is the index under which the decoder file holds the processed name
    of that row whenever this name is a working label (otherwise the
    processed name itself).  The run then goes on with the feature stages
    on a table of the same labels. *)
Theorem labelled_run_label_file_decodes
    (cfg : config) (input : DataFrame) (fs : files) (class nm : Series)
    (raw : list string) :
  generate_warnings (remove_dots input) = Ok () →
  Pd.getitem (remove_dots input) "Class" = Ok class →
  values class = Str <$> raw →
  raw ≠ [] →
  Pd.select (remove_dots input) ["Name"] = Ok [nm] →
  existsb Pd.is_str (values nm) = true →
  ∃ df' encoded,
    preprocess_training_data cfg input fs =
      feature_stages cfg df'
        (<[labels_path (output_folder cfg) (batch_name cfg) :=
             CsvFile [mkSeries "Name" encoded]]>
           (<[decoder_path (output_folder cfg) (batch_name cfg) :=
                JsonFile (decoder_of
                            (Str <$> working_labels (cell_types_to_remove cfg)
                                       (change_to cfg) raw))]> fs)) ∧
    Pd.columns df' = Pd.columns (remove_dots input) ∧
    length encoded = length (values nm) ∧
    ∀ r c, values nm !! r = Some c →
      (processed_label (cell_types_to_remove cfg) (change_to cfg) c ∈
         Str <$> working_labels (cell_types_to_remove cfg) (change_to cfg) raw →
       ∃ i, encoded !! r = Some (Num (B64.of_Z (Z.of_nat i))) ∧
            decoder_of (Str <$> working_labels (cell_types_to_remove cfg)
                                  (change_to cfg) raw) !! i =
            Some (processed_label (cell_types_to_remove cfg) (change_to cfg) c)) ∧
      (processed_label (cell_types_to_remove cfg) (change_to cfg) c ∉
         Str <$> working_labels (cell_types_to_remove cfg) (change_to cfg) raw →
       encoded !! r =
       Some (processed_label (cell_types_to_remove cfg) (change_to cfg) c)).
Proof.
  intros Hwarn Hclass Hvals Hraw Hsel Hstr.
  set (df := remove_dots input) in *.
  set (types := Str <$> working_labels (cell_types_to_remove cfg) (change_to cfg) raw).
  assert (Pd.getitem df "Name" = Ok nm) as Hname.
  { rewrite getitem_occurrences. rewrite select_one in Hsel.
    destruct (occurrences df "Name") as [|c cs]; [done|]. by injection Hsel as -> ->. }
  destruct (label_processor_result df (cell_types_to_remove cfg) (change_to cfg)
              class raw Hclass Hvals Hraw)
    as (df' & Hrun & Hcols & _ & Hname' & _ & Hnd & _).
  { intros nm' Hnm'. congruence. }
  specialize (Hname' nm Hname).
  pose proof (select_one_tracked df df' "Name" nm _ Hcols Hsel Hname') as Hsel'.
  exists df'. eexists. split; [|split; [done|]].
  - unfold preprocess_training_data. change (remove_dots input) with df.
    rewrite Hwarn, lift_Ok_bind, Hrun, lift_Ok_bind.
    rewrite working_labels_truthy by done.
    pose proof (label_file_result df' types _ (output_folder cfg) (batch_name cfg) fs Hsel')
      as Hfile.
    unfold create_encoder_decoder, mbind, io_bind, mret, io_ret, write in Hfile |- *.
    subst types. simpl in Hfile |- *. by rewrite Hfile.
  - simpl. split; [by rewrite !length_fmap|].
    intros r c Hr. apply encoded_rows.
    + by apply (NoDup_fmap_2 Str).
    + by rewrite list_lookup_fmap, Hr.
Qed.

Lemma labelled_run_label_file_decodes_witness :
  ∃ df' encoded,
    preprocess_training_data example_config labelled_example ∅ =
      feature_stages example_config df'
        (<[labels_path "out" "B" := CsvFile [mkSeries "Name" encoded]]>
           (<[decoder_path "out" "B" :=
                JsonFile (decoder_of [Str "B cells"; Str "Other"])]> ∅)) ∧
    length encoded = 3.
Proof.
  destruct (labelled_run_label_file_decodes example_config labelled_example ∅
              (mkSeries "Class"
                 [Str "Edited: Unknown"; Str "Immune cells: B cells"; Str "B cells"])
              (mkSeries "Name" [Str "Unknown"; Str "Edited: B cells"; NA])
              ["Edited: Unknown"; "Immune cells: B cells"; "B cells"])
    as (df' & encoded & Hrun & _ & Hlen & _); [by vm_compute..|].
  exists df', encoded. split; [exact Hrun|exact Hlen].
Defined.

(** ** A table with labels in some rows only *)

Lemma mapM_as_str_Err (xs : list cell) (e : exn) :
  mapM as_str xs = Err e → e = TypeError.
Proof.
  induction xs as [|c xs IH]; simpl; [done|].
  destruct c as [|q|s]; simpl; try by intros [= <-].
  destruct (mapM as_str xs) as [strs|e']; simpl; [done|].
  intros [= <-]. by apply IH.
Qed.

Lemma sorted_mixed (xs : list cell) (s : string) :
  NA ∈ xs → Str s ∈ xs → sorted xs = Err TypeError.
Proof.
  intros Hna Hstr. unfold sorted.
  destruct xs as [|x [|y xs]].
  - by apply elem_of_nil in Hna.
  - apply list_elem_of_singleton in Hna, Hstr. congruence.
  - destruct (mapM as_str (x :: y :: xs)) as [strs|e] eqn:E.
    + apply mapM_as_str_inv in E. rewrite E in Hna.
      by apply list_elem_of_fmap in Hna as (? & ? & _).
    + by apply mapM_as_str_Err in E as ->.
Qed.

Lemma tracks_init (df : DataFrame) (class : Series) :
  Pd.getitem df "Class" = Ok class →
  ∃ onv, tracks df df (values class) onv ∧
         ∀ nm, Pd.getitem df "Name" = Ok nm → onv = Some (values nm).
Proof.
  intros Hclass.
  assert (Pd.getitem df "Class" = Ok (mkSeries "Class" (values class))) as Hc.
  { rewrite Hclass. apply getitem_Ok_inv in Hclass as [_ Hn].
    destruct class as [n v]. simpl in *. by subst. }
  destruct (Pd.getitem df "Name") as [nm|e] eqn:Hname.
  - exists (Some (values nm)). split; [|by intros ? [= <-]].
    repeat (split; [done|]). rewrite Hname.
    apply getitem_Ok_inv in Hname as [_ Hn]. destruct nm as [n v]. simpl in *.
    by subst.
  - exists None. split; [|done].
    repeat (split; [done|]). by apply getitem_Err_inv in Hname as [_ ?].
Qed.

Lemma partly_labelled_raises
    (df : DataFrame) (to_remove : list string) (change_to : string)
    (class : Series) (c : cell) (s : string) :
  Pd.getitem df "Class" = Ok class →
  Str s ∈ values class →
  c ∈ values class → Pd.is_str c = false →
  (∀ nm, Pd.getitem df "Name" = Ok nm → existsb Pd.is_str (values nm) = true) →
  preprocess_celltypecolumn df to_remove change_to = Err TypeError.
Proof.
  intros Hclass Hs Hc Hnot Hnm.
  set (f1 := Py.replace "Edited: " "").
  set (f2 := Py.replace "Immune cells: " "").
  assert (existsb Pd.is_str (values class) = true) as Hstr.
  { apply existsb_exists. exists (Str s). split; [by apply list_elem_of_In|done]. }
  destruct (tracks_init df class Hclass) as (onv & H0 & Honv).
  destruct (tracks_class_update df df _ (on_str f1 <$> values class) onv
              (Pd.str_replace "Edited: " "") H0) as (d1 & E1 & H1).
  { by apply str_replace_on_str. }
  destruct (tracks_name_update df d1 _ onv (Pd.str_replace "Edited: " "")
              (fmap (on_str f1)) H1) as (d2 & E2 & H2).
  { intros nv ->. apply str_replace_on_str.
    destruct (Pd.getitem df "Name") as [nm|] eqn:Hname.
    - specialize (Honv nm eq_refl). injection Honv as ->. by apply Hnm.
    - destruct H0 as (_ & _ & _ & H0). by rewrite Hname in H0. }
  destruct (tracks_class_update df d2 _ (on_str f2 <$> (on_str f1 <$> values class)) _
              (Pd.str_replace "Immune cells: " "") H2) as (d3 & E3 & H3).
  { apply str_replace_on_str. by rewrite existsb_is_str_on_str. }
  destruct (tracks_name_update df d3 _ _ (Pd.str_replace "Immune cells: " "")
              (fmap (on_str f2)) H3) as (d4 & E4 & H4).
  { intros nv' Hnv'. apply str_replace_on_str.
    destruct onv as [nv|]; [|done]. injection Hnv' as <-.
    rewrite existsb_is_str_on_str.
    destruct (Pd.getitem df "Name") as [nm|] eqn:Hname.
    - specialize (Honv nm eq_refl). injection Honv as ->. by apply Hnm.
    - destruct H0 as (_ & _ & _ & H0). by rewrite Hname in H0. }
  destruct H4 as (_ & Hclass4 & _).
  unfold preprocess_celltypecolumn. rewrite Hclass, bind_Ok.
  replace (Pd.any (negb ∘ Pd.isnull <$> values class)) with true.
  2:{ symmetry. apply existsb_exists. exists true. split; [|done].
      apply list_elem_of_In, list_elem_of_fmap. by exists (Str s). }
  rewrite E1, bind_Ok, E2, bind_Ok, E3, bind_Ok, E4, bind_Ok, Hclass4, bind_Ok.
  simpl values. rewrite (sorted_mixed _ (f2 (f1 s))); [done|..].
  - apply elem_of_unique. rewrite <- list_fmap_compose.
    apply list_elem_of_fmap. exists c. split; [|done]. by destruct c.
  - apply elem_of_unique. rewrite <- list_fmap_compose.
    apply list_elem_of_fmap. by exists (Str s).
Qed.

(** X17: when the [Class] column has a label in some row and none in another,
    the label processor raises TypeError (the missing entry cannot be
    ordered among the labels), and the run ends there with no file
    written. *)
Theorem partly_labelled_table_aborts
    (cfg : config) (input : DataFrame) (fs : files) (class : Series) (s : string) :
  generate_warnings (remove_dots input) = Ok () →
  Pd.getitem (remove_dots input) "Class" = Ok class →
  Str s ∈ values class →
  NA ∈ values class →
  (∀ nm, Pd.getitem (remove_dots input) "Name" = Ok nm →
         existsb Pd.is_str (values nm) = true) →
  preprocess_celltypecolumn (remove_dots input) (cell_types_to_remove cfg) (change_to cfg) =
    Err TypeError ∧
  preprocess_training_data cfg input fs = (Err TypeError, fs).
Proof.
  intros Hwarn Hclass Hs Hna Hnm.
  pose proof (partly_labelled_raises (remove_dots input) (cell_types_to_remove cfg)
                (change_to cfg) class NA s Hclass Hs Hna eq_refl Hnm) as Hpre.
  split; [done|].
  unfold preprocess_training_data. by rewrite Hwarn, lift_Ok_bind, Hpre, lift_Err_bind.
Qed.

Lemma partly_labelled_table_aborts_witness :
  preprocess_celltypecolumn (remove_dots partly_labelled_example) ["Unknown"] "Other" =
    Err TypeError ∧
  preprocess_training_data example_config partly_labelled_example ∅ = (Err TypeError, ∅).
Proof.
  apply (partly_labelled_table_aborts example_config partly_labelled_example ∅
           (mkSeries "Class" [Str "B cells"; NA]) "B cells").
  - by vm_compute.
  - by vm_compute.
  - left.
  - right. left.
  - intros nm Hnm. vm_compute in Hnm. by injection Hnm as <-.
Defined.

(** ** The check for name collisions *)

Lemma columns_remove_prefixes_underscores (df : DataFrame) :
  Pd.columns (remove_prefixes_underscores df) =
  index_replace "_" " " (index_replace "Target:" "" (Pd.columns df)).
Proof.
  unfold remove_prefixes_underscores, index_replace.
  by rewrite !set_columns_fmap, !columns_renamed.
Qed.

Lemma elem_of_take_duplicated (labels : list string) (g : string) :
  g ∈ Pd.take_where (Pd.duplicated labels) labels ↔ 2 ≤ count_label g labels.
Proof.
  rewrite <- count_label_pos. unfold Pd.duplicated. rewrite count_take_duplicated.
  rewrite decide_False by apply not_elem_of_nil. lia.
Qed.

Lemma generate_warnings_cases (df : DataFrame) :
  generate_warnings df =
  match (λ g, collisions df g) <$>
        Pd.take_where (Pd.duplicated (Pd.columns (remove_prefixes_underscores df)))
                      (Pd.columns (remove_prefixes_underscores df)) with
  | [] => Ok ()
  | k :: ks => if bool_decide (Forall (λ k', k' = k) ks) then Ok () else Err ValueError
  end.
Proof.
  unfold generate_warnings, collisions. rewrite columns_remove_prefixes_underscores.
  set (names := index_replace "_" " " (index_replace "Target:" "" (Pd.columns df))).
  unfold count_label.
  destruct (Pd.take_where (Pd.duplicated names) names) as [|g gs]; [done|].
  by rewrite bool_decide_eq_true_2 by (simpl; lia).
Qed.

Lemma uneven_collisions_raise (df : DataFrame) (g1 g2 : string) :
  2 ≤ collisions df g1 → 2 ≤ collisions df g2 →
  collisions df g1 ≠ collisions df g2 →
  generate_warnings df = Err ValueError.
Proof.
  intros H1 H2 Hne. rewrite generate_warnings_cases.
  apply elem_of_take_duplicated in H1, H2.
  apply (list_elem_of_fmap_2 (λ g, collisions df g)) in H1, H2.
  destruct (_ <$> Pd.take_where _ _) as [|k ks]; [by apply elem_of_nil in H1|].
  rewrite bool_decide_eq_false_2; [done|]. intros Hall.
  rewrite Forall_forall in Hall.
  apply elem_of_cons in H1 as [H1|H1%Hall], H2 as [H2|H2%Hall]; congruence.
Qed.

(** X18: when, once "Target:" and the underscores are removed, one name stands
    on more columns than another name that is repeated too, the check for
    name collisions raises ValueError, and the run ends there with no file
    written. *)
Theorem uneven_collisions_abort_the_run
    (cfg : config) (input : DataFrame) (fs : files) (g1 g2 : string) :
  2 ≤ collisions (remove_dots input) g1 →
  2 ≤ collisions (remove_dots input) g2 →
  collisions (remove_dots input) g1 ≠ collisions (remove_dots input) g2 →
  generate_warnings (remove_dots input) = Err ValueError ∧
  preprocess_training_data cfg input fs = (Err ValueError, fs).
Proof.
  intros H1 H2 Hne.
  pose proof (uneven_collisions_raise _ g1 g2 H1 H2 Hne) as Hwarn.
  split; [done|]. unfold preprocess_training_data. by rewrite Hwarn, lift_Err_bind.
Qed.

Lemma uneven_collisions_abort_the_run_witness :
  generate_warnings (remove_dots uneven_example) = Err ValueError ∧
  preprocess_training_data example_config uneven_example ∅ = (Err ValueError, ∅).
Proof.
  apply (uneven_collisions_abort_the_run example_config uneven_example ∅ "CD3 a" "CD8 a");
    vm_compute; lia.
Defined.

(** X19: the check passes when the names that are repeated after the
    transformation are all repeated the same number of times; a table
    whose transformed names are all different is one such. *)
Theorem even_collisions_pass_the_check (df : DataFrame) :
  (∀ g1 g2, 2 ≤ collisions df g1 → 2 ≤ collisions df g2 →
            collisions df g1 = collisions df g2) →
  generate_warnings df = Ok ().
Proof.
  intros Heven. rewrite generate_warnings_cases.
  destruct (Pd.take_where _ _) as [|g gs] eqn:E; [done|].
  rewrite fmap_cons. rewrite bool_decide_eq_true_2; [done|].
  apply Forall_fmap, Forall_forall. intros g' Hg'. simpl.
  apply Heven; apply elem_of_take_duplicated; rewrite E; [by right|left].
Qed.

Lemma even_collisions_pass_the_check_witness :
  generate_warnings repeated_label_example = Ok ().
Proof.
  apply (even_collisions_pass_the_check repeated_label_example).
  intros g1 g2 H1 H2.
  assert (∀ g, 2 ≤ collisions repeated_label_example g → g = "CD3: Cell: Mean") as Hg.
  { intros g. unfold collisions.
    change (Pd.columns (remove_prefixes_underscores repeated_label_example))
      with ["CD3: Cell: Mean"; "Image"; "CD3: Cell: Mean"].
    rewrite !count_label_cons. unfold count_label. simpl.
    destruct (decide ("CD3: Cell: Mean" = g)); [done|].
    destruct (decide ("Image" = g)); lia. }
  by rewrite (Hg g1 H1), (Hg g2 H2).
Defined.

(** ** Binary mode on degenerate tables *)

Lemma unique_constant (xs : list cell) (c : cell) :
  (∀ x, x ∈ xs → x = c) → Pd.unique xs = [] ∨ Pd.unique xs = [c].
Proof.
  intros Hall. pose proof (NoDup_unique xs) as Hnd.
  assert (∀ x, x ∈ Pd.unique xs → x = c) as Hu
    by (intros x Hx; apply Hall; by apply (elem_of_unique xs x)).
  destruct (Pd.unique xs) as [|a [|b l]]; [by left| |].
  - right. f_equal. apply Hu. left.
  - exfalso. assert (a = c) as -> by (apply Hu; left).
    assert (b = c) as -> by (apply Hu; right; left).
    apply NoDup_cons in Hnd as [Hnd _]. apply Hnd. left.
Qed.

(** X20: when every row of [Classification] holds the same value (or the table
    has no row), the binary run raises IndexError, there being no second
    label, and writes neither the decoder nor the label file. *)
Theorem binary_run_needs_two_classes
    (df : DataFrame) (folder batch : string) (fs : files)
    (classification : Series) (c : cell) :
  Pd.getitem df "Classification" = Ok classification →
  (∀ x, x ∈ values classification → x = c) →
  FunctionalMarker.binarize_and_save_fm df folder batch fs = (Err IndexError, fs).
Proof.
  intros Hcol Hall.
  unfold FunctionalMarker.binarize_and_save_fm, lift, mbind, io_bind.
  rewrite Hcol. by destruct (unique_constant _ c Hall) as [-> | ->].
Qed.

Lemma binary_run_needs_two_classes_witness :
  FunctionalMarker.binarize_and_save_fm one_class_example "out" "B" ∅ = (Err IndexError, ∅).
Proof.
  apply (binary_run_needs_two_classes one_class_example "out" "B" ∅
           (mkSeries "Classification" [Str "CD8+"; Str "CD8+"]) (Str "CD8+")); [done|].
  intros x Hx. repeat (apply elem_of_cons in Hx as [->|Hx]; [done|]).
  by apply elem_of_nil in Hx.
Defined.

(** X21: when [Classification] holds a string in some row and nothing in
    another, the binary run raises TypeError while ordering the labels and
    writes no file. *)
Theorem binary_run_rejects_missing_classification
    (df : DataFrame) (folder batch : string) (fs : files)
    (classification : Series) (s : string) :
  Pd.getitem df "Classification" = Ok classification →
  Str s ∈ values classification →
  NA ∈ values classification →
  FunctionalMarker.binarize_and_save_fm df folder batch fs = (Err TypeError, fs).
Proof.
  intros Hcol Hs Hna.
  unfold FunctionalMarker.binarize_and_save_fm, lift, mbind, io_bind.
  rewrite Hcol. by rewrite (sorted_mixed _ s) by (by apply elem_of_unique).
Qed.

Lemma binary_run_rejects_missing_classification_witness :
  FunctionalMarker.binarize_and_save_fm partly_classified_example "out" "B" ∅ =
  (Err TypeError, ∅).
Proof.
  apply (binary_run_rejects_missing_classification partly_classified_example "out" "B" ∅
           (mkSeries "Classification" [Str "CD8+"; NA; Str "CD8-"]) "CD8+"); [done| |].
  - left.
  - right. left.
Defined.

(** ** The files of a run *)

Lemma written_on_success_only_bind {A B} (path : string) (Q : file → Prop)
    (m : io A) (k : A → io B) :
  leaves_file path m → (∀ a, written_on_success_only path Q (k a)) →
  written_on_success_only path Q (m ≫= k).
Proof.
  intros Hm Hk fs. unfold mbind, io_bind. specialize (Hm fs).
  destruct (m fs) as [[a|e] fs1]; simpl in *; [|done].
  specialize (Hk a fs1). destruct (k a fs1) as [[b|e] fs2]; simpl in *; [done|].
  congruence.
Qed.

Lemma preprocessed_path_not_decoder (cfg : config) :
  preprocessed_path cfg ≠ decoder_path (output_folder cfg) (batch_name cfg).
Proof.
  unfold preprocessed_path, decoder_path. case_bool_decide.
  - by apply (artifact_paths_distinct _ _ "preprocessed_input_data.parquet" "decoder.json").
  - by apply (artifact_paths_distinct _ _ "preprocessed_input_data.csv" "decoder.json").
Qed.

Lemma preprocessed_path_not_labels (cfg : config) :
  preprocessed_path cfg ≠ labels_path (output_folder cfg) (batch_name cfg).
Proof.
  unfold preprocessed_path, labels_path. case_bool_decide.
  - by apply (artifact_paths_distinct _ _ "preprocessed_input_data.parquet"
                "cell_type_labels.csv").
  - by apply (artifact_paths_distinct _ _ "preprocessed_input_data.csv"
                "cell_type_labels.csv").
Qed.

Lemma preprocessed_path_not_images (cfg : config) :
  preprocessed_path cfg ≠ images_path (output_folder cfg) (batch_name cfg).
Proof.
  unfold preprocessed_path, images_path. case_bool_decide.
  - by apply (artifact_paths_distinct _ _ "preprocessed_input_data.parquet" "images.csv").
  - by apply (artifact_paths_distinct _ _ "preprocessed_input_data.csv" "images.csv").
Qed.

Lemma save_image_coordinate_columns_leaves (path : string) (df : DataFrame)
    (meta : list string) (folder batch : string) :
  path ≠ images_path folder batch →
  leaves_file path (save_image_coordinate_columns df meta folder batch).
Proof.
  intros Hne. unfold save_image_coordinate_columns.
  apply leaves_file_bind; [apply leaves_file_lift|]. intros t.
  by apply leaves_file_write.
Qed.

Lemma save_encoded_labels_leaves (path : string) (df : DataFrame)
    (encoder : option (gmap cell nat)) (folder batch : string) :
  path ≠ labels_path folder batch →
  leaves_file path (save_encoded_labels df encoder folder batch).
Proof.
  intros Hne. unfold save_encoded_labels.
  apply leaves_file_bind; [apply leaves_file_lift|]. intros t.
  by apply leaves_file_write.
Qed.

Lemma create_encoder_decoder_leaves (path : string) (cell_types : list cell)
    (folder batch : string) :
  path ≠ decoder_path folder batch →
  leaves_file path (create_encoder_decoder cell_types folder batch).
Proof.
  intros Hne. unfold create_encoder_decoder.
  apply leaves_file_bind; [by apply leaves_file_write|]. intros _.
  apply leaves_file_ret.
Qed.

Lemma feature_stages_leaves (path : string) (cfg : config) (df : DataFrame) :
  path ≠ images_path (output_folder cfg) (batch_name cfg) →
  path ≠ preprocessed_path cfg →
  leaves_file path (feature_stages cfg df).
Proof.
  intros Himg Hpre. unfold feature_stages.
  apply leaves_file_bind; [apply leaves_file_lift|].
  intros [df1|s]; [|apply leaves_file_lift].
  apply leaves_file_bind; [by apply save_image_coordinate_columns_leaves|].
  intros _. repeat (apply leaves_file_bind; [apply leaves_file_lift|]; intros ?).
  unfold save_preprocessed_data. unfold preprocessed_path in Hpre.
  case_bool_decide; by apply leaves_file_write.
Qed.

(** X22: a run writes no file but its four artifacts: the decoder, the
    label file, the image and coordinate file and the feature table.  The
    file at any other path is after the run what it was before, whether the
    run succeeds or raises. *)
Theorem run_writes_its_artifacts_only (cfg : config) (input : DataFrame) (path : string) :
  path ∉ artifact_paths cfg →
  leaves_file path (preprocess_training_data cfg input).
Proof.
  unfold artifact_paths. rewrite !not_elem_of_cons.
  intros (Hdec & Hlab & Himg & Hpre & _).
  unfold preprocess_training_data.
  apply leaves_file_bind; [apply leaves_file_lift|]. intros _.
  apply leaves_file_bind; [apply leaves_file_lift|]. intros [[df found] types].
  apply leaves_file_bind.
  { destruct (truthy types); [|apply leaves_file_ret].
    apply leaves_file_bind; [by apply create_encoder_decoder_leaves|].
    intros [enc dec]. apply leaves_file_ret. }
  intros enc.
  apply leaves_file_bind; [by apply save_encoded_labels_leaves|]. intros _.
  by apply feature_stages_leaves.
Qed.

Lemma run_writes_its_artifacts_only_witness :
  leaves_file "out/B_report.html" (preprocess_training_data example_config labelled_example).
Proof.
  apply (run_writes_its_artifacts_only example_config labelled_example "out/B_report.html").
  compute_done.
Defined.

(** X23: the feature table is the last thing a run writes: a run that succeeds
    has written it, in the format asked for, and a run that raises, at
    whatever stage, leaves the path of the feature table as it found it. *)
Theorem feature_table_written_on_success_only (cfg : config) (input : DataFrame) :
  written_on_success_only (preprocessed_path cfg) (feature_file cfg)
    (preprocess_training_data cfg input).
Proof.
  pose proof (preprocessed_path_not_decoder cfg) as Hdec.
  pose proof (preprocessed_path_not_labels cfg) as Hlab.
  pose proof (preprocessed_path_not_images cfg) as Himg.
  unfold preprocess_training_data.
  apply written_on_success_only_bind; [apply leaves_file_lift|]. intros _.
  apply written_on_success_only_bind; [apply leaves_file_lift|].
  intros [[df found] types].
  apply written_on_success_only_bind.
  { destruct (truthy types); [|apply leaves_file_ret].
    apply leaves_file_bind; [by apply create_encoder_decoder_leaves|].
    intros [enc dec]. apply leaves_file_ret. }
  intros enc.
  apply written_on_success_only_bind; [by apply save_encoded_labels_leaves|]. intros _.
  unfold feature_stages.
  apply written_on_success_only_bind; [apply leaves_file_lift|].
  intros [df1|s]; [|by intros fs].
  apply written_on_success_only_bind; [by apply save_image_coordinate_columns_leaves|].
  intros _.
  repeat (apply written_on_success_only_bind; [apply leaves_file_lift|]; intros ?).
  intros fs. unfold save_preprocessed_data, preprocessed_path, feature_file, write.
  case_bool_decide; simpl; rewrite lookup_insert_eq; eauto.
Qed.

(** ** Image and coordinate file *)

Lemma occurrences_single (df : DataFrame) (l : string) (s : Series) :
  NoDup (Pd.columns df) → Pd.getitem df l = Ok s → occurrences df l = [s].
Proof.
  intros Hnd Hs. rewrite getitem_occurrences in Hs.
  pose proof (count_label_NoDup l _ Hnd) as Hle. rewrite count_label_columns in Hle.
  destruct (occurrences df l) as [|c [|c' cs]]; [done| |simpl in Hle; lia].
  by injection Hs as ->.
Qed.

Lemma columns_labelled_unique (df : DataFrame) (labels : list string) :
  NoDup (Pd.columns df) →
  Forall (λ l, l ∈ Pd.columns df) labels →
  Pd.columns (columns_labelled df labels) = labels ∧
  ∀ l, l ∈ labels → Pd.getitem (columns_labelled df labels) l = Pd.getitem df l.
Proof.
  intros Hnd. unfold columns_labelled.
  induction 1 as [|l0 labels Hl0 _ [IHc IHg]]; [split; [done|]|].
  { intros l Hl. by apply elem_of_nil in Hl. }
  destruct (getitem_is_Ok df l0 Hl0) as [s0 Hs0].
  pose proof (occurrences_single df l0 s0 Hnd Hs0) as Hocc. unfold occurrences in Hocc.
  pose proof (getitem_Ok_inv _ _ _ Hs0) as [_ Hname].
  rewrite bind_cons, Hocc. split.
  - rewrite columns_app, IHc. simpl. by rewrite Hname.
  - intros l Hl. simpl. case_bool_decide as Hl'.
    + by rewrite <- Hl', Hname, Hs0.
    + apply IHg. apply elem_of_cons in Hl as [->|Hl]; [congruence|done].
Qed.

(** X24: on a table of unique labels that has every requested column, the image
    and coordinate file holds [Image], [Centroid X µm], [Centroid Y µm] and
    then the additional metadata columns, in that order and each with the
    data it has in the table, wherever these columns stand in the table. *)
Theorem image_file_holds_requested_columns
    (df : DataFrame) (additional_meta_data : list string) (folder batch : string)
    (fs : files) :
  NoDup (Pd.columns df) →
  Forall (λ l, l ∈ Pd.columns df) (image_coord_cols additional_meta_data) →
  ∃ table,
    save_image_coordinate_columns df additional_meta_data folder batch fs =
      (Ok (), <[images_path folder batch := CsvFile table]> fs) ∧
    Pd.columns table = image_coord_cols additional_meta_data ∧
    ∀ l, l ∈ image_coord_cols additional_meta_data →
         Pd.getitem table l = Pd.getitem df l.
Proof.
  intros Hnd Hall. exists (columns_labelled df (image_coord_cols additional_meta_data)).
  split.
  - unfold save_image_coordinate_columns. fold (image_coord_cols additional_meta_data).
    by rewrite select_present.
  - by apply columns_labelled_unique.
Qed.

Lemma image_file_holds_requested_columns_witness :
  ∃ table,
    save_image_coordinate_columns located_example ["ROI"] "out" "B" ∅ =
      (Ok (), <[images_path "out" "B" := CsvFile table]> ∅) ∧
    Pd.columns table = ["Image"; "Centroid X µm"; "Centroid Y µm"; "ROI"] ∧
    ∀ l, l ∈ ["Image"; "Centroid X µm"; "Centroid Y µm"; "ROI"] →
         Pd.getitem table l = Pd.getitem located_example l.
Proof.
  apply (image_file_holds_requested_columns located_example ["ROI"] "out" "B" ∅);
    compute_done.
Defined.

(** X25: when one of the requested columns is not in the table, KeyError is
    raised and nothing is written. *)
Theorem image_file_needs_requested_columns
    (df : DataFrame) (additional_meta_data : list string) (folder batch : string)
    (fs : files) (l : string) :
  l ∈ image_coord_cols additional_meta_data →
  l ∉ Pd.columns df →
  save_image_coordinate_columns df additional_meta_data folder batch fs =
    (Err KeyError, fs).
Proof.
  intros Hl Habsent. unfold save_image_coordinate_columns.
  fold (image_coord_cols additional_meta_data).
  rewrite select_absent; [done|].
  intros Hall. rewrite Forall_forall in Hall. by apply Habsent, Hall.
Qed.

Lemma image_file_needs_requested_columns_witness :
  save_image_coordinate_columns located_example ["Slide"] "out" "B" ∅ = (Err KeyError, ∅).
Proof.
  apply (image_file_needs_requested_columns located_example ["Slide"] "out" "B" ∅ "Slide");
    compute_done.
Defined.

(** ** Marker filter: names that end in another marker's name *)

Lemma string_app_length (a b : string) :
  String.length (a +:+ b) = String.length a + String.length b.
Proof. induction a as [|c a IH]; [done|]. rewrite string_app_cons. simpl. by rewrite IH. Qed.

Lemma proper_suffix_differs (p m : string) : p ≠ "" → m ≠ p +:+ m.
Proof.
  intros Hp Heq. apply (f_equal String.length) in Heq.
  rewrite string_app_length in Heq. destruct p; [done|]. simpl in Heq. lia.
Qed.

(** X26: excluding a marker does not remove its columns when the name of a
    marker that is kept is the end of its name: the columns of the excluded
    marker [p ++ m] contain the token of [m] and stay in the table. *)
Theorem excluded_marker_stays_through_suffix
    (df : DataFrame) (markers excluded : list string) (p m : string) (s : Series) :
  s ∈ df →
  m ∈ markers → m ∉ excluded → p ≠ "" →
  Py.contains ((p +:+ m) +:+ ": ") (name s) = true →
  kept df markers ((p +:+ m) :: excluded) s.
Proof.
  intros Hs Hm Hex Hp Hc. apply kept_iff. split; [done|].
  exists m. split; [done|]. split.
  - apply not_elem_of_cons. split; [by apply proper_suffix_differs|done].
  - rewrite string_app_assoc in Hc. by apply contains_app_r in Hc.
Qed.

Lemma excluded_marker_stays_through_suffix_witness :
  kept suffix_example (collect_markers suffix_example) ["pH3"]
    (mkSeries "pH3: Cell: Mean" [Num (B64.of_Z 2)]).
Proof.
  apply (excluded_marker_stays_through_suffix suffix_example
           (collect_markers suffix_example) [] "p" "H3"
           (mkSeries "pH3: Cell: Mean" [Num (B64.of_Z 2)])); compute_done.
Defined.

(** ** Marker filter of the binary pipeline *)

(** X27: the marker filter of the binary pipeline never raises KeyError.  With
    a list of cell types it returns the measurement columns followed by
    the columns of the cell types when the table has a column for every
    cell type, and otherwise the measurement columns alone, as the filter
    of the cell type pipeline does: one cell type without a column drops
    the columns of all of them.  Without a list of cell types (a table
    without labels) it raises TypeError. *)
Theorem binary_marker_filter_keeps_all_cell_types_or_none
    (df : DataFrame) (markers excluded : list string) (cell_types : list string) :
  (Forall (λ l, l ∈ Pd.columns df) cell_types →
   FunctionalMarkerStages.drop_markers df markers excluded (Some cell_types) =
     Ok (columns_labelled df (measurement_columns df markers excluded ++ cell_types))) ∧
  (¬ Forall (λ l, l ∈ Pd.columns df) cell_types →
   FunctionalMarkerStages.drop_markers df markers excluded (Some cell_types) =
     drop_markers df markers excluded) ∧
  drop_markers df markers excluded =
    Ok (columns_labelled df (measurement_columns df markers excluded)) ∧
  FunctionalMarkerStages.drop_markers df markers excluded None = Err TypeError.
Proof.
  assert (Forall (λ l, l ∈ Pd.columns df) (measurement_columns df markers excluded)) as Hm.
  { apply Forall_forall. by intros l [? _]%elem_of_measurement_columns. }
  unfold FunctionalMarkerStages.drop_markers. fold (measurement_columns df markers excluded).
  split; [|split; [|split]].
  - intros Hall. rewrite bind_Ok, select_present; [done|]. by apply Forall_app.
  - intros Hnot. rewrite bind_Ok, select_absent.
    + simpl. by rewrite drop_markers_total, select_present.
    + intros [_ ?]%Forall_app. done.
  - apply drop_markers_total.
  - done.
Qed.

(** ** The feature stages on a clean table *)

Lemma io_bind_Ok {A B} (m : io A) (k : A → io B) (fs fs' : files) (a : A) :
  m fs = (Ok a, fs') → (m ≫= k) fs = k a fs'.
Proof. intros Hm. unfold mbind, io_bind. by rewrite Hm. Qed.

Lemma occurrences_of_member (df : DataFrame) (s : Series) :
  NoDup (Pd.columns df) → s ∈ df → occurrences df (name s) = [s].
Proof.
  intros Hnd Hs.
  pose proof (count_label_NoDup (name s) _ Hnd) as Hle. rewrite count_label_columns in Hle.
  assert (s ∈ occurrences df (name s)) as Hin by (by apply list_elem_of_filter).
  destruct (occurrences df (name s)) as [|c [|c' cs]]; [by apply elem_of_nil in Hin| |].
  - by apply list_elem_of_singleton in Hin as ->.
  - simpl in Hle. lia.
Qed.

Lemma columns_labelled_filter (df : DataFrame) (P : string → Prop)
    `{∀ x, Decision (P x)} :
  NoDup (Pd.columns df) →
  columns_labelled df (filter P (Pd.columns df)) = filter (λ s, P (name s)) df.
Proof.
  intros Hnd. unfold columns_labelled.
  enough (∀ part, (∀ s, s ∈ part → s ∈ df) →
            filter P (Pd.columns part) ≫= (λ l, filter (λ s, name s = l) df) =
            filter (λ s, P (name s)) part) as Hpart by (by apply Hpart).
  induction part as [|s part IH]; intros Hsub; [done|].
  unfold Pd.columns. rewrite fmap_cons. fold (Pd.columns part).
  rewrite !filter_cons.
  assert (s ∈ df) as Hs by (apply Hsub; left).
  assert (∀ s', s' ∈ part → s' ∈ df) as Hsub' by (intros s' Hs'; apply Hsub; by right).
  specialize (IH Hsub').
  destruct (decide (P (name s))); [|done].
  rewrite bind_cons, IH.
  pose proof (occurrences_of_member df s Hnd Hs) as Hocc.
  unfold occurrences in Hocc. by rewrite Hocc.
Qed.

Lemma convert_microns_only (df : DataFrame) (pixel_size : float64) :
  um_only df "X" → um_only df "Y" →
  convert_pixels_to_micrometre df pixel_size = Ok (Frame df).
Proof.
  intros [HX1 HX2] [HY1 HY2]. unfold convert_pixels_to_micrometre.
  rewrite for_each_cons, step_um_only, bind_Ok by done.
  by rewrite for_each_cons, step_um_only, bind_Ok by done.
Qed.

(** X28: the feature stages on a clean table: coordinates in microns only, the
    requested image and metadata columns and [Class] present, names that
    are still all different once "Target:" and the underscores are removed,
    and no gap in a cytoplasm or nucleus measurement.  The stages then
    succeed and write two files: the image and coordinate file, and the
    feature table, which holds, in the order of the input and with the
    data of the input, exactly the renamed columns that measure a kept
    marker and mention no unwanted compartment or statistic. *)
Theorem clean_table_passes_the_feature_stages
    (cfg : config) (df : DataFrame) (fs : files) :
  um_only df "X" → um_only df "Y" →
  Forall (λ l, l ∈ Pd.columns df) (image_coord_cols (additional_meta_data_to_keep cfg)) →
  "Class" ∈ Pd.columns df →
  NoDup (Pd.columns (remove_prefixes_underscores df)) →
  (∀ s, s ∈ remove_prefixes_underscores df →
        Py.contains "Cytoplasm" (name s) = true ∨ Py.contains "Nucleus" (name s) = true →
        Pd.any (Pd.isnull <$> values s) = false) →
  feature_stages cfg df fs =
    (Ok (),
     <[preprocessed_path cfg := in_format cfg (feature_table cfg df)]>
       (<[images_path (output_folder cfg) (batch_name cfg) :=
            CsvFile (columns_labelled df
                       (image_coord_cols (additional_meta_data_to_keep cfg)))]> fs)).
Proof.
  intros HX HY Hmeta Hclass Hnd Hcomplete.
  set (df1 := remove_prefixes_underscores df) in *.
  set (kept_cols := columns_labelled df1
                      (measurement_columns df1 (collect_markers df1) (unwanted_markers cfg))).
  assert (∀ s, s ∈ kept_cols → s ∈ df1) as Hsub.
  { intros s Hs. by apply elem_of_columns_labelled in Hs as [? _]. }
  assert (filter (λ s, mentions (unwanted_statistics cfg) (name s) = false)
            (filter (λ s, mentions (unwanted_compartments cfg) (name s) = false) kept_cols) =
          feature_table cfg df) as Htable.
  { unfold kept_cols, measurement_columns.
    rewrite (columns_labelled_filter df1 _ Hnd), !list_filter_filter.
    unfold feature_table. fold df1. apply list_filter_iff. intros s.
    unfold feature_column. rewrite andb_true_iff, negb_true_iff, mentions_app, orb_false_iff.
    rewrite Is_true_true. tauto. }
  assert (replace_cytoplasm_with_membrane kept_cols = Ok kept_cols) as Hcyt.
  { apply (run_complete "Cytoplasm" "Membrane" cytoplasm_step (λ _ _, eq_refl)).
    - intros s Hs Htok. apply Hcomplete; [by apply Hsub|by left].
    - by apply Forall_forall. }
  assert (use_cell_measurement kept_cols = Ok kept_cols) as Hnuc.
  { apply (run_complete "Nucleus" "Cell" nucleus_step (λ _ _, eq_refl)).
    - intros s Hs Htok. apply Hcomplete; [by apply Hsub|by right].
    - by apply Forall_forall. }
  unfold feature_stages.
  rewrite (convert_microns_only df _ HX HY), lift_Ok_bind.
  rewrite (io_bind_Ok _ _ fs
             (<[images_path (output_folder cfg) (batch_name cfg) :=
                  CsvFile (columns_labelled df
                             (image_coord_cols (additional_meta_data_to_keep cfg)))]> fs) ()).
  2:{ unfold save_image_coordinate_columns.
      fold (image_coord_cols (additional_meta_data_to_keep cfg)).
      by rewrite (select_present df _ Hmeta). }
  destruct (getitem_is_Ok df "Class" Hclass) as [class ->]. rewrite lift_Ok_bind.
  fold df1. rewrite (remove_duplicate_columns_unique df1 Hnd), lift_Ok_bind.
  rewrite drop_markers_total, lift_Ok_bind. fold kept_cols.
  rewrite Hcyt, lift_Ok_bind, Hnuc, lift_Ok_bind.
  unfold remove_unwanted_compartments. rewrite drop_mentioned, lift_Ok_bind.
  unfold remove_statistics. rewrite drop_mentioned, lift_Ok_bind, Htable.
  unfold save_preprocessed_data, preprocessed_path, in_format, write.
  by case_bool_decide.
Qed.

Lemma clean_table_passes_the_feature_stages_witness :
  feature_stages export_config export_example ∅ =
    (Ok (),
     <[preprocessed_path export_config :=
         in_format export_config (feature_table export_config export_example)]>
       (<[images_path "out" "B" :=
            CsvFile (columns_labelled export_example (image_coord_cols []))]> ∅)) ∧
  feature_table export_config export_example =
    [ mkSeries "CD3: Cell: Mean" [Num (B64.of_Z 1); Num (B64.of_Z 2)];
      mkSeries "CD3: Membrane: Mean" [NA; Num (B64.of_Z 3)] ].
Proof.
  split; [|compute_done].
  apply (clean_table_passes_the_feature_stages export_config export_example ∅);
    try compute_done.
  apply (proj1 (Forall_forall
                  (λ s, Py.contains "Cytoplasm" (name s) = true ∨
                        Py.contains "Nucleus" (name s) = true →
                        Pd.any (Pd.isnull <$> values s) = false) _)).
  compute_done.
Defined.
